(** * gcp-scheduler-runner: a shallow embedding of the orchestration core

    The development follows the Python sources module by module:
    [models.py] (classification, endpoint configuration, results, summary),
    [http_executor.py] (single-request runner, sequential and parallel
    fan-out), [auth.py] (API-key gate) and [app.py] (the [/execute] route).

    Conventions.
    - Python values that travel through JSON are terms of [PyVal]; a [str] is
      a [string], one [ascii] standing for one character.
    - A Python computation that may raise is a [Res]; one that also prints,
      issues HTTP requests or opens a thread pool is an [M], which carries the
      trace of those effects in program order.
    - What the interpreter and third-party libraries do ([requests.request],
      [str.upper], the [ThreadPoolExecutor] constructor, the SMTP sender) is
      the [Host] interface.
    - Wall-clock [timestamp] fields are left out of the records. *)

From Stdlib Require Import ZArith QArith List String Ascii Bool Lia.
From Stdlib Require Import Permutation DecimalString.
Import ListNotations.

Open Scope string_scope.
Open Scope Z_scope.
Open Scope list_scope.

(** ** Python values *)

#[local] Unset Elimination Schemes.
Inductive PyVal : Type :=
| PNone
| PBool (b : bool)
| PInt (n : Z)
| PFloat (q : Q)
| PStr (s : string)
| PList (items : list PyVal)
| PDict (entries : list (string * PyVal)).
#[local] Set Elimination Schemes.

Definition PyDict : Type := list (string * PyVal).

(** [bool(v)] *)
Definition truthy (v : PyVal) : bool :=
  match v with
  | PNone => false
  | PBool b => b
  | PInt n => negb (n =? 0)
  | PFloat q => negb (Qeq_bool q 0)
  | PStr s => negb (String.eqb s "")
  | PList items => match items with [] => false | _ :: _ => true end
  | PDict entries => match entries with [] => false | _ :: _ => true end
  end.

(** [a or b] *)
Definition py_or (a b : PyVal) : PyVal := if truthy a then a else b.

(** [v is None] *)
Definition is_none (v : PyVal) : bool :=
  match v with PNone => true | _ => false end.

(** [type(v).__name__] *)
Definition type_name (v : PyVal) : string :=
  match v with
  | PNone => "NoneType"
  | PBool _ => "bool"
  | PInt _ => "int"
  | PFloat _ => "float"
  | PStr _ => "str"
  | PList _ => "list"
  | PDict _ => "dict"
  end.

(** [str(type(v))] *)
Definition type_repr (v : PyVal) : string :=
  ("<class '" ++ type_name v ++ "'>")%string.

Fixpoint dict_lookup (d : PyDict) (k : string) : option PyVal :=
  match d with
  | [] => None
  | (k', v) :: rest => if String.eqb k k' then Some v else dict_lookup rest k
  end.

(** [d.get(k, default)] *)
Definition get_default (d : PyDict) (k : string) (default : PyVal) : PyVal :=
  match dict_lookup d k with Some v => v | None => default end.

(** [d.get(k)] *)
Definition get (d : PyDict) (k : string) : PyVal := get_default d k PNone.

(** [str(n)] for integers *)
Definition str_of_nat (n : nat) : string := NilZero.string_of_uint (Nat.to_uint n).
Definition str_of_Z (n : Z) : string := NilZero.string_of_int (Z.to_int n).

(** ** Exceptions

    A class stands for itself and its subclasses, as an [except] clause sees
    them ([ConnectionError] and [Timeout] are [RequestException];
    [JSONDecodeError] is [ValueError]). *)

Inductive ExcClass : Type :=
| RequestException
| ValueError
| AttributeError
| TypeError
| AuthenticationError (status_code : Z)
| OtherException (name : string).

Record Exc : Type := mkExc { exc_class : ExcClass; exc_str : string }.

Inductive Res (A : Type) : Type :=
| Ok (a : A)
| Raise (e : Exc).
Arguments Ok {A} a.
Arguments Raise {A} e.

(** ** HTTP requests and responses, as [requests] sees them *)

Record Request : Type := mkRequest {
  req_method : string;
  req_url : PyVal;
  req_headers : PyVal;
  req_params : PyVal;
  req_timeout : PyVal;
  req_json : PyVal;
  req_data : PyVal
}.

(** [resp_json] is [None] when [response.json()] raises. *)
Record Response : Type := mkResponse {
  resp_status_code : Z;
  resp_json : option PyVal;
  resp_text : string
}.

(** ** models.py *)

Inductive ExecutionStatus : Type := SUCCESS | WARNING | ERROR.

Definition ExecutionStatus_eqb (a b : ExecutionStatus) : bool :=
  match a, b with
  | SUCCESS, SUCCESS | WARNING, WARNING | ERROR, ERROR => true
  | _, _ => false
  end.

Module ExecutionResult.

Record t : Type := mk {
  endpoint : PyVal;
  method : string;
  status_code : Z;
  response : PyVal;
  error : option string;
  status : ExecutionStatus
}.

Definition from_error (endpoint : PyVal) (error_message : string) : t :=
  {| endpoint := endpoint;
     method := "UNKNOWN";
     status_code := 0;
     response := PNone;
     error := Some error_message;
     status := ERROR |}.

Definition _classify_status (status_code : Z) : ExecutionStatus :=
  if status_code =? 207 then WARNING
  else if (200 <=? status_code) && (status_code <? 300) then SUCCESS
  else ERROR.

Definition from_response (endpoint : PyVal) (method : string) (response : Response) : t :=
  let response_data :=
    match resp_json response with
    | Some data => data
    | None => PStr (resp_text response)
    end in
  let status := _classify_status (resp_status_code response) in
  let error :=
    match status with
    | ERROR => Some ("HTTP " ++ str_of_Z (resp_status_code response))%string
    | _ => None
    end in
  {| endpoint := endpoint;
     method := method;
     status_code := resp_status_code response;
     response := response_data;
     error := error;
     status := status |}.

End ExecutionResult.

(** The JSON object the [/execute] route answers with, one field per key
    ([details_warnings] and [details_errors] are the two lists under
    ["details"]). The [results] list and the two [details] lists hold the
    result records whose [to_dict] images the code stores, position by
    position; an entry of [details_errors] written by the GET handler's
    exception path is the bare [str(ex)]. [email_notification] is [None] when
    the key is absent. *)
Module ResponseBody.

Record t : Type := mk {
  success : bool;
  total_endpoints : Z;
  successful : Z;
  warnings : Z;
  failed : Z;
  results : list ExecutionResult.t;
  details_warnings : list ExecutionResult.t;
  details_errors : list (ExecutionResult.t + string);
  execution_mode : string;
  email_notification : option PyDict
}.

End ResponseBody.

Module ExecutionSummary.

Record t : Type := mk {
  total_endpoints : Z;
  successful : Z;
  warnings : Z;
  failed : Z;
  results : list ExecutionResult.t;
  details_warnings : list ExecutionResult.t;
  details_errors : list (ExecutionResult.t + string);
  execution_mode : string;
  email_notification : PyDict
}.

Definition success (self : t) : bool :=
  (failed self =? 0) && (warnings self =? 0).

Definition has_errors (self : t) : bool := failed self >? 0.

Definition has_warnings (self : t) : bool := warnings self >? 0.

Definition get_http_status (self : t) : Z :=
  if has_errors self then 500
  else if has_warnings self then 207
  else 200.

Definition to_dict (self : t) : ResponseBody.t :=
  {| ResponseBody.success := success self;
     ResponseBody.total_endpoints := total_endpoints self;
     ResponseBody.successful := successful self;
     ResponseBody.warnings := warnings self;
     ResponseBody.failed := failed self;
     ResponseBody.results := results self;
     ResponseBody.details_warnings := details_warnings self;
     ResponseBody.details_errors := details_errors self;
     ResponseBody.execution_mode := execution_mode self;
     ResponseBody.email_notification := Some (email_notification self) |}.

(** [self.email_notification = v] *)
Definition set_email_notification (self : t) (v : PyDict) : t :=
  {| total_endpoints := total_endpoints self;
     successful := successful self;
     warnings := warnings self;
     failed := failed self;
     results := results self;
     details_warnings := details_warnings self;
     details_errors := details_errors self;
     execution_mode := execution_mode self;
     email_notification := v |}.

End ExecutionSummary.

(** ** Effects

    The trace of the calling thread: the executor's [print] lines (the two
    mode banners, [Executing: ...], [Completed: ... - Status: ...] and
    [Error on ...: ...], each with the values it formats), the
    [requests.request] calls and the [ThreadPoolExecutor(max_workers=...)]
    constructor calls. *)

Inductive Event : Type :=
| PrintSequential
| PrintParallel (max_workers : PyVal)
| PrintExecuting (endpoint_name : PyVal)
| PrintCompleted (endpoint_name : PyVal) (status_code : Z)
| PrintError (endpoint_name : PyVal) (message : string)
| HttpRequest (endpoint_idx : nat) (request : Request)
| ThreadPoolExecutorCall (max_workers : PyVal).

Definition M (A : Type) : Type := (list Event * Res A)%type.

Definition ret {A} (a : A) : M A := ([], Ok a).

Definition bind {A B} (m : M A) (k : A -> M B) : M B :=
  match m with
  | (log, Ok a) => let (log', r) := k a in (log ++ log', r)
  | (log, Raise e) => (log, Raise e)
  end.

Definition emit (e : Event) : M unit := ([e], Ok tt).
Definition lift {A} (r : Res A) : M A := ([], r).

Declare Scope py_scope.
Delimit Scope py_scope with py.
Notation "x <- m ;; k" := (bind m (fun x => k))
  (at level 61, m at next level, right associativity) : py_scope.
Notation "m ;; k" := (bind m (fun _ => k))
  (at level 61, right associativity) : py_scope.
Open Scope py_scope.

(** ** The host: interpreter and library behaviour the sources rely on

    [requests_request idx r] is the outcome of the [requests.request] call
    made for the endpoint at position [idx]; [str_upper] is [str.upper];
    [ThreadPoolExecutor_init w] is [Some e] when the pool constructor rejects
    [w] by raising [e]; [send_notification] is the [email_result] mapping the
    notification service returns for a summary (it never raises, and reads the
    summary without changing it). *)

Class Host : Type := {
  requests_request : nat -> Request -> Res Response;
  str_upper : string -> string;
  ThreadPoolExecutor_init : PyVal -> option Exc;
  send_notification : ExecutionSummary.t -> PyDict
}.

(** ** models.py, continued: endpoint configuration *)

Module EndpointConfig.

Record t : Type := mk {
  url : PyVal;
  method : string;
  headers : PyVal;
  body : PyVal;
  json_data : PyVal;
  params : PyVal;
  timeout : PyVal
}.

Section WithHost.
Context {host : Host}.

(** [v.upper()] for a value read from JSON: only a [str] has the method. *)
Definition upper (v : PyVal) : Res string :=
  match v with
  | PStr s => Ok (str_upper s)
  | _ => Raise (mkExc AttributeError
                  ("'" ++ type_name v ++ "' object has no attribute 'upper'")%string)
  end.

Definition from_config (config : PyVal) : Res t :=
  match config with
  | PStr s =>
      Ok {| url := PStr s; method := "POST"; headers := PDict [];
            body := PNone; json_data := PNone; params := PDict [];
            timeout := PInt 30 |}
  | PDict d =>
      match upper (get_default d "method" (PStr "POST")) with
      | Ok m =>
          Ok {| url := get d "url";
                method := m;
                headers := get_default d "headers" (PDict []);
                body := get d "body";
                json_data := get d "json";
                params := get_default d "params" (PDict []);
                timeout := get_default d "timeout" (PInt 30) |}
      | Raise e => Raise e
      end
  | _ =>
      Raise (mkExc ValueError
               ("Invalid endpoint configuration type: " ++ type_repr config)%string)
  end.

End WithHost.
End EndpointConfig.

(** ** http_executor.py *)

(** [enumerate(endpoints)] *)
Definition enumerate {A} (l : list A) : list (nat * A) :=
  combine (seq 0 (List.length l)) l.

(** [try: m except ...: handler(exc)] *)
Definition try_except {A} (m : M A) (handler : Exc -> M A) : M A :=
  match m with
  | (log, Raise exc) => let (log', r) := handler exc in (log ++ log', r)
  | (log, Ok a) => (log, Ok a)
  end.

Module HTTPExecutor.

Record t : Type := mk { max_workers : PyVal }.

(** The [(results, warnings, errors)] triple the executor returns. *)
Definition Buckets : Type :=
  (list ExecutionResult.t * list ExecutionResult.t * list ExecutionResult.t)%type.

(** One round of the [if status == ... append] chain shared by both loops. *)
Definition append (acc : Buckets) (status : ExecutionStatus)
    (result : ExecutionResult.t) : Buckets :=
  let '(results, warnings, errors) := acc in
  match status with
  | SUCCESS => (results ++ [result], warnings, errors)
  | WARNING => (results, warnings ++ [result], errors)
  | ERROR => (results, warnings, errors ++ [result])
  end.

(** The local [body] of [execute_request] once the default payload has been
    considered. *)
Definition resolved_body (endpoint_config : EndpointConfig.t)
    (default_payload : PyVal) : PyVal :=
  let body := py_or (EndpointConfig.json_data endpoint_config)
                    (EndpointConfig.body endpoint_config) in
  if is_none body && truthy default_payload then default_payload else body.

(** The arguments [execute_request] hands to [requests.request]. *)
Definition request_of (endpoint_config : EndpointConfig.t)
    (default_payload : PyVal) : Request :=
  let body := resolved_body endpoint_config default_payload in
  {| req_method := EndpointConfig.method endpoint_config;
     req_url := EndpointConfig.url endpoint_config;
     req_headers := EndpointConfig.headers endpoint_config;
     req_params := EndpointConfig.params endpoint_config;
     req_timeout := EndpointConfig.timeout endpoint_config;
     req_json := match body with PDict _ => body | _ => PNone end;
     req_data := match body with PDict _ => PNone | _ => body end |}.

(** The [except (requests.exceptions.RequestException, ValueError)] filter. *)
Definition caught (exc : Exc) : bool :=
  match exc_class exc with
  | RequestException | ValueError => true
  | _ => false
  end.

(** [endpoint_name or f"endpoint_{endpoint_idx}"] *)
Definition name_or_fallback (endpoint_name : PyVal) (endpoint_idx : nat) : PyVal :=
  py_or endpoint_name (PStr ("endpoint_" ++ str_of_nat endpoint_idx)%string).

(** The [except] clause of [execute_single_endpoint]; [endpoint_name] is the
    value the local variable holds when the exception reaches the clause. *)
Definition except_clause (endpoint_name : PyVal) (endpoint_idx : nat) (exc : Exc)
    : M (ExecutionStatus * ExecutionResult.t) :=
  if caught exc then
    emit (PrintError (name_or_fallback endpoint_name endpoint_idx) (exc_str exc)) ;;
    ret (ERROR,
         ExecutionResult.from_error
           (name_or_fallback endpoint_name endpoint_idx) (exc_str exc))
  else lift (Raise exc).

Section WithHost.
Context {host : Host}.

Definition execute_request (self : t) (endpoint_idx : nat)
    (endpoint_config : EndpointConfig.t) (default_payload : PyVal) : M Response :=
  let request := request_of endpoint_config default_payload in
  emit (HttpRequest endpoint_idx request) ;;
  lift (requests_request endpoint_idx request).

Definition execute_single_endpoint (self : t) (endpoint_idx : nat)
    (endpoint_config_raw : PyVal) (default_payload : PyVal)
    : M (ExecutionStatus * ExecutionResult.t) :=
  match EndpointConfig.from_config endpoint_config_raw with
  | Raise exc => except_clause PNone endpoint_idx exc
  | Ok endpoint_config =>
      let endpoint_name := EndpointConfig.url endpoint_config in
      try_except
        (emit (PrintExecuting endpoint_name) ;;
         response <- execute_request self endpoint_idx endpoint_config default_payload ;;
         let result :=
           ExecutionResult.from_response
             endpoint_name (EndpointConfig.method endpoint_config) response in
         emit (PrintCompleted endpoint_name (resp_status_code response)) ;;
         ret (ExecutionResult.status result, result))
        (except_clause endpoint_name endpoint_idx)
  end.

(** The [for] loop of [execute_sequential] over the pairs still to run. *)
Fixpoint sequential_loop (self : t) (default_payload : PyVal)
    (todo : list (nat * PyVal)) (acc : Buckets) : M Buckets :=
  match todo with
  | [] => ret acc
  | (endpoint_idx, endpoint_config) :: rest =>
      sr <- execute_single_endpoint self endpoint_idx endpoint_config default_payload ;;
      sequential_loop self default_payload rest (append acc (fst sr) (snd sr))
  end.

Definition execute_sequential (self : t) (endpoints : list PyVal)
    (default_payload : PyVal) : M Buckets :=
  emit PrintSequential ;;
  sequential_loop self default_payload (enumerate endpoints) ([], [], []).

(** [future.result()] for the task submitted for one endpoint. The task runs
    on a pool thread whose prints and requests interleave freely with the
    others'; the trace of the calling thread does not hold them. *)
Definition future_result (self : t) (endpoint_idx : nat)
    (endpoint_config : PyVal) (default_payload : PyVal)
    : Res (ExecutionStatus * ExecutionResult.t) :=
  snd (execute_single_endpoint self endpoint_idx endpoint_config default_payload).

(** The [for future in as_completed(...)] loop over the futures in the order
    they complete. *)
Fixpoint completion_loop (self : t) (default_payload : PyVal)
    (completed : list (nat * PyVal)) (acc : Buckets) : M Buckets :=
  match completed with
  | [] => ret acc
  | (endpoint_idx, endpoint_config) :: rest =>
      sr <- lift (future_result self endpoint_idx endpoint_config default_payload) ;;
      completion_loop self default_payload rest (append acc (fst sr) (snd sr))
  end.

(** [as_completed] is the order in which the submitted futures complete: a
    rearrangement of [enumerate endpoints] chosen by the scheduler. *)
Definition execute_parallel (self : t) (endpoints : list PyVal)
    (default_payload : PyVal) (as_completed : list (nat * PyVal)) : M Buckets :=
  emit (PrintParallel (max_workers self)) ;;
  emit (ThreadPoolExecutorCall (max_workers self)) ;;
  match ThreadPoolExecutor_init (max_workers self) with
  | Some exc => lift (Raise exc)
  | None => completion_loop self default_payload as_completed ([], [], [])
  end.

Definition execute (self : t) (endpoints : list PyVal) (parallel : PyVal)
    (default_payload : PyVal) (as_completed : list (nat * PyVal)) : M Buckets :=
  if negb (truthy parallel) || (List.length endpoints <=? 1)%nat
  then execute_sequential self endpoints default_payload
  else execute_parallel self endpoints default_payload as_completed.

End WithHost.
End HTTPExecutor.

(** ** auth.py *)

Module APIKeyAuthenticator.

Record t : Type := mk { api_key : option string; is_enabled : bool }.

(** [__init__] *)
Definition init (api_key : option string) : t :=
  {| api_key := api_key;
     is_enabled := match api_key with Some _ => true | None => false end |}.

(** [not provided_key] for a header value: absent or empty. *)
Definition falsy_key (provided_key : option string) : bool :=
  match provided_key with
  | None => true
  | Some k => String.eqb k ""
  end.

(** [a == b] on optional strings *)
Definition key_eqb (a b : option string) : bool :=
  match a, b with
  | Some x, Some y => String.eqb x y
  | None, None => true
  | _, _ => false
  end.

Definition validate (self : t) (provided_key : option string) : Res unit :=
  if negb (is_enabled self) then Ok tt
  else if falsy_key provided_key then
    Raise (mkExc (AuthenticationError 401)
             "Missing X-API-Key header. This endpoint requires authentication.")
  else if negb (key_eqb provided_key (api_key self)) then
    Raise (mkExc (AuthenticationError 403)
             "Invalid X-API-Key. The provided API key is not valid.")
  else Ok tt.

Definition is_authentication_enabled (self : t) : bool := is_enabled self.

End APIKeyAuthenticator.

(** [message.split(".")[0]] *)
Fixpoint before_first_dot (message : string) : string :=
  match message with
  | EmptyString => EmptyString
  | String c rest =>
      if Ascii.eqb c "."%char then EmptyString
      else String c (before_first_dot rest)
  end.

(** What a decorated route answers: the handler's own value, or the
    [(jsonify({"error": ..., "message": ...}), status_code)] rejection. *)
Inductive Reply (R : Type) : Type :=
| Handled (r : R)
| Rejected (error message : string) (status_code : Z).
Arguments Handled {R} r.
Arguments Rejected {R} error message status_code.

(** [require_api_key()(func)], the [decorated_function]. [API_KEY] is
    [config.API_KEY] after the reload; [current_app] is the active
    application's [config] mapping, [None] outside an application context
    (the [RuntimeError] branch); [X_API_Key] is
    [request.headers.get("X-API-Key")]; [func] is the protected handler. *)
Definition decorated_function {R} (API_KEY : option string)
    (current_app : option PyDict) (X_API_Key : option string)
    (func : unit -> M R) : M (Reply R) :=
  let actual_api_key := API_KEY in
  let authenticator := APIKeyAuthenticator.init actual_api_key in
  let provided_key := X_API_Key in
  let is_testing :=
    match current_app with
    | Some config => get_default config "TESTING" (PBool false)
    | None => PBool false
    end in
  if truthy is_testing
     && APIKeyAuthenticator.key_eqb provided_key (Some "test-api-key-123")
  then r <- func tt ;; ret (Handled r)
  else
    try_except
      (lift (APIKeyAuthenticator.validate authenticator provided_key) ;;
       r <- func tt ;; ret (Handled r))
      (fun exc =>
         match exc_class exc with
         | AuthenticationError status_code =>
             ret (Rejected (before_first_dot (exc_str exc)) (exc_str exc) status_code)
         | _ => lift (Raise exc)
         end).

(** ** app.py *)

(** [len(v)] and the items [enumerate(v)] walks through, for a value read
    from the request body; a value without [__len__] raises. *)
Definition py_sequence (v : PyVal) : Res (list PyVal) :=
  match v with
  | PList items => Ok items
  | PStr s => Ok (map (fun c => PStr (String c EmptyString)) (list_ascii_of_string s))
  | PDict entries => Ok (map (fun kv => PStr (fst kv)) entries)
  | _ => Raise (mkExc TypeError
                  ("object of type '" ++ type_name v ++ "' has no len()")%string)
  end.

(** [v.get] exists on mappings only. *)
Definition py_mapping (v : PyVal) : Res PyDict :=
  match v with
  | PDict entries => Ok entries
  | _ => Raise (mkExc AttributeError
                  ("'" ++ type_name v ++ "' object has no attribute 'get'")%string)
  end.

(** [min(10, len(endpoints) or 1)] *)
Definition default_max_workers (endpoints : list PyVal) : Z :=
  Z.min 10 (if (List.length endpoints =? 0)%nat then 1 else Z.of_nat (List.length endpoints)).

Module App.

(** The module global [ENDPOINTS_TO_EXECUTE] and the outcome a call of
    [load_endpoints_from_env()] has in the current environment. *)
Record State : Type := mkState {
  ENDPOINTS_TO_EXECUTE : option (list PyVal);
  load_endpoints_from_env : Res (list PyVal)
}.

(** [ENDPOINTS_TO_EXECUTE if ENDPOINTS_TO_EXECUTE is not None
     else load_endpoints_from_env()] *)
Definition configured_endpoints (st : State) : Res (list PyVal) :=
  match ENDPOINTS_TO_EXECUTE st with
  | Some endpoints => Ok endpoints
  | None => load_endpoints_from_env st
  end.

Definition empty_get_body : ResponseBody.t :=
  {| ResponseBody.success := false;
     ResponseBody.total_endpoints := 0;
     ResponseBody.successful := 0;
     ResponseBody.warnings := 0;
     ResponseBody.failed := 0;
     ResponseBody.results := [];
     ResponseBody.details_warnings := [];
     ResponseBody.details_errors := [];
     ResponseBody.execution_mode := "sequential";
     ResponseBody.email_notification := None |}.

Section WithHost.
Context {host : Host}.

Definition _handle_email_notification (send_email : PyVal)
    (summary : ExecutionSummary.t) : ExecutionSummary.t :=
  if negb (truthy send_email) then
    ExecutionSummary.set_email_notification summary
      [("email_sent", PBool false);
       ("reason", PStr "Email notification was not requested")]
  else
    let email_result := send_notification summary in
    if truthy (get email_result "email_sent") then
      ExecutionSummary.set_email_notification summary
        [("email_sent", PBool true);
         ("email_to", get email_result "recipient");
         ("email_from", get email_result "from");
         ("attachments", get_default email_result "attachments" (PInt 0))]
    else
      ExecutionSummary.set_email_notification summary
        [("email_sent", PBool false);
         ("error", get_default email_result "error" (PStr "Unknown error"))].

(** The [request.method == "GET"] branch of [execute_endpoints]. *)
Definition execute_endpoints_get (st : State) : M (ResponseBody.t * Z) :=
  endpoints <- lift (match configured_endpoints st with
                     | Ok endpoints => Ok endpoints
                     | Raise exc =>
                         match exc_class exc with
                         | ValueError => Ok []
                         | _ => Raise exc
                         end
                     end) ;;
  match endpoints with
  | [] => ret (empty_get_body, 200)
  | _ :: _ =>
      let executor := HTTPExecutor.mk (PInt (default_max_workers endpoints)) in
      match HTTPExecutor.execute executor endpoints (PBool false) PNone [] with
      | (log, Raise ex) =>
          (log,
           Ok ({| ResponseBody.success := false;
                  ResponseBody.total_endpoints := Z.of_nat (List.length endpoints);
                  ResponseBody.successful := 0;
                  ResponseBody.warnings := 0;
                  ResponseBody.failed := Z.of_nat (List.length endpoints);
                  ResponseBody.results := [];
                  ResponseBody.details_warnings := [];
                  ResponseBody.details_errors := [inr (exc_str ex)];
                  ResponseBody.execution_mode := "sequential";
                  ResponseBody.email_notification := None |},
               500))
      | (log, Ok (results, warnings, errors)) =>
          let failed := Z.of_nat (List.length errors) in
          (log,
           Ok ({| ResponseBody.success := failed =? 0;
                  ResponseBody.total_endpoints := Z.of_nat (List.length endpoints);
                  ResponseBody.successful := Z.of_nat (List.length results);
                  ResponseBody.warnings := Z.of_nat (List.length warnings);
                  ResponseBody.failed := failed;
                  ResponseBody.results := results;
                  ResponseBody.details_warnings := warnings;
                  ResponseBody.details_errors := map inl errors;
                  ResponseBody.execution_mode := "sequential";
                  ResponseBody.email_notification := None |},
               if failed =? 0 then 200 else 500))
      end
  end.

(** The [ExecutionSummary(...)] the POST branch builds from the buckets. *)
Definition build_summary (endpoints : list PyVal) (parallel : PyVal)
    (buckets : HTTPExecutor.Buckets) : ExecutionSummary.t :=
  let '(results, warnings, errors) := buckets in
  let execution_mode :=
    if truthy parallel && (1 <? List.length endpoints)%nat
    then "parallel" else "sequential" in
  {| ExecutionSummary.total_endpoints := Z.of_nat (List.length endpoints);
     ExecutionSummary.successful := Z.of_nat (List.length results);
     ExecutionSummary.warnings := Z.of_nat (List.length warnings);
     ExecutionSummary.failed := Z.of_nat (List.length errors);
     ExecutionSummary.results := results;
     ExecutionSummary.details_warnings := warnings;
     ExecutionSummary.details_errors := map inl errors;
     ExecutionSummary.execution_mode := execution_mode;
     ExecutionSummary.email_notification := [] |}.

(** The list bound to [endpoints] when the POST branch reaches its
    execution configuration: the body's ["endpoints"], or the configured
    ones (none when loading them raises) if that is [None]; the first
    [len(endpoints)] raises on a value that has no length. *)
Definition request_endpoints (st : State) (data : PyDict) : Res (list PyVal) :=
  match get data "endpoints" with
  | PNone =>
      match configured_endpoints st with
      | Ok endpoints => Ok endpoints
      | Raise _ => Ok []
      end
  | supplied => py_sequence supplied
  end.

(** The POST branch of [execute_endpoints]; [json] is
    [request.get_json(silent=True)]. It yields the summary whose [to_dict]
    image is the response body, and the response status. *)
Definition execute_endpoints_post (st : State) (json : PyVal)
    (as_completed : list (nat * PyVal)) : M (ExecutionSummary.t * Z) :=
  data <- lift (py_mapping (py_or json (PDict []))) ;;
  endpoints <- lift (request_endpoints st data) ;;
  let default_payload := py_or (get data "default_payload") (get data "payload") in
  let parallel := get_default data "parallel" (PBool true) in
  let max_workers :=
    get_default data "max_workers" (PInt (default_max_workers endpoints)) in
  let send_email := get_default data "send_email" (PBool false) in
  let executor := HTTPExecutor.mk max_workers in
  buckets <- HTTPExecutor.execute executor endpoints parallel default_payload as_completed ;;
  let summary := build_summary endpoints parallel buckets in
  let summary := _handle_email_notification send_email summary in
  ret (summary, ExecutionSummary.get_http_status summary).

(** The route handler: the response body and the HTTP status. *)
Definition execute_endpoints (st : State) (method : string) (json : PyVal)
    (as_completed : list (nat * PyVal)) : M (ResponseBody.t * Z) :=
  if String.eqb method "GET" then execute_endpoints_get st
  else
    answer <- execute_endpoints_post st json as_completed ;;
    ret (ExecutionSummary.to_dict (fst answer), snd answer).

End WithHost.
End App.

(** ** Vocabulary of the statements *)

(** The results of classification [s] among runner outcomes, in the order
    of the outcomes. *)
Definition bucket (s : ExecutionStatus)
    (outcomes : list (ExecutionStatus * ExecutionResult.t)) : list ExecutionResult.t :=
  map snd (filter (fun sr => ExecutionStatus_eqb (fst sr) s) outcomes).

Section RunnerViews.
Context {host : Host}.

(** What the runner returns, and what it prints and requests, when called
    for one pair of [enumerate(endpoints)]. *)
Definition runner_result (self : HTTPExecutor.t) (default_payload : PyVal)
    (ir : nat * PyVal) : Res (ExecutionStatus * ExecutionResult.t) :=
  snd (HTTPExecutor.execute_single_endpoint self (fst ir) (snd ir) default_payload).

Definition runner_trace (self : HTTPExecutor.t) (default_payload : PyVal)
    (ir : nat * PyVal) : list Event :=
  fst (HTTPExecutor.execute_single_endpoint self (fst ir) (snd ir) default_payload).

End RunnerViews.

(** [isinstance(v, str) or isinstance(v, dict)] *)
Definition str_or_dict (v : PyVal) : bool :=
  match v with
  | PStr _ | PDict _ => true
  | _ => false
  end.

(** The [max_workers] arguments of the thread pools a trace opens. *)
Fixpoint pool_calls (log : list Event) : list PyVal :=
  match log with
  | [] => []
  | ThreadPoolExecutorCall w :: rest => w :: pool_calls rest
  | _ :: rest => pool_calls rest
  end.

(** The [status_code] of the [AuthenticationError] a gate outcome raises. *)
Definition rejection_code {A} (r : Res A) : option Z :=
  match r with
  | Raise (mkExc (AuthenticationError status_code) _) => Some status_code
  | _ => None
  end.

(** ** A stubbed host, in the manner of the repository's tests

    The transport answers by URL: [http://x/ok] with 200, [http://x/warn]
    with 207, [http://x/bad] refuses the connection, any other string gets
    404 and a value that is no string is rejected as an invalid URL. *)

Definition ascii_upper (c : ascii) : ascii :=
  let n := nat_of_ascii c in
  if ((97 <=? n) && (n <=? 122))%nat then ascii_of_nat (n - 32) else c.

Fixpoint ascii_str_upper (s : string) : string :=
  match s with
  | EmptyString => EmptyString
  | String c rest => String (ascii_upper c) (ascii_str_upper rest)
  end.

Definition stub_request (endpoint_idx : nat) (request : Request) : Res Response :=
  match req_url request with
  | PStr u =>
      if String.eqb u "http://x/ok" then
        Ok (mkResponse 200 (Some (PDict [("result", PStr "success")])) "")
      else if String.eqb u "http://x/warn" then
        Ok (mkResponse 207 (Some (PDict [("message", PStr "partial")])) "")
      else if String.eqb u "http://x/bad" then
        Raise (mkExc RequestException "Connection refused")
      else Ok (mkResponse 404 None "Not Found")
  | _ => Raise (mkExc RequestException "Invalid URL")
  end.

Definition stub_pool (max_workers : PyVal) : option Exc :=
  match max_workers with
  | PNone => None
  | PInt n =>
      if n <=? 0 then Some (mkExc ValueError "max_workers must be greater than 0")
      else None
  | _ => Some (mkExc TypeError "max_workers must be an int")
  end.

Definition stub_host : Host :=
  {| requests_request := stub_request;
     str_upper := ascii_str_upper;
     ThreadPoolExecutor_init := stub_pool;
     send_notification := fun _ =>
       [("email_sent", PBool false); ("error", PStr "Email configuration incomplete")] |}.

Definition ok_warn_bad : list PyVal :=
  [PStr "http://x/ok"; PStr "http://x/warn"; PStr "http://x/bad"].

Definition stub_executor : HTTPExecutor.t := HTTPExecutor.mk (PInt 3).

(** What the runner returns for the three endpoints, in input order. *)
Definition ok_warn_bad_outcomes : list (ExecutionStatus * ExecutionResult.t) :=
  [(SUCCESS,
    ExecutionResult.mk (PStr "http://x/ok") "POST" 200
      (PDict [("result", PStr "success")]) None SUCCESS);
   (WARNING,
    ExecutionResult.mk (PStr "http://x/warn") "POST" 207
      (PDict [("message", PStr "partial")]) None WARNING);
   (ERROR,
    ExecutionResult.mk (PStr "http://x/bad") "UNKNOWN" 0 PNone
      (Some "Connection refused") ERROR)].

(** The buckets of a run over the three endpoints: one result each. *)
Definition ok_warn_bad_buckets : HTTPExecutor.Buckets :=
  (bucket SUCCESS ok_warn_bad_outcomes,
   bucket WARNING ok_warn_bad_outcomes,
   bucket ERROR ok_warn_bad_outcomes).

(** The trace of the parallel run: the banner and the pool. *)
Definition parallel_log : list Event :=
  [PrintParallel (PInt 3); ThreadPoolExecutorCall (PInt 3)].

(** No endpoints configured: the global is unset and loading fails. *)
Definition unconfigured : App.State :=
  App.mkState None
    (Raise (mkExc (OtherException "ConfigurationError")
              "ENDPOINTS environment variable is not set")).

(** A POST body asking for fifty workers for two endpoints, and one that
    leaves the number of workers out. *)
Definition fifty_workers : PyDict :=
  [("endpoints", PList [PStr "http://x/ok"; PStr "http://x/warn"]);
   ("max_workers", PInt 50)].

Definition default_workers : PyDict :=
  [("endpoints", PList [PStr "http://x/ok"; PStr "http://x/warn"])].

(** A descriptor that gives both a body and a JSON document. *)
Definition body_and_json : PyDict :=
  [("url", PStr "http://x/ok");
   ("body", PStr "raw data");
   ("json", PDict [("data", PStr "value")])].

(** What [from_config] makes of it. *)
Definition body_and_json_config : EndpointConfig.t :=
  EndpointConfig.mk (PStr "http://x/ok") "POST" (PDict [])
    (PStr "raw data") (PDict [("data", PStr "value")]) (PDict []) (PInt 30).

(** ** app.py at the root of the repository: the earlier [execute_request]

    The function the executor was made from takes the descriptor itself; a
    string stands for [{"url": ..., "method": "POST"}]. *)
Module Legacy.

Definition endpoint_mapping (endpoint_config : PyVal) : Res PyDict :=
  match endpoint_config with
  | PStr url => Ok [("url", PStr url); ("method", PStr "POST")]
  | PDict d => Ok d
  | other =>
      Raise (mkExc AttributeError
               ("'" ++ type_name other ++ "' object has no attribute 'get'")%string)
  end.

(** Its local [body] once the default payload has been considered. *)
Definition resolved_body (endpoint_config : PyDict) (default_payload : PyVal) : PyVal :=
  let body := py_or (get endpoint_config "body") (get endpoint_config "json") in
  if is_none body && truthy default_payload then default_payload else body.

End Legacy.

(** A descriptor whose method is a number. *)
Definition numeric_method : PyVal :=
  PDict [("url", PStr "http://x/ok"); ("method", PInt 5)].

(** ** Further vocabulary *)

(** The positions of the endpoints a trace issues [requests.request]
    calls for, in the order of the calls. *)
Fixpoint http_requests (log : list Event) : list nat :=
  match log with
  | [] => []
  | HttpRequest endpoint_idx _ :: rest => endpoint_idx :: http_requests rest
  | _ :: rest => http_requests rest
  end.

(** [from_config] accepts the descriptor. *)
Definition parses {host : Host} (raw : PyVal) : bool :=
  match EndpointConfig.from_config raw with
  | Ok _ => true
  | Raise _ => false
  end.

(** The condition under which [decorated_function] calls the handler
    without consulting the authenticator. *)
Definition testing_bypass (current_app : option PyDict)
    (X_API_Key : option string) : bool :=
  truthy (match current_app with
          | Some config => get_default config "TESTING" (PBool false)
          | None => PBool false
          end)
  && APIKeyAuthenticator.key_eqb X_API_Key (Some "test-api-key-123").

(** What a result of each classification looks like. *)
Definition well_formed_result (x : ExecutionResult.t) : Prop :=
  match ExecutionResult.status x with
  | SUCCESS =>
      200 <= ExecutionResult.status_code x <= 299 /\
      ExecutionResult.status_code x <> 207 /\
      ExecutionResult.error x = None
  | WARNING =>
      ExecutionResult.status_code x = 207 /\ ExecutionResult.error x = None
  | ERROR =>
      ~ 200 <= ExecutionResult.status_code x <= 299 /\
      exists message, ExecutionResult.error x = Some message
  end.

(** ** Further instances on the stubbed host *)

(** The trace of the sequential run over the three endpoints. *)
Definition sequential_log : list Event :=
  PrintSequential ::
    List.concat (map (@runner_trace stub_host stub_executor PNone)
                     (enumerate ok_warn_bad)).

(** A POST body that runs the three endpoints one after the other, and the
    summary it is answered with. *)
Definition sequential_three : PyDict :=
  [("endpoints", PList ok_warn_bad); ("parallel", PBool false)].

Definition sequential_three_summary : ExecutionSummary.t :=
  @App._handle_email_notification stub_host (PBool false)
    (App.build_summary ok_warn_bad (PBool false) ok_warn_bad_buckets).

(** ** models.py, continued: the dictionary form of a result

    [ExecutionResult.to_dict]; the [timestamp] the record does not hold is
    passed in. *)
Definition ExecutionResult_to_dict (self : ExecutionResult.t)
    (timestamp : string) : PyDict :=
  let result :=
    [("endpoint", ExecutionResult.endpoint self);
     ("method", PStr (ExecutionResult.method self));
     ("status_code", PInt (ExecutionResult.status_code self));
     ("response", ExecutionResult.response self);
     ("timestamp", PStr timestamp)] in
  match ExecutionResult.error self with
  | Some message =>
      if String.eqb message "" then result else result ++ [("error", PStr message)]
  | None => result
  end.

(** ** String methods of the interpreter *)

(** [s.startswith(prefix)] *)
Fixpoint starts_with (prefix s : string) : bool :=
  match prefix, s with
  | EmptyString, _ => true
  | String _ _, EmptyString => false
  | String a prefix', String b s' => Ascii.eqb a b && starts_with prefix' s'
  end.

(** The left-to-right scan of [s.replace(old, new)] for a non-empty [old]:
    [skip] counts the characters of an occurrence still to be passed
    over. *)
Fixpoint replace_scan (old new : string) (skip : nat) (s : string) : string :=
  match s with
  | EmptyString => EmptyString
  | String c rest =>
      match skip with
      | S k => replace_scan old new k rest
      | O =>
          if starts_with old s
          then (new ++ replace_scan old new (String.length old - 1) rest)%string
          else String c (replace_scan old new 0 rest)
      end
  end.

(** [s.replace("", new)]: [new] goes before every character and at the
    end. *)
Fixpoint intersperse (new s : string) : string :=
  match s with
  | EmptyString => new
  | String c rest => (new ++ String c (intersperse new rest))%string
  end.

(** [s.replace(old, new)] *)
Definition str_replace (s old new : string) : string :=
  match old with
  | EmptyString => intersperse new s
  | String _ _ => replace_scan old new 0 s
  end.

(** The first [n] characters. *)
Fixpoint str_take (n : nat) (s : string) : string :=
  match n, s with
  | O, _ => EmptyString
  | S _, EmptyString => EmptyString
  | S k, String c rest => String c (str_take k rest)
  end.

(** [s[:stop]] *)
Definition str_slice_to (s : string) (stop : Z) : string :=
  if stop <? 0
  then str_take (String.length s - Z.to_nat (- stop)) s
  else str_take (Z.to_nat stop) s.

(** ** email_service.py: attachment names *)

Module AttachmentBuilder.

Definition sanitize_filename (endpoint : string) (max_length : Z) : string :=
  str_slice_to
    (str_replace
       (str_replace
          (str_replace (str_replace endpoint "https://" "") "http://" "")
          "/" "_")
       ":" "_")
    max_length.

End AttachmentBuilder.

(** ** config.py

    The process environment is a function [environ] from names to values,
    [None] for a name that is not set ([os.getenv]). *)

(** [c.isspace()], for the characters the model has. *)
Definition is_space (c : ascii) : bool :=
  let n := nat_of_ascii c in
  (((9 <=? n) && (n <=? 13)) || ((28 <=? n) && (n <=? 32))
   || (n =? 133) || (n =? 160))%nat.

(** [s.lstrip()], [s.rstrip()], [s.strip()] *)
Fixpoint str_lstrip (s : string) : string :=
  match s with
  | EmptyString => EmptyString
  | String c rest => if is_space c then str_lstrip rest else s
  end.

Fixpoint str_rstrip (s : string) : string :=
  match s with
  | EmptyString => EmptyString
  | String c rest =>
      match str_rstrip rest with
      | EmptyString => if is_space c then EmptyString else String c EmptyString
      | kept => String c kept
      end
  end.

Definition str_strip (s : string) : string := str_rstrip (str_lstrip s).

Definition ConfigurationError (message : string) : Exc :=
  mkExc (OtherException "ConfigurationError") message.

Module TemplateResolver.

(** The characters up to the first closing brace, [None] when there is
    none: what [[^}]+] followed by a brace can match from here. *)
Fixpoint scan_name (s : string) : option string :=
  match s with
  | EmptyString => None
  | String c rest =>
      if Ascii.eqb c "}" then Some EmptyString
      else match scan_name rest with
           | Some name => Some (String c name)
           | None => None
           end
  end.

(** The group the pattern [\$\{([^}]+)\}] captures when it matches at the
    start of [s]. *)
Definition template_at (s : string) : option string :=
  match s with
  | String d (String b body) =>
      if Ascii.eqb d "$" && Ascii.eqb b "{" then
        match scan_name body with
        | Some (String c name) => Some (String c name)
        | _ => None
        end
      else None
  | _ => None
  end.

(** [re.findall(pattern, text)]: the groups of the successive
    non-overlapping matches; [skip] counts the characters of the current
    match still to be passed over. *)
Fixpoint findall (skip : nat) (s : string) : list string :=
  match s with
  | EmptyString => []
  | String c rest =>
      match skip with
      | S k => findall k rest
      | O =>
          match template_at s with
          | Some name => name :: findall (String.length name + 2) rest
          | None => findall 0 rest
          end
      end
  end.

(** [bool(re.search(pattern, text))] *)
Fixpoint search (s : string) : bool :=
  match s with
  | EmptyString => false
  | String c rest =>
      match template_at s with
      | Some _ => true
      | None => search rest
      end
  end.

Definition undefined_variable (var_name : string) : Exc :=
  ConfigurationError
    ("Template variable ${" ++ var_name ++ "} referenced in ENDPOINTS but "
     ++ var_name ++ " is not defined in environment. Please add it to .env file.")%string.

Section WithEnvironment.
Variable environ : string -> option string.

(** The [for var_name in matches] loop over the names still to replace. *)
Fixpoint substitute (matches : list string) (result : string) : Res string :=
  match matches with
  | [] => Ok result
  | var_name :: rest =>
      match environ var_name with
      | None => Raise (undefined_variable var_name)
      | Some var_value =>
          substitute rest
            (str_replace result ("${" ++ var_name ++ "}")%string var_value)
      end
  end.

(** [resolve] on a string. *)
Definition resolve_str (text : string) : Res string :=
  substitute (findall 0 text) text.

Definition resolve (text : PyVal) : Res PyVal :=
  match text with
  | PStr s =>
      match resolve_str s with
      | Ok result => Ok (PStr result)
      | Raise exc => Raise exc
      end
  | _ => Ok text
  end.

End WithEnvironment.

Definition has_template_vars (text : PyVal) : bool :=
  match text with
  | PStr s => search s
  | _ => false
  end.

End TemplateResolver.

(** What a call of [json.loads] does: it returns a value, raises
    [JSONDecodeError] with that [str(exc)], or raises something else (a plain
    [ValueError] for an integer of more digits than the interpreter
    converts, a [RecursionError] for arrays nested too deep). *)
Inductive JsonLoads : Type :=
| JsonValue (value : PyVal)
| JSONDecodeError (message : string)
| JsonRaises (exc : Exc).

Module EndpointsLoader.

Section WithEnvironment.
Variable environ : string -> option string.

(** The text [load_from_env] hands to [json.loads], when it gets that
    far. *)
Definition json_loads_argument : Res string :=
  match environ "ENDPOINTS" with
  | None | Some EmptyString =>
      Raise (ConfigurationError
               ("ENDPOINTS environment variable is not set. Please configure a JSON array "
                ++ "of endpoints in the .env file"))
  | Some endpoints_str => TemplateResolver.resolve_str environ endpoints_str
  end.

(** [json_loads_result] is what the one call [json.loads(endpoints_str)]
    does on that text. Only its [JSONDecodeError] is wrapped. *)
Definition load_from_env (json_loads_result : JsonLoads) : Res (list PyVal) :=
  match json_loads_argument with
  | Raise exc => Raise exc
  | Ok _ =>
      match json_loads_result with
      | JsonRaises exc => Raise exc
      | JSONDecodeError message =>
          Raise (ConfigurationError
                   ("Error parsing ENDPOINTS: " ++ message
                    ++ ". It must be a valid JSON array"))
      | JsonValue (PList []) => Raise (ConfigurationError "ENDPOINTS array cannot be empty")
      | JsonValue (PList endpoints) => Ok endpoints
      | JsonValue _ => Raise (ConfigurationError "ENDPOINTS must be a JSON array")
      end
  end.

End WithEnvironment.

Definition validate_endpoint (endpoint : PyVal) : bool :=
  match endpoint with
  | PStr s => truthy (PStr (str_strip s))
  | PDict d =>
      match dict_lookup d "url" with
      | Some url => truthy url
      | None => false
      end
  | _ => false
  end.

End EndpointsLoader.

(** The application state of a process whose [ENDPOINTS_TO_EXECUTE] is
    unset, so that the endpoints come from the environment. *)
Definition state_of_environment (environ : string -> option string)
    (json_loads_result : JsonLoads) : App.State :=
  App.mkState None (EndpointsLoader.load_from_env environ json_loads_result).

(** ** models.py, continued: e-mail configuration and constants *)

Module EmailConfig.

Record t : Type := mk {
  smtp_host : string;
  smtp_port : Z;
  smtp_user : option string;
  smtp_password : option string;
  email_from : option string;
  email_to : option string
}.

(** [bool(v)] for an optional string. *)
Definition given (v : option string) : bool :=
  match v with
  | Some s => negb (String.eqb s "")
  | None => false
  end.

Definition is_configured (self : t) : bool :=
  given (smtp_user self) && given (smtp_password self) && given (email_to self)
  && negb (String.eqb (smtp_host self) "") && negb (smtp_port self =? 0).

End EmailConfig.

Definition EMAIL_STATUS_SUCCESS : string := "✅ SUCCESS".
Definition EMAIL_STATUS_WARNING : string := "⚠️ COMPLETED WITH WARNINGS".
Definition EMAIL_STATUS_FAILED : string := "❌ FAILED".
Definition COLOR_SUCCESS : string := "#28a745".
Definition COLOR_WARNING : string := "#ff9800".
Definition COLOR_ERROR : string := "#dc3545".

(** ** email_service.py

    Of the MIME message the service assembles, an [Envelope] keeps the
    headers and the attachment file names; the HTML part and the JSON
    payloads, which print the time stamps, are not represented.
    [smtp_deliver] stands for the SMTP session of [send_notification]
    (connect, [starttls], [login] with the user and password given,
    [send_message]): [Some exc] when any step raises [exc]. *)

Record Envelope : Type := mkEnvelope {
  subject : string;
  sender : option string;
  recipient : option string;
  attachment_names : list string
}.

Class MailHost : Type := {
  smtp_deliver : string -> Z -> string -> string -> Envelope -> option Exc
}.

(** The two places where the message is encoded. [MIMEText(html_content,
    "html")] encodes the HTML content as UTF-8, and [create_json_attachment]
    encodes [json.dumps(data)] and the file name: each raises
    [UnicodeEncodeError] on text that has no encoding, such as the lone
    surrogate a JSON response can hold. [MIMEText_html summary] is what the
    first raises for the content printed from [summary], and
    [create_json_attachment data filename] what the second raises, [None]
    when they return. *)
Class MimeHost : Type := {
  MIMEText_html : ExecutionSummary.t -> option Exc;
  create_json_attachment : ExecutionResult.t -> string -> option Exc
}.

(** [f"{idx:02d}"] *)
Definition fmt_02d (idx : nat) : string :=
  if (idx <? 10)%nat then ("0" ++ str_of_nat idx)%string else str_of_nat idx.

(** [a or b] on optional strings. *)
Definition opt_or (a b : option string) : option string :=
  if EmailConfig.given a then a else b.

(** [v or ""] *)
Definition opt_or_empty (v : option string) : string :=
  match v with
  | Some s => s
  | None => EmptyString
  end.

Definition PyVal_of_option (v : option string) : PyVal :=
  match v with
  | Some s => PStr s
  | None => PNone
  end.

Module AttachmentNames.

(** [sanitize_filename(endpoint_name)] on the value found under
    ["endpoint"]: only a string has [replace]. *)
Definition safe_name (endpoint_name : PyVal) : Res string :=
  match endpoint_name with
  | PStr e => Ok (AttachmentBuilder.sanitize_filename e 50)
  | _ => Raise (mkExc AttributeError
                  ("'" ++ type_name endpoint_name
                   ++ "' object has no attribute 'replace'")%string)
  end.

Section WithMimeHost.
Context {mime : MimeHost}.

(** One turn of the three loops: the name is sanitized, the attachment
    made under [filename], and the loop goes on. *)
Definition attach (data : ExecutionResult.t) (filename : string -> string)
    (rest : Res (list string)) : Res (list string) :=
  match safe_name (ExecutionResult.endpoint data) with
  | Raise exc => Raise exc
  | Ok name =>
      match create_json_attachment data (filename name) with
      | Some exc => Raise exc
      | None =>
          match rest with
          | Raise exc => Raise exc
          | Ok names => Ok (filename name :: names)
          end
      end
  end.

(** The file names [create_result_attachments] gives its attachments, for
    the results from position [idx] on. *)
Fixpoint create_result_attachments (idx : nat) (results : list ExecutionResult.t)
    : Res (list string) :=
  match results with
  | [] => Ok []
  | result :: rest =>
      attach result (fun name => fmt_02d idx ++ "_" ++ name ++ "_result.json")%string
        (create_result_attachments (S idx) rest)
  end.

Fixpoint create_warning_attachments (idx : nat) (warnings : list ExecutionResult.t)
    : Res (list string) :=
  match warnings with
  | [] => Ok []
  | warning :: rest =>
      attach warning
        (fun name => "WARNING_" ++ fmt_02d idx ++ "_" ++ name ++ "_207.json")%string
        (create_warning_attachments (S idx) rest)
  end.

(** An entry of the error list that is a bare string has no [get]. *)
Fixpoint create_error_attachments (idx : nat)
    (errors : list (ExecutionResult.t + string)) : Res (list string) :=
  match errors with
  | [] => Ok []
  | inr _ :: _ =>
      Raise (mkExc AttributeError "'str' object has no attribute 'get'")
  | inl error :: rest =>
      attach error (fun name => "ERROR_" ++ fmt_02d idx ++ "_" ++ name ++ ".json")%string
        (create_error_attachments (S idx) rest)
  end.

End WithMimeHost.
End AttachmentNames.

(** What the HTML sections need of the lists they print. The results and
    warnings sections index keys that every [to_dict] image has and format
    the values found, which no value refuses; the errors section calls
    [error.get], which a bare string does not have. *)
Module EmailTemplateBuilder.

Fixpoint add_errors_section (errors : list (ExecutionResult.t + string)) : Res unit :=
  match errors with
  | [] => Ok tt
  | inl _ :: rest => add_errors_section rest
  | inr _ :: _ => Raise (mkExc AttributeError "'str' object has no attribute 'get'")
  end.

End EmailTemplateBuilder.

Module EmailNotificationService.

Definition _determine_status_text_and_color (summary : ExecutionSummary.t)
    : string * string :=
  if ExecutionSummary.has_errors summary then (EMAIL_STATUS_FAILED, COLOR_ERROR)
  else if ExecutionSummary.has_warnings summary then (EMAIL_STATUS_WARNING, COLOR_WARNING)
  else (EMAIL_STATUS_SUCCESS, COLOR_SUCCESS).

Section WithMimeHost.
Context {mime : MimeHost}.

(** The headers and attachment names of [_build_email_message], in the
    order of the code: the HTML content is built, the headers are set, the
    content is attached as [MIMEText], then the three groups of
    attachments. *)
Definition _build_email_message (config : EmailConfig.t)
    (summary : ExecutionSummary.t) (execution_context : string) : Res Envelope :=
  let status_text := fst (_determine_status_text_and_color summary) in
  let subject_prefix :=
    if String.eqb execution_context "test" then "Test Execution Report"
    else if String.eqb execution_context "scheduler" then "Scheduled Execution Report"
    else "Manual Execution Report" in
  match EmailTemplateBuilder.add_errors_section (ExecutionSummary.details_errors summary) with
  | Raise exc => Raise exc
  | Ok _ =>
  match MIMEText_html summary with
  | Some exc => Raise exc
  | None =>
  match AttachmentNames.create_result_attachments 1 (ExecutionSummary.results summary) with
  | Raise exc => Raise exc
  | Ok result_names =>
      match AttachmentNames.create_warning_attachments 1
              (ExecutionSummary.details_warnings summary) with
      | Raise exc => Raise exc
      | Ok warning_names =>
          match AttachmentNames.create_error_attachments 1
                  (ExecutionSummary.details_errors summary) with
          | Raise exc => Raise exc
          | Ok error_names =>
              Ok {| subject := ("GCP Scheduler Runner - " ++ subject_prefix ++ " - "
                                ++ status_text)%string;
                    sender := opt_or (EmailConfig.email_from config)
                                     (EmailConfig.smtp_user config);
                    recipient := EmailConfig.email_to config;
                    attachment_names := result_names ++ warning_names ++ error_names |}
          end
      end
  end
  end
  end.

Context {mail : MailHost}.

Definition send_notification (config : EmailConfig.t)
    (summary : ExecutionSummary.t) (execution_context : string) : PyDict :=
  if negb (EmailConfig.is_configured config) then
    [("email_sent", PBool false);
     ("error",
      PStr ("Email configuration incomplete (SMTP_USER, "
            ++ "SMTP_PASSWORD, or EMAIL_TO missing)"))]
  else
    match _build_email_message config summary execution_context with
    | Raise exc => [("email_sent", PBool false); ("error", PStr (exc_str exc))]
    | Ok message =>
        let total_attachments :=
          (List.length (ExecutionSummary.results summary)
           + List.length (ExecutionSummary.details_warnings summary)
           + List.length (ExecutionSummary.details_errors summary))%nat in
        match smtp_deliver (EmailConfig.smtp_host config) (EmailConfig.smtp_port config)
                (opt_or_empty (EmailConfig.smtp_user config))
                (opt_or_empty (EmailConfig.smtp_password config)) message with
        | Some exc => [("email_sent", PBool false); ("error", PStr (exc_str exc))]
        | None =>
            [("email_sent", PBool true);
             ("recipient", PyVal_of_option (EmailConfig.email_to config));
             ("from", PyVal_of_option (opt_or (EmailConfig.email_from config)
                                              (EmailConfig.smtp_user config)));
             ("attachments", PInt (Z.of_nat total_attachments))]
        end
    end.

End WithMimeHost.
End EmailNotificationService.

(** A host whose notification service is the one above, for a given
    e-mail configuration and execution context. *)
Definition with_email_service (host : Host) (mime : MimeHost) (mail : MailHost)
    (config : EmailConfig.t) (execution_context : string) : Host :=
  {| requests_request := @requests_request host;
     str_upper := @str_upper host;
     ThreadPoolExecutor_init := @ThreadPoolExecutor_init host;
     send_notification := fun summary =>
       @EmailNotificationService.send_notification mime mail config summary
         execution_context |}.

(** The endpoint of the result is a string, so that a file name can be
    made of it. *)
Definition nameable (x : ExecutionResult.t) : Prop :=
  exists e, ExecutionResult.endpoint x = PStr e.

Definition nameable_entry (entry : ExecutionResult.t + string) : Prop :=
  match entry with
  | inl x => nameable x
  | inr _ => False
  end.

(** The encoding of the attachments raises nothing. *)
Definition attachments_encode {mime : MimeHost} : Prop :=
  forall data filename, create_json_attachment data filename = None.

(** ** A stubbed environment and mail server *)

(** The double quote. *)
Definition dquote : string := String "034"%char EmptyString.

(** [ENDPOINTS] is a JSON array of one string that refers to a variable,
    which is set. *)
Definition stub_environ (name : string) : option string :=
  if String.eqb name "ENDPOINTS" then Some ("[" ++ dquote ++ "${TARGET}" ++ dquote ++ "]")%string
  else if String.eqb name "TARGET" then Some "http://x/warn"
  else None.

(** The text [json.loads] is given in that environment, and what it
    returns for it. *)
Definition stub_endpoints_str : string :=
  ("[" ++ dquote ++ "http://x/warn" ++ dquote ++ "]")%string.

Definition stub_json_loads_result : JsonLoads :=
  JsonValue (PList [PStr "http://x/warn"]).

(** [ENDPOINTS] is a JSON object, which [json.loads] returns as an empty
    mapping. *)
Definition object_environ (name : string) : option string :=
  if String.eqb name "ENDPOINTS" then Some "{}" else None.

Definition object_json_loads_result : JsonLoads := JsonValue (PDict []).

(** [ENDPOINTS] is an integer of 4301 digits, one more than [json.loads]
    converts. *)
Definition long_integer : string := string_of_list_ascii (repeat "1"%char 4301).

Definition long_integer_environ (name : string) : option string :=
  if String.eqb name "ENDPOINTS" then Some long_integer else None.

Definition long_integer_json_loads_result : JsonLoads :=
  JsonRaises
    (mkExc ValueError
       ("Exceeds the limit (4300 digits) for integer string conversion: "
        ++ "value has 4301 digits; use sys.set_int_max_str_digits() "
        ++ "to increase the limit")).

(** Nothing is set. *)
Definition empty_environ (name : string) : option string := None.

(** What GET answers for the one endpoint of [stub_environ]. *)
Definition get_warn_log : list Event :=
  Eval vm_compute in
    fst (@App.execute_endpoints_get stub_host
           (state_of_environment stub_environ stub_json_loads_result)).

Definition get_warn_body : ResponseBody.t :=
  Eval vm_compute in
    match snd (@App.execute_endpoints_get stub_host
                 (state_of_environment stub_environ stub_json_loads_result)) with
    | Ok (body, _) => body
    | Raise _ => App.empty_get_body
    end.

(** Every text of the instances below is ASCII, which encodes. *)
Definition ascii_mime : MimeHost :=
  {| MIMEText_html := fun _ => None;
     create_json_attachment := fun _ _ => None |}.

(** A mail server that accepts every message and one that refuses the
    connection. *)
Definition accepting_mail : MailHost :=
  {| smtp_deliver := fun _ _ _ _ _ => None |}.

Definition refusing_mail : MailHost :=
  {| smtp_deliver := fun _ _ _ _ _ =>
       Some (mkExc (OtherException "ConnectionRefusedError") "Connection refused") |}.

Definition complete_mail_config : EmailConfig.t :=
  EmailConfig.mk "smtp.gmail.com" 587 (Some "ops@example.com") (Some "app-password")
    (Some "ops@example.com") (Some "ops@example.com").

Definition incomplete_mail_config : EmailConfig.t :=
  EmailConfig.mk "smtp.gmail.com" 587 None None None None.

(** The three endpoints run sequentially with a notification asked for,
    on a host that sends it. *)
Definition notifying_host : Host :=
  with_email_service stub_host ascii_mime accepting_mail complete_mail_config "manual".

Definition notified_three : PyDict :=
  [("endpoints", PList ok_warn_bad); ("parallel", PBool false);
   ("send_email", PBool true)].

Definition notified_three_summary : ExecutionSummary.t :=
  @App._handle_email_notification notifying_host (PBool true)
    (App.build_summary ok_warn_bad (PBool false) ok_warn_bad_buckets).

(** * Properties *)

(** ** Classification of status codes *)

Module Import ER := ExecutionResult.

Lemma classify_207 : _classify_status 207 = WARNING.
Proof. reflexivity. Qed.

Lemma classify_success_range (c : Z) :
  200 <= c <= 299 -> c <> 207 -> _classify_status c = SUCCESS.
Proof.
  intros Hrange Hneq. unfold _classify_status.
  destruct (Z.eqb_spec c 207) as [E | _]; [contradiction |].
  replace (200 <=? c) with true by (symmetry; apply Z.leb_le; lia).
  replace (c <? 300) with true by (symmetry; apply Z.ltb_lt; lia).
  reflexivity.
Qed.

Lemma classify_outside_range (c : Z) :
  ~ 200 <= c <= 299 -> _classify_status c = ERROR.
Proof.
  intros Hout. unfold _classify_status.
  destruct (Z.eqb_spec c 207) as [E | _]; [lia |].
  destruct (Z.leb_spec 200 c), (Z.ltb_spec c 300); simpl; try reflexivity; lia.
Qed.

(** C2. [_classify_status] answers WARNING for the code 207, SUCCESS for
    every other code from 200 to 299, and ERROR for every code outside that
    range; the code 0 that [from_error] records for a transport failure is
    among the latter, and [from_error] itself classifies its result ERROR. *)
Theorem classify_status_cases :
  forall c : Z,
    (c = 207 -> _classify_status c = WARNING) /\
    (200 <= c <= 299 -> c <> 207 -> _classify_status c = SUCCESS) /\
    (~ 200 <= c <= 299 -> _classify_status c = ERROR) /\
    _classify_status 0 = ERROR /\
    (forall name message,
        status_code (from_error name message) = 0 /\
        status (from_error name message) = ERROR).
Proof.
  intros c. repeat split.
  - intros ->. apply classify_207.
  - apply classify_success_range.
  - apply classify_outside_range.
Qed.

(** The classification is a function of the code alone: a response's other
    parts do not enter it. *)
Lemma from_response_status (name : PyVal) (m : string) (r : Response) :
  status (from_response name m r) = _classify_status (resp_status_code r).
Proof. reflexivity. Qed.

(** ** The effect monad *)

Lemma bind_Ok_inv {A B} (m : M A) (k : A -> M B) (log : list Event) (b : B) :
  bind m k = (log, Ok b) ->
  exists l1 a l2, m = (l1, Ok a) /\ k a = (l2, Ok b) /\ log = l1 ++ l2.
Proof.
  unfold bind. destruct m as [l1 [a | e]]; [| discriminate].
  destruct (k a) as [l2 r] eqn:Hk. intros H. inversion H; subst.
  exists l1, a, l2. auto.
Qed.

Lemma bind_lift_Ok_inv {A B} (r : Res A) (k : A -> M B) (log : list Event) (b : B) :
  bind (lift r) k = (log, Ok b) ->
  exists a, r = Ok a /\ k a = (log, Ok b).
Proof.
  intros H. apply bind_Ok_inv in H as (l1 & a & l2 & Hm & Hk & ->).
  unfold lift in Hm. inversion Hm; subst. exists a. auto.
Qed.

Lemma bind_ret_l {A B} (a : A) (k : A -> M B) : bind (ret a) k = k a.
Proof. unfold bind, ret. destruct (k a). reflexivity. Qed.

Lemma bind_lift_Ok {A B} (a : A) (k : A -> M B) : bind (lift (Ok a)) k = k a.
Proof. apply bind_ret_l. Qed.

Lemma bind_lift_Raise {A B} (e : Exc) (k : A -> M B) :
  bind (lift (Raise e)) k = ([], Raise e).
Proof. reflexivity. Qed.

(** ** The summary's status and success flag *)

Module Import ES := ExecutionSummary.

Lemma get_http_status_cases (s : ExecutionSummary.t) :
  (0 < failed s -> get_http_status s = 500) /\
  (failed s <= 0 -> 0 < warnings s -> get_http_status s = 207) /\
  (failed s <= 0 -> warnings s <= 0 -> get_http_status s = 200).
Proof.
  unfold get_http_status, has_errors, has_warnings.
  repeat split; intros.
  - replace (failed s >? 0) with true by (symmetry; apply Z.gtb_lt; lia). reflexivity.
  - rewrite Z.gtb_ltb.
    replace (0 <? failed s) with false by (symmetry; apply Z.ltb_ge; lia).
    rewrite Z.gtb_ltb.
    replace (0 <? warnings s) with true by (symmetry; apply Z.ltb_lt; lia).
    reflexivity.
  - rewrite !Z.gtb_ltb.
    replace (0 <? failed s) with false by (symmetry; apply Z.ltb_ge; lia).
    replace (0 <? warnings s) with false by (symmetry; apply Z.ltb_ge; lia).
    reflexivity.
Qed.

Lemma success_iff (s : ExecutionSummary.t) :
  success s = true <-> warnings s = 0 /\ failed s = 0.
Proof.
  unfold success. rewrite andb_true_iff, !Z.eqb_eq. tauto.
Qed.

Section EmailFrame.
Context {host : Host}.

(** Recording the notification outcome leaves every other field alone. *)
Lemma handle_email_frame (send_email : PyVal) (s : ExecutionSummary.t) :
  let s' := App._handle_email_notification send_email s in
  total_endpoints s' = total_endpoints s /\
  successful s' = successful s /\
  warnings s' = warnings s /\
  failed s' = failed s /\
  results s' = results s /\
  details_warnings s' = details_warnings s /\
  details_errors s' = details_errors s /\
  execution_mode s' = execution_mode s.
Proof.
  unfold App._handle_email_notification.
  destruct (negb (truthy send_email));
    [| destruct (truthy (get (send_notification s) "email_sent"))];
    simpl; repeat split; reflexivity.
Qed.

(** What the POST branch answers, read off the buckets the executor
    returned. *)
Lemma post_answer_inv (st : App.State) (json : PyVal)
    (order : list (nat * PyVal)) (log : list Event)
    (s : ExecutionSummary.t) (code : Z) :
  App.execute_endpoints_post st json order = (log, Ok (s, code)) ->
  exists data endpoints buckets,
    py_mapping (py_or json (PDict [])) = Ok data /\
    App.request_endpoints st data = Ok endpoints /\
    HTTPExecutor.execute
      (HTTPExecutor.mk
         (get_default data "max_workers" (PInt (default_max_workers endpoints))))
      endpoints (get_default data "parallel" (PBool true))
      (py_or (get data "default_payload") (get data "payload")) order
    = (log, Ok buckets) /\
    s = App._handle_email_notification
          (get_default data "send_email" (PBool false))
          (App.build_summary endpoints (get_default data "parallel" (PBool true)) buckets) /\
    code = get_http_status s.
Proof.
  unfold App.execute_endpoints_post. intros H.
  apply bind_lift_Ok_inv in H as (data & Hdata & H).
  apply bind_lift_Ok_inv in H as (endpoints & Hends & H).
  apply bind_Ok_inv in H as (l1 & buckets & l2 & Hexec & Hret & ->).
  unfold ret in Hret. inversion Hret; subst.
  exists data, endpoints, buckets. rewrite app_nil_r. auto.
Qed.

End EmailFrame.

(** ** The single-request runner *)

Section Runner.
Context {host : Host}.
Variables (self : HTTPExecutor.t) (default_payload : PyVal).

#[local] Abbreviation runner := (HTTPExecutor.execute_single_endpoint self).

Lemma name_or_fallback_None (idx : nat) :
  HTTPExecutor.name_or_fallback PNone idx = PStr ("endpoint_" ++ str_of_nat idx)%string.
Proof. reflexivity. Qed.

Lemma name_or_fallback_cases (name : PyVal) (idx : nat) :
  HTTPExecutor.name_or_fallback name idx =
  if truthy name then name else PStr ("endpoint_" ++ str_of_nat idx)%string.
Proof. reflexivity. Qed.

(** The descriptor cannot be parsed and the exception is one the runner
    catches. *)
Lemma runner_config_error (idx : nat) (raw : PyVal) (exc : Exc) :
  EndpointConfig.from_config raw = Raise exc ->
  HTTPExecutor.caught exc = true ->
  runner idx raw default_payload =
  ([PrintError (PStr ("endpoint_" ++ str_of_nat idx)%string) (exc_str exc)],
   Ok (ERROR, from_error (PStr ("endpoint_" ++ str_of_nat idx)%string) (exc_str exc))).
Proof.
  intros Hcfg Hc. unfold HTTPExecutor.execute_single_endpoint.
  rewrite Hcfg. unfold HTTPExecutor.except_clause. rewrite Hc. reflexivity.
Qed.

(** The request was issued and the transport raised an exception the
    runner catches. *)
Lemma runner_transport_error (idx : nat) (raw : PyVal)
    (cfg : EndpointConfig.t) (exc : Exc) :
  EndpointConfig.from_config raw = Ok cfg ->
  requests_request idx (HTTPExecutor.request_of cfg default_payload) = Raise exc ->
  HTTPExecutor.caught exc = true ->
  runner idx raw default_payload =
  ([PrintExecuting (EndpointConfig.url cfg);
    HttpRequest idx (HTTPExecutor.request_of cfg default_payload);
    PrintError (HTTPExecutor.name_or_fallback (EndpointConfig.url cfg) idx) (exc_str exc)],
   Ok (ERROR,
       from_error (HTTPExecutor.name_or_fallback (EndpointConfig.url cfg) idx)
                  (exc_str exc))).
Proof.
  intros Hcfg Hreq Hc. unfold HTTPExecutor.execute_single_endpoint.
  rewrite Hcfg. unfold HTTPExecutor.execute_request. simpl.
  rewrite Hreq. simpl. unfold HTTPExecutor.except_clause. rewrite Hc. reflexivity.
Qed.

(** The transport answered. *)
Lemma runner_response (idx : nat) (raw : PyVal)
    (cfg : EndpointConfig.t) (resp : Response) :
  EndpointConfig.from_config raw = Ok cfg ->
  requests_request idx (HTTPExecutor.request_of cfg default_payload) = Ok resp ->
  runner idx raw default_payload =
  ([PrintExecuting (EndpointConfig.url cfg);
    HttpRequest idx (HTTPExecutor.request_of cfg default_payload);
    PrintCompleted (EndpointConfig.url cfg) (resp_status_code resp)],
   Ok (_classify_status (resp_status_code resp),
       from_response (EndpointConfig.url cfg) (EndpointConfig.method cfg) resp)).
Proof.
  intros Hcfg Hreq. unfold HTTPExecutor.execute_single_endpoint.
  rewrite Hcfg. unfold HTTPExecutor.execute_request. simpl.
  rewrite Hreq. reflexivity.
Qed.

(** An exception the [except] clause does not name leaves the runner. *)
Lemma runner_config_escape (idx : nat) (raw : PyVal) (exc : Exc) :
  EndpointConfig.from_config raw = Raise exc ->
  HTTPExecutor.caught exc = false ->
  runner idx raw default_payload = ([], Raise exc).
Proof.
  intros Hcfg Hc. unfold HTTPExecutor.execute_single_endpoint.
  rewrite Hcfg. unfold HTTPExecutor.except_clause. rewrite Hc. reflexivity.
Qed.

Lemma runner_transport_escape (idx : nat) (raw : PyVal)
    (cfg : EndpointConfig.t) (exc : Exc) :
  EndpointConfig.from_config raw = Ok cfg ->
  requests_request idx (HTTPExecutor.request_of cfg default_payload) = Raise exc ->
  HTTPExecutor.caught exc = false ->
  runner idx raw default_payload =
  ([PrintExecuting (EndpointConfig.url cfg);
    HttpRequest idx (HTTPExecutor.request_of cfg default_payload)],
   Raise exc).
Proof.
  intros Hcfg Hreq Hc. unfold HTTPExecutor.execute_single_endpoint.
  rewrite Hcfg. unfold HTTPExecutor.execute_request. simpl.
  rewrite Hreq. simpl. unfold HTTPExecutor.except_clause. rewrite Hc. reflexivity.
Qed.

(** The status the runner returns beside a result is that result's own. *)
Lemma runner_status (idx : nat) (raw : PyVal) (log : list Event)
    (s : ExecutionStatus) (r : ExecutionResult.t) :
  runner idx raw default_payload = (log, Ok (s, r)) -> status r = s.
Proof.
  destruct (EndpointConfig.from_config raw) as [cfg | exc] eqn:Hcfg.
  - destruct (requests_request idx (HTTPExecutor.request_of cfg default_payload))
      as [resp | exc] eqn:Hreq.
    + rewrite (runner_response _ _ _ _ Hcfg Hreq). intros H. inversion H. reflexivity.
    + destruct (HTTPExecutor.caught exc) eqn:Hc.
      * rewrite (runner_transport_error _ _ _ _ Hcfg Hreq Hc).
        intros H. inversion H. reflexivity.
      * rewrite (runner_transport_escape _ _ _ _ Hcfg Hreq Hc). discriminate.
  - destruct (HTTPExecutor.caught exc) eqn:Hc.
    + rewrite (runner_config_error _ _ _ Hcfg Hc). intros H. inversion H. reflexivity.
    + rewrite (runner_config_escape _ _ _ Hcfg Hc). discriminate.
Qed.


End Runner.

(** ** Filling the buckets *)

Lemma ExecutionStatus_eqb_eq (a b : ExecutionStatus) :
  ExecutionStatus_eqb a b = true <-> a = b.
Proof. destruct a, b; simpl; split; intros H; try reflexivity; discriminate. Qed.

(** The state of the three lists after the append chain has run over
    [outcomes], starting from [acc]. *)
Lemma fold_append (outcomes : list (ExecutionStatus * ExecutionResult.t))
    (r w e : list ExecutionResult.t) :
  fold_left (fun acc sr => HTTPExecutor.append acc (fst sr) (snd sr)) outcomes (r, w, e)
  = (r ++ bucket SUCCESS outcomes, w ++ bucket WARNING outcomes, e ++ bucket ERROR outcomes).
Proof.
  revert r w e. induction outcomes as [| [s x] outcomes IH]; intros r w e.
  - simpl. rewrite !app_nil_r. reflexivity.
  - simpl. destruct s; simpl; rewrite IH; unfold bucket; simpl;
      rewrite <- ?app_assoc; reflexivity.
Qed.

Lemma bucket_lengths (outcomes : list (ExecutionStatus * ExecutionResult.t)) :
  (List.length (bucket SUCCESS outcomes) + List.length (bucket WARNING outcomes)
   + List.length (bucket ERROR outcomes) = List.length outcomes)%nat.
Proof.
  unfold bucket. induction outcomes as [| [s x] outcomes IH]; [reflexivity |].
  destruct s; simpl; rewrite ?length_map in *; simpl; lia.
Qed.

Lemma bucket_permutation (outcomes : list (ExecutionStatus * ExecutionResult.t)) :
  Permutation (bucket SUCCESS outcomes ++ bucket WARNING outcomes ++ bucket ERROR outcomes)
              (map snd outcomes).
Proof.
  unfold bucket. induction outcomes as [| [s x] outcomes IH]; [constructor |].
  destruct s; simpl.
  - constructor. exact IH.
  - symmetry. apply Permutation_cons_app. symmetry. exact IH.
  - symmetry. rewrite app_assoc. apply Permutation_cons_app.
    rewrite <- app_assoc. symmetry. exact IH.
Qed.

Lemma bucket_status (s : ExecutionStatus)
    (outcomes : list (ExecutionStatus * ExecutionResult.t)) :
  Forall (fun sr => status (snd sr) = fst sr) outcomes ->
  Forall (fun x => status x = s) (bucket s outcomes).
Proof.
  unfold bucket. induction 1 as [| [s' x] outcomes Hx _ IH]; simpl; [constructor |].
  destruct (ExecutionStatus_eqb s' s) eqn:E; simpl; [| exact IH].
  constructor; [| exact IH].
  apply ExecutionStatus_eqb_eq in E. simpl in Hx. congruence.
Qed.

(** A result sits in the bucket of a classification exactly when it was
    produced with that classification. *)
Lemma bucket_In (s : ExecutionStatus) (x : ExecutionResult.t)
    (outcomes : list (ExecutionStatus * ExecutionResult.t)) :
  In x (bucket s outcomes) <-> In (s, x) outcomes.
Proof.
  unfold bucket. rewrite in_map_iff. split.
  - intros ([s' y] & Hy & Hin). simpl in Hy. subst y.
    apply filter_In in Hin as [Hin E]. simpl in E.
    apply ExecutionStatus_eqb_eq in E. subst. exact Hin.
  - intros Hin. exists (s, x). split; [reflexivity |].
    apply filter_In. split; [exact Hin |]. simpl.
    apply ExecutionStatus_eqb_eq. reflexivity.
Qed.

Lemma enumerate_length {A} (l : list A) : List.length (enumerate l) = List.length l.
Proof.
  unfold enumerate. rewrite length_combine, length_seq. apply Nat.min_id.
Qed.

(** ** The two collection loops *)

Section Loops.
Context {host : Host}.
Variables (self : HTTPExecutor.t) (default_payload : PyVal).

#[local] Abbreviation fill :=
  (fold_left (fun acc sr => HTTPExecutor.append acc (fst sr) (snd sr))).
#[local] Abbreviation result_of := (runner_result self default_payload).
#[local] Abbreviation trace_of := (runner_trace self default_payload).

Lemma runner_split (i : nat) (raw : PyVal) :
  HTTPExecutor.execute_single_endpoint self i raw default_payload
  = (trace_of (i, raw), result_of (i, raw)).
Proof. unfold runner_trace, runner_result. apply surjective_pairing. Qed.

(** When every call of the runner returns, the sequential loop returns:
    its trace is the calls' traces one after the other and its buckets are
    filled in the order of the list. *)
Lemma sequential_loop_returns (todo : list (nat * PyVal))
    (outcomes : list (ExecutionStatus * ExecutionResult.t)) (acc : HTTPExecutor.Buckets) :
  map result_of todo = map Ok outcomes ->
  HTTPExecutor.sequential_loop self default_payload todo acc
  = (List.concat (map trace_of todo), Ok (fill outcomes acc)).
Proof.
  revert outcomes acc.
  induction todo as [| [i raw] todo IH]; intros outcomes acc Hmap.
  - destruct outcomes; [reflexivity | discriminate].
  - destruct outcomes as [| sr outcomes]; [discriminate |].
    simpl in Hmap. injection Hmap as Hhd Htl.
    simpl. rewrite (runner_split i raw). rewrite Hhd. simpl.
    rewrite (IH _ _ Htl). reflexivity.
Qed.

(** Conversely, buckets come back only if every call returned. *)
Lemma sequential_loop_inv (todo : list (nat * PyVal)) (acc b : HTTPExecutor.Buckets)
    (log : list Event) :
  HTTPExecutor.sequential_loop self default_payload todo acc = (log, Ok b) ->
  exists outcomes,
    map result_of todo = map Ok outcomes /\
    log = List.concat (map trace_of todo) /\
    b = fill outcomes acc.
Proof.
  revert acc log. induction todo as [| [i raw] todo IH]; intros acc log H.
  - simpl in H. inversion H; subst. exists []. auto.
  - simpl in H. apply bind_Ok_inv in H as (l1 & sr & l2 & Hrun & Hrest & ->).
    apply IH in Hrest as (outcomes & Hmap & -> & ->).
    rewrite runner_split in Hrun. injection Hrun as Htr Hres.
    exists (sr :: outcomes). simpl. rewrite Hres, Htr, Hmap. auto.
Qed.

(** An exception leaves the sequential loop only if it left the runner. *)
Lemma sequential_loop_raise (todo : list (nat * PyVal)) (acc : HTTPExecutor.Buckets)
    (log : list Event) (exc : Exc) :
  HTTPExecutor.sequential_loop self default_payload todo acc = (log, Raise exc) ->
  exists ir, In ir todo /\ result_of ir = Raise exc.
Proof.
  revert acc log. induction todo as [| [i raw] todo IH]; intros acc log H.
  - discriminate.
  - simpl in H. rewrite (runner_split i raw) in H.
    destruct (result_of (i, raw)) as [sr | e] eqn:Hr; simpl in H.
    + destruct (HTTPExecutor.sequential_loop self default_payload todo
                  (HTTPExecutor.append acc (fst sr) (snd sr))) as [l2 r2] eqn:Hl.
      inversion H; subst.
      apply IH in Hl as (ir & Hin & Hir). exists ir. split; [right |]; assumption.
    + inversion H; subst. exists (i, raw). split; [left; reflexivity | exact Hr].
Qed.

Lemma completion_loop_returns (completed : list (nat * PyVal))
    (outcomes : list (ExecutionStatus * ExecutionResult.t)) (acc : HTTPExecutor.Buckets) :
  map result_of completed = map Ok outcomes ->
  HTTPExecutor.completion_loop self default_payload completed acc
  = ([], Ok (fill outcomes acc)).
Proof.
  revert outcomes acc.
  induction completed as [| [i raw] completed IH]; intros outcomes acc Hmap.
  - destruct outcomes; [reflexivity | discriminate].
  - destruct outcomes as [| sr outcomes]; [discriminate |].
    simpl in Hmap. injection Hmap as Hhd Htl.
    simpl. unfold HTTPExecutor.future_result.
    rewrite runner_split. simpl. rewrite Hhd.
    rewrite (IH _ _ Htl). reflexivity.
Qed.

Lemma completion_loop_inv (completed : list (nat * PyVal))
    (acc b : HTTPExecutor.Buckets) (log : list Event) :
  HTTPExecutor.completion_loop self default_payload completed acc = (log, Ok b) ->
  exists outcomes,
    map result_of completed = map Ok outcomes /\
    log = [] /\
    b = fill outcomes acc.
Proof.
  revert acc log. induction completed as [| [i raw] completed IH]; intros acc log H.
  - simpl in H. inversion H; subst. exists []. auto.
  - simpl in H. apply bind_lift_Ok_inv in H as (sr & Hrun & Hrest).
    apply IH in Hrest as (outcomes & Hmap & -> & ->).
    exists (sr :: outcomes). simpl.
    unfold HTTPExecutor.future_result in Hrun. rewrite runner_split in Hrun.
    simpl in Hrun. rewrite Hrun, Hmap. auto.
Qed.

(** Every outcome the runner returned carries a result of the status
    returned with it. *)
Lemma outcomes_consistent (todo : list (nat * PyVal))
    (outcomes : list (ExecutionStatus * ExecutionResult.t)) :
  map result_of todo = map Ok outcomes ->
  Forall (fun sr => status (snd sr) = fst sr) outcomes.
Proof.
  revert outcomes. induction todo as [| [i raw] todo IH]; intros outcomes Hmap.
  - destruct outcomes; [constructor | discriminate].
  - destruct outcomes as [| [s r] outcomes]; [discriminate |].
    simpl in Hmap. injection Hmap as Hhd Htl.
    constructor; [| apply IH; exact Htl].
    simpl. unfold runner_result in Hhd. simpl in Hhd.
    destruct (HTTPExecutor.execute_single_endpoint self i raw default_payload)
      as [l res] eqn:Hrun.
    simpl in Hhd. subst res. eapply runner_status. exact Hrun.
Qed.

End Loops.

(** ** The fan-out executor *)

Section Executor.
Context {host : Host}.
Variables (self : HTTPExecutor.t) (default_payload : PyVal).

#[local] Abbreviation outcome_of := (runner_result self default_payload).
#[local] Abbreviation events_of := (runner_trace self default_payload).

Lemma execute_sequential_inv (endpoints : list PyVal) (log : list Event)
    (buckets : HTTPExecutor.Buckets) :
  HTTPExecutor.execute_sequential self endpoints default_payload = (log, Ok buckets) ->
  exists outcomes,
    map outcome_of (enumerate endpoints) = map Ok outcomes /\
    log = PrintSequential :: List.concat (map events_of (enumerate endpoints)) /\
    buckets = (bucket SUCCESS outcomes, bucket WARNING outcomes, bucket ERROR outcomes).
Proof.
  unfold HTTPExecutor.execute_sequential. intros H.
  apply bind_Ok_inv in H as (l1 & u & l2 & Hemit & Hloop & ->).
  unfold emit in Hemit. inversion Hemit; subst.
  apply sequential_loop_inv in Hloop as (outcomes & Hmap & -> & ->).
  exists outcomes. rewrite fold_append. auto.
Qed.

Lemma execute_sequential_returns (endpoints : list PyVal)
    (outcomes : list (ExecutionStatus * ExecutionResult.t)) :
  map outcome_of (enumerate endpoints) = map Ok outcomes ->
  HTTPExecutor.execute_sequential self endpoints default_payload
  = (PrintSequential :: List.concat (map events_of (enumerate endpoints)),
     Ok (bucket SUCCESS outcomes, bucket WARNING outcomes, bucket ERROR outcomes)).
Proof.
  intros Hmap. unfold HTTPExecutor.execute_sequential.
  rewrite (sequential_loop_returns _ _ _ _ _ Hmap). rewrite fold_append. reflexivity.
Qed.

Lemma execute_parallel_inv (endpoints : list PyVal)
    (as_completed : list (nat * PyVal)) (log : list Event)
    (buckets : HTTPExecutor.Buckets) :
  HTTPExecutor.execute_parallel self endpoints default_payload as_completed
  = (log, Ok buckets) ->
  exists outcomes,
    map outcome_of as_completed = map Ok outcomes /\
    log = [PrintParallel (HTTPExecutor.max_workers self);
           ThreadPoolExecutorCall (HTTPExecutor.max_workers self)] /\
    ThreadPoolExecutor_init (HTTPExecutor.max_workers self) = None /\
    buckets = (bucket SUCCESS outcomes, bucket WARNING outcomes, bucket ERROR outcomes).
Proof.
  unfold HTTPExecutor.execute_parallel. intros H.
  apply bind_Ok_inv in H as (l1 & u1 & l2 & Hemit1 & H & ->).
  apply bind_Ok_inv in H as (l3 & u2 & l4 & Hemit2 & H & ->).
  unfold emit in Hemit1, Hemit2. inversion Hemit1; inversion Hemit2; subst.
  destruct (ThreadPoolExecutor_init (HTTPExecutor.max_workers self)) as [exc |];
    [discriminate |].
  apply completion_loop_inv in H as (outcomes & Hmap & -> & ->).
  exists outcomes. rewrite fold_append. auto.
Qed.

Lemma execute_parallel_returns (endpoints : list PyVal)
    (as_completed : list (nat * PyVal))
    (outcomes : list (ExecutionStatus * ExecutionResult.t)) :
  ThreadPoolExecutor_init (HTTPExecutor.max_workers self) = None ->
  map outcome_of as_completed = map Ok outcomes ->
  HTTPExecutor.execute_parallel self endpoints default_payload as_completed
  = ([PrintParallel (HTTPExecutor.max_workers self);
      ThreadPoolExecutorCall (HTTPExecutor.max_workers self)],
     Ok (bucket SUCCESS outcomes, bucket WARNING outcomes, bucket ERROR outcomes)).
Proof.
  intros Hpool Hmap. unfold HTTPExecutor.execute_parallel. rewrite Hpool.
  rewrite (completion_loop_returns _ _ _ _ _ Hmap). rewrite fold_append. reflexivity.
Qed.

(** Whichever mode runs, returned buckets are the three classes of one
    outcome per endpoint. *)
Lemma execute_inv (endpoints : list PyVal) (parallel : PyVal)
    (as_completed : list (nat * PyVal)) (log : list Event)
    (buckets : HTTPExecutor.Buckets) :
  Permutation as_completed (enumerate endpoints) ->
  HTTPExecutor.execute self endpoints parallel default_payload as_completed
  = (log, Ok buckets) ->
  exists outcomes,
    Permutation (map Ok outcomes) (map outcome_of (enumerate endpoints)) /\
    Forall (fun sr => status (snd sr) = fst sr) outcomes /\
    buckets = (bucket SUCCESS outcomes, bucket WARNING outcomes, bucket ERROR outcomes).
Proof.
  intros Hperm. unfold HTTPExecutor.execute.
  destruct (negb (truthy parallel) || (List.length endpoints <=? 1)%nat); intros H.
  - apply execute_sequential_inv in H as (outcomes & Hmap & _ & ->).
    exists outcomes. rewrite Hmap. split; [reflexivity |].
    split; [eapply outcomes_consistent; exact Hmap | reflexivity].
  - apply execute_parallel_inv in H as (outcomes & Hmap & _ & _ & ->).
    exists outcomes. rewrite <- Hmap.
    split; [apply Permutation_map; exact Hperm |].
    split; [eapply outcomes_consistent; exact Hmap | reflexivity].
Qed.

End Executor.

(** C1. In either mode, when the executor hands back its three buckets for
    a list of endpoints (the futures of a parallel run completing in any
    order), the summary built from them has
    [total_endpoints = successful + warnings + failed]; and there is one
    runner outcome per endpoint such that the three lists of the summary
    are exactly the outcomes classified SUCCESS, WARNING and ERROR: every
    result in a list has that list's classification, and the three lists
    together hold every result once. *)
Theorem summary_partitions_results :
  forall {host : Host} (self : HTTPExecutor.t) (endpoints : list PyVal)
         (parallel default_payload : PyVal) (as_completed : list (nat * PyVal))
         (log : list Event) (buckets : HTTPExecutor.Buckets),
    Permutation as_completed (enumerate endpoints) ->
    HTTPExecutor.execute self endpoints parallel default_payload as_completed
    = (log, Ok buckets) ->
    let s := App.build_summary endpoints parallel buckets in
    total_endpoints s = successful s + warnings s + failed s /\
    exists outcomes,
      Permutation (map Ok outcomes)
                  (map (runner_result self default_payload) (enumerate endpoints)) /\
      results s = bucket SUCCESS outcomes /\
      details_warnings s = bucket WARNING outcomes /\
      details_errors s = map inl (bucket ERROR outcomes) /\
      successful s = Z.of_nat (List.length (bucket SUCCESS outcomes)) /\
      warnings s = Z.of_nat (List.length (bucket WARNING outcomes)) /\
      failed s = Z.of_nat (List.length (bucket ERROR outcomes)) /\
      Forall (fun x => status x = SUCCESS) (bucket SUCCESS outcomes) /\
      Forall (fun x => status x = WARNING) (bucket WARNING outcomes) /\
      Forall (fun x => status x = ERROR) (bucket ERROR outcomes) /\
      Permutation
        (bucket SUCCESS outcomes ++ bucket WARNING outcomes ++ bucket ERROR outcomes)
        (map snd outcomes).
Proof.
  intros host self endpoints parallel dp order log buckets Hperm Hexec.
  destruct (execute_inv _ _ _ _ _ _ _ Hperm Hexec) as (outcomes & Hout & Hcons & ->).
  assert (Hlen : List.length outcomes = List.length endpoints).
  { apply Permutation_length in Hout.
    rewrite !length_map, enumerate_length in Hout. exact Hout. }
  simpl. split.
  - pose proof (bucket_lengths outcomes). lia.
  - exists outcomes. repeat split; try reflexivity; try assumption.
    + apply bucket_status; exact Hcons.
    + apply bucket_status; exact Hcons.
    + apply bucket_status; exact Hcons.
    + apply bucket_permutation.
Qed.

(** C9. When the parallel flag is false, or there are at most one
    endpoint, [execute] is [execute_sequential]: the runner is called for the
    endpoints one after the other in input order (the trace is the banner
    followed by the calls' own traces in that order), it returns as soon as
    every call returns, and each bucket then lists, in input order, the
    results of the endpoints of its classification. *)
Theorem sequential_mode_keeps_input_order :
  forall {host : Host} (self : HTTPExecutor.t) (endpoints : list PyVal)
         (parallel default_payload : PyVal) (as_completed : list (nat * PyVal)),
    truthy parallel = false \/ (List.length endpoints <= 1)%nat ->
    HTTPExecutor.execute self endpoints parallel default_payload as_completed
    = HTTPExecutor.execute_sequential self endpoints default_payload /\
    (forall outcomes,
        map (runner_result self default_payload) (enumerate endpoints) = map Ok outcomes ->
        HTTPExecutor.execute self endpoints parallel default_payload as_completed
        = (PrintSequential ::
             List.concat (map (runner_trace self default_payload) (enumerate endpoints)),
           Ok (bucket SUCCESS outcomes, bucket WARNING outcomes, bucket ERROR outcomes))) /\
    (forall log buckets,
        HTTPExecutor.execute self endpoints parallel default_payload as_completed
        = (log, Ok buckets) ->
        exists outcomes,
          map (runner_result self default_payload) (enumerate endpoints) = map Ok outcomes /\
          log = PrintSequential ::
                  List.concat (map (runner_trace self default_payload) (enumerate endpoints)) /\
          buckets = (bucket SUCCESS outcomes, bucket WARNING outcomes, bucket ERROR outcomes)).
Proof.
  intros host self endpoints parallel dp order Hmode.
  assert (Heq : HTTPExecutor.execute self endpoints parallel dp order
                = HTTPExecutor.execute_sequential self endpoints dp).
  { unfold HTTPExecutor.execute.
    destruct Hmode as [Hp | Hlen].
    - rewrite Hp. reflexivity.
    - apply Nat.leb_le in Hlen. rewrite Hlen, orb_true_r. reflexivity. }
  split; [exact Heq |]. rewrite Heq. split.
  - intros outcomes Hmap. apply execute_sequential_returns. exact Hmap.
  - intros log buckets H. apply execute_sequential_inv. exact H.
Qed.

(** ** Worker pool size *)

Section PoolSize.
Context {host : Host}.

Lemma completion_loop_log (self : HTTPExecutor.t) (dp : PyVal)
    (completed : list (nat * PyVal)) (acc : HTTPExecutor.Buckets) :
  fst (HTTPExecutor.completion_loop self dp completed acc) = [].
Proof.
  revert acc. induction completed as [| [i raw] completed IH]; intros acc.
  - reflexivity.
  - cbn [HTTPExecutor.completion_loop].
    destruct (HTTPExecutor.future_result self i raw dp) as [sr | exc].
    + rewrite bind_lift_Ok. apply IH.
    + reflexivity.
Qed.

Lemma execute_parallel_log (self : HTTPExecutor.t) (endpoints : list PyVal)
    (dp : PyVal) (as_completed : list (nat * PyVal)) :
  fst (HTTPExecutor.execute_parallel self endpoints dp as_completed)
  = [PrintParallel (HTTPExecutor.max_workers self);
     ThreadPoolExecutorCall (HTTPExecutor.max_workers self)].
Proof.
  unfold HTTPExecutor.execute_parallel.
  destruct (ThreadPoolExecutor_init (HTTPExecutor.max_workers self)) as [exc |].
  - reflexivity.
  - pose proof (completion_loop_log self dp as_completed ([], [], [])) as Hlog.
    destruct (HTTPExecutor.completion_loop self dp as_completed ([], [], []))
      as [l r]. simpl in Hlog. subst l. reflexivity.
Qed.

Lemma fst_bind_ret {A B} (m : M A) (f : A -> B) :
  fst (bind m (fun a => ret (f a))) = fst m.
Proof.
  destruct m as [l [a | e]]; simpl; [apply app_nil_r | reflexivity].
Qed.

(** The trace of the POST branch is the executor's. *)
Lemma post_log (st : App.State) (data : PyDict) (endpoints : list PyVal)
    (order : list (nat * PyVal)) :
  App.request_endpoints st data = Ok endpoints ->
  fst (App.execute_endpoints_post st (PDict data) order)
  = fst (HTTPExecutor.execute
           (HTTPExecutor.mk
              (get_default data "max_workers" (PInt (default_max_workers endpoints))))
           endpoints (get_default data "parallel" (PBool true))
           (py_or (get data "default_payload") (get data "payload")) order).
Proof.
  intros Hends. unfold App.execute_endpoints_post.
  replace (py_or (PDict data) (PDict [])) with (PDict data)
    by (destruct data; reflexivity).
  simpl py_mapping. rewrite bind_lift_Ok. rewrite Hends, bind_lift_Ok.
  match goal with
  | |- fst (bind ?m _) = _ => destruct m as [l [b | e]]
  end; simpl; [apply app_nil_r | reflexivity].
Qed.

End PoolSize.

(** C8, as the code has it. For a POST whose run is parallel (the flag is
    truthy and there are two endpoints or more), exactly one thread pool is
    opened, with [max_workers] equal to the request's ["max_workers"] value
    when the body has that key, whatever the number of endpoints, and to
    [min(10, len(endpoints))] when it has not. *)
Theorem post_pool_max_workers :
  forall {host : Host} (st : App.State) (data : PyDict) (endpoints : list PyVal)
         (as_completed : list (nat * PyVal)),
    App.request_endpoints st data = Ok endpoints ->
    truthy (get_default data "parallel" (PBool true)) = true ->
    (2 <= List.length endpoints)%nat ->
    (forall requested,
        dict_lookup data "max_workers" = Some requested ->
        pool_calls (fst (App.execute_endpoints_post st (PDict data) as_completed))
        = [requested]) /\
    (dict_lookup data "max_workers" = None ->
     pool_calls (fst (App.execute_endpoints_post st (PDict data) as_completed))
     = [PInt (Z.min 10 (Z.of_nat (List.length endpoints)))]).
Proof.
  intros host st data endpoints order Hends Hpar Hlen.
  assert (Hlog : pool_calls (fst (App.execute_endpoints_post st (PDict data) order))
                 = [get_default data "max_workers" (PInt (default_max_workers endpoints))]).
  { rewrite (post_log _ _ _ _ Hends). unfold HTTPExecutor.execute. rewrite Hpar.
    replace (List.length endpoints <=? 1)%nat with false
      by (symmetry; apply Nat.leb_gt; lia).
    simpl negb. simpl orb. cbv iota. rewrite execute_parallel_log. reflexivity. }
  split.
  - intros requested Hreq. rewrite Hlog. unfold get_default. rewrite Hreq. reflexivity.
  - intros Hnone. rewrite Hlog. unfold get_default. rewrite Hnone.
    unfold default_max_workers.
    replace (List.length endpoints =? 0)%nat with false
      by (symmetry; apply Nat.eqb_neq; lia).
    reflexivity.
Qed.

(** ** Endpoint configuration *)

Module Import EC := EndpointConfig.

Lemma from_config_cases_unsupported {host : Host} (config : PyVal) :
  str_or_dict config = false ->
  from_config config
  = Raise (mkExc ValueError
             ("Invalid endpoint configuration type: " ++ type_repr config)%string).
Proof. destruct config; simpl; intros H; try discriminate; reflexivity. Qed.

(** C7, as the code has it. [from_config] fails, with a [ValueError] that
    names the type, exactly on descriptors that are neither a string nor a
    mapping. A mapping whose ["method"] (default ["POST"]) is a string is
    always accepted, and its [url] is whatever [get("url")] gives: [None]
    when the key is absent, the empty string when it is empty. A mapping
    whose ["method"] is no string fails on [.upper()] with an
    [AttributeError]. *)
Theorem from_config_failures :
  forall {host : Host} (config : PyVal),
    (str_or_dict config = false ->
     from_config config
     = Raise (mkExc ValueError
                ("Invalid endpoint configuration type: " ++ type_repr config)%string)) /\
    (forall d m,
        config = PDict d ->
        get_default d "method" (PStr "POST") = PStr m ->
        exists cfg,
          from_config config = Ok cfg /\
          url cfg = get d "url" /\
          EC.method cfg = str_upper m) /\
    (forall s,
        config = PStr s ->
        exists cfg,
          from_config config = Ok cfg /\ url cfg = PStr s /\ EC.method cfg = "POST") /\
    (forall d,
        config = PDict d ->
        (forall m, get_default d "method" (PStr "POST") <> PStr m) ->
        exists message, from_config config = Raise (mkExc AttributeError message)).
Proof.
  intros host config. repeat split.
  - apply from_config_cases_unsupported.
  - intros d m -> Hm. simpl. rewrite Hm. simpl. eexists. repeat split.
  - intros s ->. simpl. eexists. repeat split.
  - intros d -> Hm. simpl.
    destruct (get_default d "method" (PStr "POST")) eqn:E; simpl;
      try (eexists; reflexivity).
    exfalso. eapply Hm. reflexivity.
Qed.

(** ** Body selection *)

Lemma from_config_mapping_fields {host : Host} (d : PyDict) (cfg : EndpointConfig.t) :
  from_config (PDict d) = Ok cfg ->
  json_data cfg = get d "json" /\ body cfg = get d "body".
Proof.
  simpl. destruct (upper (get_default d "method" (PStr "POST"))) as [m | e];
    [| discriminate].
  intros H. injection H as <-. split; reflexivity.
Qed.

(** The three steps of the selection, in the order the code takes them. *)
Lemma resolved_body_cases (cfg : EndpointConfig.t) (default_payload : PyVal) :
  HTTPExecutor.resolved_body cfg default_payload =
  if truthy (json_data cfg) then json_data cfg
  else if is_none (body cfg)
       then (if truthy default_payload then default_payload else PNone)
       else body cfg.
Proof.
  unfold HTTPExecutor.resolved_body, py_or.
  destruct (truthy (json_data cfg)) eqn:Hj.
  - destruct (json_data cfg); try discriminate; reflexivity.
  - destruct (body cfg); reflexivity.
Qed.

Lemma request_of_mapping (cfg : EndpointConfig.t) (default_payload : PyVal)
    (entries : PyDict) :
  HTTPExecutor.resolved_body cfg default_payload = PDict entries ->
  req_json (HTTPExecutor.request_of cfg default_payload) = PDict entries /\
  req_data (HTTPExecutor.request_of cfg default_payload) = PNone.
Proof.
  intros Hdict. unfold HTTPExecutor.request_of. simpl. rewrite Hdict. split; reflexivity.
Qed.

Lemma request_of_raw (cfg : EndpointConfig.t) (default_payload : PyVal) :
  (forall entries, HTTPExecutor.resolved_body cfg default_payload <> PDict entries) ->
  req_json (HTTPExecutor.request_of cfg default_payload) = PNone /\
  req_data (HTTPExecutor.request_of cfg default_payload)
  = HTTPExecutor.resolved_body cfg default_payload.
Proof.
  intros Hother. unfold HTTPExecutor.request_of. simpl.
  destruct (HTTPExecutor.resolved_body cfg default_payload) eqn:E;
    try (split; reflexivity).
  exfalso. eapply Hother. reflexivity.
Qed.

(** The body selection of the executor. For a mapping descriptor that
    [from_config] accepts, the payload of the request is the ["json"] field when that is
    truthy, whether or not a ["body"] is given; otherwise the ["body"]
    field when it is not [None]; otherwise, both being absent or [None],
    the default payload when that is truthy, and nothing at all when it is
    not. The payload leaves as [json=] when it is a mapping and as [data=]
    when it is not. *)
Theorem request_body_selection :
  forall {host : Host} (d : PyDict) (cfg : EndpointConfig.t) (default_payload : PyVal),
    from_config (PDict d) = Ok cfg ->
    (truthy (get d "json") = true ->
     HTTPExecutor.resolved_body cfg default_payload = get d "json") /\
    (truthy (get d "json") = false -> get d "body" <> PNone ->
     HTTPExecutor.resolved_body cfg default_payload = get d "body") /\
    (truthy (get d "json") = false -> get d "body" = PNone ->
     truthy default_payload = true ->
     HTTPExecutor.resolved_body cfg default_payload = default_payload) /\
    (truthy (get d "json") = false -> get d "body" = PNone ->
     truthy default_payload = false ->
     HTTPExecutor.resolved_body cfg default_payload = PNone) /\
    (forall entries,
        HTTPExecutor.resolved_body cfg default_payload = PDict entries ->
        req_json (HTTPExecutor.request_of cfg default_payload) = PDict entries /\
        req_data (HTTPExecutor.request_of cfg default_payload) = PNone) /\
    ((forall entries, HTTPExecutor.resolved_body cfg default_payload <> PDict entries) ->
     req_json (HTTPExecutor.request_of cfg default_payload) = PNone /\
     req_data (HTTPExecutor.request_of cfg default_payload)
     = HTTPExecutor.resolved_body cfg default_payload).
Proof.
  intros host d cfg dp Hcfg.
  destruct (from_config_mapping_fields d cfg Hcfg) as [Hjson Hbody].
  pose proof (resolved_body_cases cfg dp) as Hres.
  rewrite Hjson, Hbody in Hres.
  split; [| split; [| split; [| split; [| split]]]].
  - intros Hj. rewrite Hres, Hj. reflexivity.
  - intros Hj Hb. rewrite Hres, Hj.
    destruct (get d "body"); try reflexivity. contradiction.
  - intros Hj Hb Hdp. rewrite Hres, Hj, Hb, Hdp. reflexivity.
  - intros Hj Hb Hdp. rewrite Hres, Hj, Hb, Hdp. reflexivity.
  - intros entries Hdict. apply request_of_mapping. exact Hdict.
  - intros Hother. apply request_of_raw. exact Hother.
Qed.

(** C6. Where a descriptor gives both a truthy ["body"] and a truthy
    ["json"], the executor's payload is the ["json"] field, while the
    [execute_request] it was made from, on the same descriptor and default
    payload, takes the ["body"] field, as the specification has it: the two
    operands of the [or] changed places. *)
Theorem executor_takes_json_where_legacy_takes_body :
  forall {host : Host} (d : PyDict) (cfg : EndpointConfig.t) (default_payload : PyVal),
    from_config (PDict d) = Ok cfg ->
    truthy (get d "body") = true ->
    truthy (get d "json") = true ->
    HTTPExecutor.resolved_body cfg default_payload = get d "json" /\
    Legacy.endpoint_mapping (PDict d) = Ok d /\
    Legacy.resolved_body d default_payload = get d "body".
Proof.
  intros host d cfg dp Hcfg Hbody Hjson.
  destruct (from_config_mapping_fields d cfg Hcfg) as [Hj Hb].
  split; [| split; [reflexivity |]].
  - unfold HTTPExecutor.resolved_body, py_or. rewrite Hj, Hjson.
    destruct (get d "json"); try reflexivity. discriminate.
  - unfold Legacy.resolved_body, py_or. rewrite Hbody.
    destruct (get d "body"); try reflexivity. discriminate.
Qed.

(** ** Failures at the single-request runner *)


(** ** The authentication gate *)

Module Import AK := APIKeyAuthenticator.

Lemma key_eqb_eq (a b : option string) : key_eqb a b = true <-> a = b.
Proof.
  destruct a as [x |], b as [y |]; simpl; split; intros H;
    try reflexivity; try discriminate.
  - apply String.eqb_eq in H. congruence.
  - injection H as ->. apply String.eqb_refl.
Qed.

(** C5, as the code has it. With no secret configured, [validate] lets
    every credential through. With a secret configured it raises the 401
    rejection when the header is absent or empty, the 403 rejection when
    the header is non-empty and differs from the secret, and lets a
    non-empty header equal to the secret through. *)
Theorem validate_gate_cases :
  (forall provided, validate (init None) provided = Ok tt) /\
  (forall secret,
      rejection_code (validate (init (Some secret)) None) = Some 401) /\
  (forall secret,
      rejection_code (validate (init (Some secret)) (Some "")) = Some 401) /\
  (forall secret provided,
      provided <> "" -> provided <> secret ->
      rejection_code (validate (init (Some secret)) (Some provided)) = Some 403) /\
  (forall secret,
      secret <> "" -> validate (init (Some secret)) (Some secret) = Ok tt).
Proof.
  split; [| split; [| split; [| split]]].
  - intros provided. reflexivity.
  - intros secret. reflexivity.
  - intros secret. reflexivity.
  - intros secret provided Hne Hdiff. unfold validate, init. simpl.
    destruct (String.eqb_spec provided "") as [E | _]; [contradiction |].
    destruct (String.eqb_spec provided secret) as [E | _]; [contradiction |].
    reflexivity.
  - intros secret Hne. unfold validate, init. simpl.
    destruct (String.eqb_spec secret "") as [E | _]; [contradiction |].
    rewrite String.eqb_refl. reflexivity.
Qed.

(** With no secret configured and outside testing mode, a handler that
    returns is answered unchanged by the decorated route. *)
Lemma gate_disabled_passes {R} (current_app : option PyDict)
    (X_API_Key : option string) (func : unit -> M R) (log : list Event) (r : R) :
  func tt = (log, Ok r) ->
  decorated_function None current_app X_API_Key func = (log, Ok (Handled r)).
Proof.
  intros Hf. unfold decorated_function.
  destruct (truthy _ && key_eqb X_API_Key (Some "test-api-key-123")).
  - rewrite Hf. simpl. rewrite app_nil_r. reflexivity.
  - simpl. rewrite Hf. simpl. rewrite app_nil_r. reflexivity.
Qed.

(** C10. In testing mode a request whose [X-API-Key] header is the literal
    [test-api-key-123] reaches the handler directly: whatever key is
    configured, [validate] is not consulted and the answer is the
    handler's. *)
Theorem testing_key_reaches_handler :
  forall (R : Type) (API_KEY : option string) (config : PyDict) (func : unit -> M R),
    truthy (get_default config "TESTING" (PBool false)) = true ->
    decorated_function API_KEY (Some config) (Some "test-api-key-123") func
    = (r <- func tt ;; ret (Handled r)).
Proof.
  intros R API_KEY config func Htest. unfold decorated_function.
  rewrite Htest. reflexivity.
Qed.

(** ** The [/execute] route *)

Section Route.
Context {host : Host}.

(** X22. The POST branch answers 500 when the error bucket is not empty,
    else 207 when the warning bucket is not empty, else 200, and its
    success flag is set exactly when both counts are zero. *)
Lemma post_status_and_success (st : App.State) (json : PyVal)
    (order : list (nat * PyVal)) (log : list Event)
    (s : ExecutionSummary.t) (code : Z) :
  App.execute_endpoints_post st json order = (log, Ok (s, code)) ->
  code = match details_errors s, details_warnings s with
         | _ :: _, _ => 500
         | [], _ :: _ => 207
         | [], [] => 200
         end /\
  (ResponseBody.success (to_dict s) = true <-> warnings s = 0 /\ failed s = 0).
Proof.
  intros H. apply post_answer_inv in H
    as (data & endpoints & [[r w] e] & _ & _ & _ & Hs & ->).
  split; [| apply success_iff].
  pose proof (handle_email_frame (get_default data "send_email" (PBool false))
                (App.build_summary endpoints (get_default data "parallel" (PBool true))
                   (r, w, e))) as F.
  rewrite <- Hs in F. simpl in F.
  destruct F as (_ & _ & Hw & Hf & _ & Hdw & Hde & _).
  unfold get_http_status, has_errors, has_warnings. rewrite Hw, Hf, Hdw, Hde.
  destruct e as [| x e]; simpl; [destruct w as [| y w]; reflexivity | reflexivity].
Qed.

(** Every summary the POST branch answers with balances its counts,
    however the futures of a parallel run complete. *)
Lemma post_counts_balance (st : App.State) (data : PyDict) (endpoints : list PyVal)
    (order : list (nat * PyVal)) (log : list Event)
    (s : ExecutionSummary.t) (code : Z) :
  App.request_endpoints st data = Ok endpoints ->
  Permutation order (enumerate endpoints) ->
  App.execute_endpoints_post st (PDict data) order = (log, Ok (s, code)) ->
  total_endpoints s = successful s + warnings s + failed s.
Proof.
  intros Hends Hperm H. apply post_answer_inv in H
    as (data' & endpoints' & buckets & Hdata & Hends' & Hexec & Hs & _).
  replace (py_or (PDict data) (PDict [])) with (PDict data) in Hdata
    by (destruct data; reflexivity).
  simpl in Hdata. injection Hdata as <-.
  rewrite Hends in Hends'. injection Hends' as <-.
  destruct (execute_inv _ _ _ _ _ _ _ Hperm Hexec) as (outcomes & Hout & _ & ->).
  pose proof (handle_email_frame (get_default data "send_email" (PBool false))
                (App.build_summary endpoints (get_default data "parallel" (PBool true))
                   (bucket SUCCESS outcomes, bucket WARNING outcomes,
                    bucket ERROR outcomes))) as F.
  rewrite <- Hs in F. simpl in F. destruct F as (-> & -> & -> & -> & _).
  apply Permutation_length in Hout.
  rewrite !length_map, enumerate_length in Hout.
  pose proof (bucket_lengths outcomes). lia.
Qed.

(** Every answer of the GET branch balances its counts. *)
Lemma get_counts_balance (st : App.State) (log : list Event)
    (body : ResponseBody.t) (code : Z) :
  App.execute_endpoints_get st = (log, Ok (body, code)) ->
  ResponseBody.total_endpoints body
  = ResponseBody.successful body + ResponseBody.warnings body + ResponseBody.failed body.
Proof.
  unfold App.execute_endpoints_get. intros H.
  apply bind_lift_Ok_inv in H as (endpoints & _ & H).
  destruct endpoints as [| ep endpoints].
  - inversion H; subst. reflexivity.
  - destruct (HTTPExecutor.execute _ (ep :: endpoints) (PBool false) PNone [])
      as [l [[[r w] e] | ex]] eqn:Hexec.
    + inversion H; subst. cbn [ResponseBody.total_endpoints ResponseBody.successful
                                 ResponseBody.warnings ResponseBody.failed].
      apply execute_sequential_inv in Hexec as (outcomes & Hmap & _ & Hb).
      injection Hb as -> -> ->.
      pose proof (bucket_lengths outcomes) as Hlen.
      apply (f_equal (@List.length _)) in Hmap.
      rewrite !length_map, enumerate_length in Hmap. simpl in Hmap.
      rewrite ?Zpos_P_of_succ_nat. lia.
    + inversion H; subst. cbn. lia.
Qed.

End Route.

(** C3, at the input that separates the two branches. One configured
    endpoint answers 207. The POST branch answers 207 with the success flag
    unset; the GET branch reports the same single warning and no failure,
    yet answers 200 with the success flag set. *)
Theorem get_execute_overlooks_warnings :
  exists log body log' body',
    @App.execute_endpoints stub_host
      (App.mkState (Some [PStr "http://x/warn"]) (Ok [])) "GET" PNone []
    = (log, Ok (body, 200)) /\
    ResponseBody.warnings body = 1 /\
    ResponseBody.failed body = 0 /\
    ResponseBody.success body = true /\
    @App.execute_endpoints stub_host
      (App.mkState (Some [PStr "http://x/warn"]) (Ok [])) "POST" PNone []
    = (log', Ok (body', 207)) /\
    ResponseBody.warnings body' = 1 /\
    ResponseBody.failed body' = 0 /\
    ResponseBody.success body' = false.
Proof.
  do 4 eexists. split; [vm_compute; reflexivity |].
  split; [reflexivity |]. split; [reflexivity |]. split; [reflexivity |].
  split; [vm_compute; reflexivity |].
  split; [reflexivity |]. split; reflexivity.
Qed.

(** * Instances on the stubbed host *)

(** A parallel run over three endpoints whose futures complete in reverse
    order. *)
Lemma summary_partitions_results_witness :
  Permutation (rev (enumerate ok_warn_bad)) (enumerate ok_warn_bad) /\
  @HTTPExecutor.execute stub_host stub_executor ok_warn_bad (PBool true) PNone
    (rev (enumerate ok_warn_bad))
  = (parallel_log, Ok ok_warn_bad_buckets) /\
  total_endpoints (App.build_summary ok_warn_bad (PBool true) ok_warn_bad_buckets)
  = successful (App.build_summary ok_warn_bad (PBool true) ok_warn_bad_buckets)
    + warnings (App.build_summary ok_warn_bad (PBool true) ok_warn_bad_buckets)
    + failed (App.build_summary ok_warn_bad (PBool true) ok_warn_bad_buckets).
Proof.
  assert (Hp : Permutation (rev (enumerate ok_warn_bad)) (enumerate ok_warn_bad))
    by (symmetry; apply Permutation_rev).
  assert (He : @HTTPExecutor.execute stub_host stub_executor ok_warn_bad (PBool true)
                 PNone (rev (enumerate ok_warn_bad))
               = (parallel_log, Ok ok_warn_bad_buckets))
    by (vm_compute; reflexivity).
  exact (conj Hp (conj He
           (proj1 (@summary_partitions_results stub_host _ _ _ _ _ _ _ Hp He)))).
Defined.

(** A sequential run over the three endpoints: each bucket receives its
    result and the trace walks the endpoints in input order. *)
Lemma sequential_mode_keeps_input_order_witness :
  (truthy (PBool false) = false \/ (List.length ok_warn_bad <= 1)%nat) /\
  map (@runner_result stub_host stub_executor PNone) (enumerate ok_warn_bad)
  = map Ok ok_warn_bad_outcomes /\
  @HTTPExecutor.execute stub_host stub_executor ok_warn_bad (PBool false) PNone []
  = (PrintSequential ::
       List.concat (map (@runner_trace stub_host stub_executor PNone)
                        (enumerate ok_warn_bad)),
     Ok ok_warn_bad_buckets).
Proof.
  assert (Hmode : truthy (PBool false) = false \/ (List.length ok_warn_bad <= 1)%nat)
    by (left; reflexivity).
  assert (Hmap : map (@runner_result stub_host stub_executor PNone) (enumerate ok_warn_bad)
                 = map Ok ok_warn_bad_outcomes)
    by (vm_compute; reflexivity).
  exact (conj Hmode (conj Hmap
           (proj1 (proj2 (@sequential_mode_keeps_input_order stub_host stub_executor
                            ok_warn_bad (PBool false) PNone [] Hmode))
              ok_warn_bad_outcomes Hmap))).
Defined.

(** One success, one warning and one refused connection, run
    sequentially: the counts are 1, 1, 1 of 3 and the answer is 500. *)
Example ok_warn_bad_post_answer :
  exists log s,
    @App.execute_endpoints_post stub_host unconfigured
      (PDict [("endpoints", PList ok_warn_bad); ("parallel", PBool false)]) []
    = (log, Ok (s, 500)) /\
    (total_endpoints s, successful s, warnings s, failed s) = (3, 1, 1, 1) /\
    success s = false.
Proof.
  do 2 eexists. split; [vm_compute; reflexivity |]. split; reflexivity.
Qed.

(** A single endpoint runs sequentially although a parallel run was asked
    for. *)
Example single_endpoint_runs_sequentially :
  fst (@HTTPExecutor.execute stub_host stub_executor [PStr "http://x/ok"]
         (PBool true) PNone [(0%nat, PStr "http://x/ok")])
  = [PrintSequential;
     PrintExecuting (PStr "http://x/ok");
     HttpRequest 0 (mkRequest "POST" (PStr "http://x/ok") (PDict []) (PDict [])
                      (PInt 30) PNone PNone);
     PrintCompleted (PStr "http://x/ok") 200].
Proof. reflexivity. Qed.

(** Fifty workers asked for two endpoints: the pool is opened with fifty. *)
Lemma post_pool_max_workers_witness :
  App.request_endpoints unconfigured fifty_workers
  = Ok [PStr "http://x/ok"; PStr "http://x/warn"] /\
  truthy (get_default fifty_workers "parallel" (PBool true)) = true /\
  (2 <= List.length [PStr "http://x/ok"; PStr "http://x/warn"])%nat /\
  pool_calls (fst (@App.execute_endpoints_post stub_host unconfigured
                     (PDict fifty_workers) []))
  = [PInt 50].
Proof.
  assert (Hends : App.request_endpoints unconfigured fifty_workers
                  = Ok [PStr "http://x/ok"; PStr "http://x/warn"]) by reflexivity.
  assert (Hpar : truthy (get_default fifty_workers "parallel" (PBool true)) = true)
    by reflexivity.
  assert (Hlen : (2 <= List.length [PStr "http://x/ok"; PStr "http://x/warn"])%nat)
    by (simpl; lia).
  exact (conj Hends (conj Hpar (conj Hlen
           (proj1 (@post_pool_max_workers stub_host unconfigured fifty_workers _ []
                     Hends Hpar Hlen)
              (PInt 50) eq_refl)))).
Defined.

(** C8 as stated fails: were the pool sized [min(requested, count)], with
    ten requested by default, fifty workers asked for two endpoints would
    open a pool of two. *)
Lemma pool_size_is_not_capped_by_endpoint_count :
  ~ (forall (host : Host) (st : App.State) (data : PyDict) (endpoints : list PyVal)
            (as_completed : list (nat * PyVal)) (requested : Z),
        App.request_endpoints st data = Ok endpoints ->
        truthy (get_default data "parallel" (PBool true)) = true ->
        (2 <= List.length endpoints)%nat ->
        get_default data "max_workers" (PInt 10) = PInt requested ->
        pool_calls (fst (App.execute_endpoints_post st (PDict data) as_completed))
        = [PInt (Z.min requested (Z.of_nat (List.length endpoints)))]).
Proof.
  intros claim.
  specialize (claim stub_host unconfigured fifty_workers
                [PStr "http://x/ok"; PStr "http://x/warn"] [] 50
                eq_refl eq_refl).
  assert (Hlen : (2 <= List.length [PStr "http://x/ok"; PStr "http://x/warn"])%nat)
    by (simpl; lia).
  specialize (claim Hlen eq_refl). vm_compute in claim. discriminate.
Qed.

(** C7 as stated fails: a mapping without a [url] is accepted. *)
Lemma from_config_accepts_missing_url :
  ~ (forall (host : Host) (d : PyDict),
        get d "url" = PNone \/ get d "url" = PStr "" ->
        exists exc, from_config (PDict d) = Raise exc).
Proof.
  intros claim.
  destruct (claim stub_host [("method", PStr "GET")] (or_introl eq_refl))
    as [exc Hexc].
  discriminate.
Qed.

(** A descriptor with both fields: the JSON document is what is sent. *)
Lemma request_body_selection_witness :
  @from_config stub_host (PDict body_and_json) = Ok body_and_json_config /\
  truthy (get body_and_json "json") = true /\
  HTTPExecutor.resolved_body body_and_json_config PNone
  = PDict [("data", PStr "value")].
Proof.
  assert (Hcfg : @from_config stub_host (PDict body_and_json) = Ok body_and_json_config)
    by reflexivity.
  assert (Hj : truthy (get body_and_json "json") = true) by reflexivity.
  exact (conj Hcfg (conj Hj
           (proj1 (@request_body_selection stub_host body_and_json
                     body_and_json_config PNone Hcfg) Hj))).
Defined.

Lemma executor_takes_json_where_legacy_takes_body_witness :
  @from_config stub_host (PDict body_and_json) = Ok body_and_json_config /\
  truthy (get body_and_json "body") = true /\
  truthy (get body_and_json "json") = true /\
  HTTPExecutor.resolved_body body_and_json_config PNone
  = PDict [("data", PStr "value")] /\
  Legacy.endpoint_mapping (PDict body_and_json) = Ok body_and_json /\
  Legacy.resolved_body body_and_json PNone = PStr "raw data".
Proof.
  assert (Hcfg : @from_config stub_host (PDict body_and_json) = Ok body_and_json_config)
    by reflexivity.
  assert (Hb : truthy (get body_and_json "body") = true) by reflexivity.
  assert (Hj : truthy (get body_and_json "json") = true) by reflexivity.
  exact (conj Hcfg (conj Hb (conj Hj
           (@executor_takes_json_where_legacy_takes_body stub_host body_and_json
              body_and_json_config PNone Hcfg Hb Hj)))).
Defined.

(** With both fields given, the payload is not the body. *)
Lemma body_does_not_take_precedence :
  ~ (forall (host : Host) (d : PyDict) (cfg : EndpointConfig.t)
            (default_payload : PyVal),
        dict_lookup d "body" <> None ->
        dict_lookup d "json" <> None ->
        from_config (PDict d) = Ok cfg ->
        HTTPExecutor.resolved_body cfg default_payload = get d "body").
Proof.
  intros claim.
  assert (H : HTTPExecutor.resolved_body body_and_json_config PNone
              = get body_and_json "body").
  { apply (claim stub_host); [discriminate | discriminate | reflexivity]. }
  vm_compute in H. discriminate.
Qed.


(** The batch that holds such a descriptor is lost with it. *)
Example sequential_run_raises_with_runner :
  snd (@HTTPExecutor.execute stub_host stub_executor
         [PStr "http://x/ok"; numeric_method] (PBool false) PNone [])
  = Raise (mkExc AttributeError "'int' object has no attribute 'upper'").
Proof. reflexivity. Qed.

(** A descriptor that is a number becomes an ERROR result named by its
    position. *)
Example number_descriptor_is_an_error_result :
  @runner_result stub_host stub_executor PNone (7%nat, PInt 12345)
  = Ok (ERROR,
        ExecutionResult.mk (PStr "endpoint_7") "UNKNOWN" 0 PNone
          (Some "Invalid endpoint configuration type: <class 'int'>") ERROR).
Proof. reflexivity. Qed.

(** C5 as stated fails: an empty header differs from the secret and is
    answered 401. *)
Lemma empty_header_is_rejected_as_missing :
  ~ (forall secret provided : string,
        provided <> secret ->
        rejection_code (validate (init (Some secret)) (Some provided)) = Some 403).
Proof.
  intros claim.
  assert (H : rejection_code (validate (init (Some "s3cret")) (Some "")) = Some 403)
    by (apply claim; discriminate).
  vm_compute in H. discriminate.
Qed.

(** In testing mode the fixed key passes a gate whose configured secret
    would reject it. *)
Lemma testing_key_reaches_handler_witness :
  truthy (get_default [("TESTING", PBool true)] "TESTING" (PBool false)) = true /\
  decorated_function (Some "prod-secret") (Some [("TESTING", PBool true)])
    (Some "test-api-key-123") (fun _ => ret (PStr "handled"))
  = ([], Ok (Handled (PStr "handled"))) /\
  rejection_code (validate (init (Some "prod-secret")) (Some "test-api-key-123"))
  = Some 403.
Proof.
  assert (Htest : truthy (get_default [("TESTING", PBool true)] "TESTING" (PBool false))
                  = true) by reflexivity.
  exact (conj Htest (conj
           (testing_key_reaches_handler PyVal (Some "prod-secret")
              [("TESTING", PBool true)] (fun _ => ret (PStr "handled")) Htest)
           eq_refl)).
Defined.

(** Outside testing mode the same request is turned away. *)
Example fixed_key_is_rejected_outside_testing :
  decorated_function (Some "prod-secret") (Some [("TESTING", PBool false)])
    (Some "test-api-key-123") (fun _ => ret (PStr "handled"))
  = ([], Ok (Rejected "Invalid X-API-Key"
                      "Invalid X-API-Key. The provided API key is not valid." 403)).
Proof. reflexivity. Qed.

(** * Further properties *)

(** ** The two modes fill the same buckets *)

Lemma map_Ok_inj {A} (l1 l2 : list A) : map (@Ok A) l1 = map Ok l2 -> l1 = l2.
Proof.
  revert l2. induction l1 as [| a l1 IH]; intros [| b l2] H; try discriminate.
  - reflexivity.
  - simpl in H. injection H as -> H. f_equal. apply IH. exact H.
Qed.

Lemma bucket_Permutation (s : ExecutionStatus)
    (o1 o2 : list (ExecutionStatus * ExecutionResult.t)) :
  Permutation o1 o2 -> Permutation (bucket s o1) (bucket s o2).
Proof.
  unfold bucket. induction 1 as [| x l l' _ IH | x y l | l l' l'' _ IH1 _ IH2]; simpl.
  - constructor.
  - destruct (ExecutionStatus_eqb (fst x) s); simpl; [constructor |]; exact IH.
  - destruct (ExecutionStatus_eqb (fst x) s), (ExecutionStatus_eqb (fst y) s); simpl;
      try apply Permutation_refl. apply perm_swap.
  - eapply Permutation_trans; eassumption.
Qed.

Section Modes.
Context {host : Host}.
Variables (self : HTTPExecutor.t) (default_payload : PyVal).

#[local] Abbreviation res_of := (runner_result self default_payload).

Lemma all_return_iff (todo : list (nat * PyVal)) :
  Forall (fun ir => exists o, res_of ir = Ok o) todo <->
  exists outcomes, map res_of todo = map Ok outcomes.
Proof.
  split.
  - induction 1 as [| ir todo [o Ho] _ [outcomes IH]].
    + exists []. reflexivity.
    + exists (o :: outcomes). simpl. rewrite Ho, IH. reflexivity.
  - intros [outcomes H]. revert outcomes H.
    induction todo as [| ir todo IH]; intros [| o outcomes] H; try discriminate.
    + constructor.
    + simpl in H. injection H as Ho H. constructor; [exists o; exact Ho | eauto].
Qed.

(** X1. When a sequential run and a parallel run over the same endpoints
    both return, each bucket of the one is a rearrangement of the same
    bucket of the other, whatever order the futures completed in. *)
Theorem buckets_agree_across_modes :
  forall (endpoints : list PyVal) (as_completed : list (nat * PyVal))
         (ls lp : list Event) (r w e r' w' e' : list ExecutionResult.t),
    Permutation as_completed (enumerate endpoints) ->
    HTTPExecutor.execute_sequential self endpoints default_payload
    = (ls, Ok (r, w, e)) ->
    HTTPExecutor.execute_parallel self endpoints default_payload as_completed
    = (lp, Ok (r', w', e')) ->
    Permutation r r' /\ Permutation w w' /\ Permutation e e'.
Proof.
  intros endpoints order ls lp r w e r' w' e' Hperm Hs Hp.
  apply execute_sequential_inv in Hs as (os & Hms & _ & Hbs).
  apply execute_parallel_inv in Hp as (op & Hmp & _ & _ & Hbp).
  injection Hbs as -> -> ->. injection Hbp as -> -> ->.
  assert (Hop : Permutation os op).
  { pose proof (Permutation_map res_of Hperm) as Hm.
    rewrite Hms, Hmp in Hm.
    apply Permutation_map_inv in Hm as (l3 & Heq & Hl3).
    apply map_Ok_inj in Heq. subst l3. exact Hl3. }
  repeat split; apply bucket_Permutation; exact Hop.
Qed.

(** X2. A parallel run returns its buckets exactly when the pool
    constructor accepts the worker count and the sequential run over the
    same endpoints returns: no completion order makes an exception appear
    or disappear. *)
Theorem parallel_returns_iff_sequential_returns :
  forall (endpoints : list PyVal) (as_completed : list (nat * PyVal)),
    Permutation as_completed (enumerate endpoints) ->
    ((exists lp bp,
         HTTPExecutor.execute_parallel self endpoints default_payload as_completed
         = (lp, Ok bp)) <->
     (ThreadPoolExecutor_init (HTTPExecutor.max_workers self) = None /\
      exists ls bs,
        HTTPExecutor.execute_sequential self endpoints default_payload = (ls, Ok bs))).
Proof.
  intros endpoints order Hperm. split.
  - intros (lp & bp & Hp).
    apply execute_parallel_inv in Hp as (op & Hmp & _ & Hpool & _).
    split; [exact Hpool |].
    assert (Hall : Forall (fun ir => exists o, res_of ir = Ok o) (enumerate endpoints)).
    { eapply Permutation_Forall; [exact Hperm |]. apply all_return_iff. eauto. }
    apply all_return_iff in Hall as [os Hms].
    rewrite (execute_sequential_returns _ _ _ _ Hms). eauto.
  - intros (Hpool & ls & bs & Hs).
    apply execute_sequential_inv in Hs as (os & Hms & _ & _).
    assert (Hall : Forall (fun ir => exists o, res_of ir = Ok o) order).
    { eapply Permutation_Forall; [symmetry; exact Hperm |]. apply all_return_iff. eauto. }
    apply all_return_iff in Hall as [op Hmp].
    rewrite (execute_parallel_returns _ _ _ _ _ Hpool Hmp). eauto.
Qed.

End Modes.

(** ** What the buckets hold *)

Lemma classify_inv (c : Z) :
  match _classify_status c with
  | SUCCESS => 200 <= c <= 299 /\ c <> 207
  | WARNING => c = 207
  | ERROR => ~ 200 <= c <= 299
  end.
Proof.
  unfold _classify_status.
  destruct (Z.eqb_spec c 207) as [E | N]; [exact E |].
  destruct (Z.leb_spec 200 c), (Z.ltb_spec c 300); simpl; lia.
Qed.

Lemma from_response_well_formed (name : PyVal) (m : string) (resp : Response) :
  well_formed_result (from_response name m resp).
Proof.
  unfold well_formed_result, from_response. simpl.
  pose proof (classify_inv (resp_status_code resp)) as H.
  destruct (_classify_status (resp_status_code resp)).
  - destruct H as [Hr Hn]. split; [exact Hr | split; [exact Hn | reflexivity]].
  - split; [exact H | reflexivity].
  - split; [exact H | eexists; reflexivity].
Qed.

Lemma from_error_well_formed (name : PyVal) (message : string) :
  well_formed_result (from_error name message).
Proof.
  unfold well_formed_result. simpl. split; [lia | eexists; reflexivity].
Qed.

Section Shape.
Context {host : Host}.
Variables (self : HTTPExecutor.t) (default_payload : PyVal).

Lemma runner_well_formed (idx : nat) (raw : PyVal) (log : list Event)
    (s : ExecutionStatus) (x : ExecutionResult.t) :
  HTTPExecutor.execute_single_endpoint self idx raw default_payload = (log, Ok (s, x)) ->
  well_formed_result x.
Proof.
  destruct (from_config raw) as [cfg | exc] eqn:Hcfg.
  - destruct (requests_request idx (HTTPExecutor.request_of cfg default_payload))
      as [resp | exc] eqn:Hreq.
    + rewrite (runner_response _ _ _ _ _ _ Hcfg Hreq). intros H. inversion H.
      apply from_response_well_formed.
    + destruct (HTTPExecutor.caught exc) eqn:Hc.
      * rewrite (runner_transport_error _ _ _ _ _ _ Hcfg Hreq Hc).
        intros H. inversion H. apply from_error_well_formed.
      * rewrite (runner_transport_escape _ _ _ _ _ _ Hcfg Hreq Hc). discriminate.
  - destruct (HTTPExecutor.caught exc) eqn:Hc.
    + rewrite (runner_config_error _ _ _ _ _ Hcfg Hc). intros H. inversion H.
      apply from_error_well_formed.
    + rewrite (runner_config_escape _ _ _ _ _ Hcfg Hc). discriminate.
Qed.

Lemma outcomes_well_formed (todo : list (nat * PyVal))
    (outcomes : list (ExecutionStatus * ExecutionResult.t)) :
  map (runner_result self default_payload) todo = map Ok outcomes ->
  Forall (fun sr => well_formed_result (snd sr)) outcomes.
Proof.
  revert outcomes. induction todo as [| [i raw] todo IH]; intros [| [s x] outcomes] H;
    try discriminate; [constructor |].
  simpl in H. injection H as Hhd Htl. constructor; [| apply IH; exact Htl].
  simpl. unfold runner_result in Hhd. simpl in Hhd.
  destruct (HTTPExecutor.execute_single_endpoint self i raw default_payload)
    as [l res] eqn:Hrun.
  simpl in Hhd. subst res. eapply runner_well_formed. exact Hrun.
Qed.

Lemma bucket_Forall (P : ExecutionResult.t -> Prop) (s : ExecutionStatus)
    (outcomes : list (ExecutionStatus * ExecutionResult.t)) :
  Forall (fun sr => P (snd sr)) outcomes -> Forall P (bucket s outcomes).
Proof.
  unfold bucket. induction 1 as [| sr outcomes Hx _ IH]; simpl; [constructor |].
  destruct (ExecutionStatus_eqb (fst sr) s); simpl; [constructor |]; assumption.
Qed.

(** X3. Whatever the mode and the completion order, the buckets the
    executor returns hold results of one shape each: a success has a status
    code from 200 to 299 other than 207 and no error message, a warning has
    status code 207 and no error message, an error has an error message and
    a status code outside 200 to 299. *)
Theorem buckets_hold_well_formed_results :
  forall (endpoints : list PyVal) (parallel : PyVal)
         (as_completed : list (nat * PyVal)) (log : list Event)
         (r w e : list ExecutionResult.t),
    HTTPExecutor.execute self endpoints parallel default_payload as_completed
    = (log, Ok (r, w, e)) ->
    Forall (fun x => status x = SUCCESS /\ 200 <= status_code x <= 299 /\
                     status_code x <> 207 /\ error x = None) r /\
    Forall (fun x => status x = WARNING /\ status_code x = 207 /\ error x = None) w /\
    Forall (fun x => status x = ERROR /\ ~ 200 <= status_code x <= 299 /\
                     exists message, error x = Some message) e.
Proof.
  intros endpoints parallel order log r w e Hexec.
  assert (H : exists todo outcomes,
             map (runner_result self default_payload) todo = map Ok outcomes /\
             (r, w, e) = (bucket SUCCESS outcomes, bucket WARNING outcomes,
                          bucket ERROR outcomes)).
  { unfold HTTPExecutor.execute in Hexec.
    destruct (negb (truthy parallel) || (List.length endpoints <=? 1)%nat).
    - apply execute_sequential_inv in Hexec as (os & Hm & _ & Hb). eauto.
    - apply execute_parallel_inv in Hexec as (os & Hm & _ & _ & Hb). eauto. }
  destruct H as (todo & outcomes & Hmap & Hb). injection Hb as -> -> ->.
  pose proof (outcomes_well_formed _ _ Hmap) as Hwf.
  pose proof (outcomes_consistent _ _ _ _ Hmap) as Hcons.
  assert (Hboth : forall s,
             Forall (fun x => status x = s /\ well_formed_result x) (bucket s outcomes)).
  { intros s. apply Forall_forall. intros x Hin. split.
    - pose proof (bucket_status s outcomes Hcons) as Hs.
      rewrite Forall_forall in Hs. apply Hs. exact Hin.
    - pose proof (bucket_Forall well_formed_result s outcomes Hwf) as Hw.
      rewrite Forall_forall in Hw. apply Hw. exact Hin. }
  repeat split.
  - eapply Forall_impl; [| apply (Hboth SUCCESS)].
    intros x [Hs Hw]. unfold well_formed_result in Hw. rewrite Hs in Hw.
    split; [exact Hs | exact Hw].
  - eapply Forall_impl; [| apply (Hboth WARNING)].
    intros x [Hs Hw]. unfold well_formed_result in Hw. rewrite Hs in Hw.
    split; [exact Hs | exact Hw].
  - eapply Forall_impl; [| apply (Hboth ERROR)].
    intros x [Hs Hw]. unfold well_formed_result in Hw. rewrite Hs in Hw.
    split; [exact Hs | exact Hw].
Qed.

End Shape.

(** ** Requests issued by a sequential run *)

Lemma http_requests_app (l1 l2 : list Event) :
  http_requests (l1 ++ l2) = http_requests l1 ++ http_requests l2.
Proof.
  induction l1 as [| ev l1 IH]; [reflexivity |].
  destruct ev; simpl; rewrite ?IH; reflexivity.
Qed.

Lemma combine_seq_indices_NoDup {A} (l : list A) (start : nat) :
  NoDup (map fst (combine (seq start (List.length l)) l)).
Proof.
  revert start. induction l as [| a l IH]; intros start; simpl; [constructor |].
  constructor; [| apply IH].
  intros Hin. apply in_map_iff in Hin as ([j x] & Hj & Hin). simpl in Hj. subst j.
  apply in_combine_l in Hin. apply in_seq in Hin. lia.
Qed.

Lemma enumerate_indices_NoDup {A} (l : list A) : NoDup (map fst (enumerate l)).
Proof. apply combine_seq_indices_NoDup. Qed.

Section Requests.
Context {host : Host}.
Variables (self : HTTPExecutor.t) (default_payload : PyVal).

(** The runner issues one request when the descriptor parses and none
    when it does not, whether or not it then returns. *)
Lemma runner_requests (idx : nat) (raw : PyVal) :
  http_requests (runner_trace self default_payload (idx, raw))
  = if parses raw then [idx] else [].
Proof.
  unfold runner_trace, parses. simpl fst. simpl snd.
  destruct (from_config raw) as [cfg | exc] eqn:Hcfg.
  - destruct (requests_request idx (HTTPExecutor.request_of cfg default_payload))
      as [resp | exc] eqn:Hreq.
    + rewrite (runner_response _ _ _ _ _ _ Hcfg Hreq). reflexivity.
    + destruct (HTTPExecutor.caught exc) eqn:Hc.
      * rewrite (runner_transport_error _ _ _ _ _ _ Hcfg Hreq Hc). reflexivity.
      * rewrite (runner_transport_escape _ _ _ _ _ _ Hcfg Hreq Hc). reflexivity.
  - destruct (HTTPExecutor.caught exc) eqn:Hc.
    + rewrite (runner_config_error _ _ _ _ _ Hcfg Hc). reflexivity.
    + rewrite (runner_config_escape _ _ _ _ _ Hcfg Hc). reflexivity.
Qed.

Lemma requests_of_traces (todo : list (nat * PyVal)) :
  http_requests (List.concat (map (runner_trace self default_payload) todo))
  = map fst (filter (fun ir => parses (snd ir)) todo).
Proof.
  induction todo as [| [i raw] todo IH]; [reflexivity |].
  simpl. rewrite http_requests_app, IH, runner_requests.
  destruct (parses raw); reflexivity.
Qed.

(** X4. A sequential run that returns has issued exactly one request for
    each endpoint whose descriptor [from_config] accepts, none for the
    others, in input order: never more requests than endpoints, and none
    repeated. *)
Theorem sequential_run_requests_each_endpoint_once :
  forall (endpoints : list PyVal) (log : list Event) (buckets : HTTPExecutor.Buckets),
    HTTPExecutor.execute_sequential self endpoints default_payload = (log, Ok buckets) ->
    http_requests log
    = map fst (filter (fun ir => parses (snd ir)) (enumerate endpoints)) /\
    (List.length (http_requests log) <= List.length endpoints)%nat /\
    NoDup (http_requests log).
Proof.
  intros endpoints log buckets H.
  apply execute_sequential_inv in H as (outcomes & _ & -> & _).
  assert (Heq : http_requests
                  (PrintSequential ::
                     List.concat (map (runner_trace self default_payload)
                                      (enumerate endpoints)))
                = map fst (filter (fun ir => parses (snd ir)) (enumerate endpoints))).
  { simpl. apply requests_of_traces. }
  rewrite Heq. split; [reflexivity |]. split.
  - rewrite length_map.
    eapply Nat.le_trans; [apply filter_length_le |].
    rewrite enumerate_length. apply Nat.le_refl.
  - pose proof (enumerate_indices_NoDup endpoints) as Hnd.
    revert Hnd. generalize (enumerate endpoints) as todo.
    induction todo as [| [i raw] todo IH]; simpl; intros Hnd; [constructor |].
    inversion Hnd as [| ? ? Hnotin Hnd']; subst.
    destruct (parses raw); simpl; [| apply IH; exact Hnd'].
    constructor; [| apply IH; exact Hnd'].
    intros Hin. apply Hnotin.
    apply in_map_iff in Hin as (ir & Hir & Hin). apply filter_In in Hin as [Hin _].
    apply in_map_iff. exists ir. auto.
Qed.

End Requests.

(** ** The mode the summary reports *)

(** X5. The [execution_mode] the POST summary reports is the mode the
    executor ran in: it reads ["sequential"] exactly when the run opened
    with the sequential banner, and ["parallel"] exactly when it opened
    with the parallel one. *)
Theorem reported_mode_is_the_mode_run :
  forall {host : Host} (self : HTTPExecutor.t) (endpoints : list PyVal)
         (parallel default_payload : PyVal) (as_completed : list (nat * PyVal))
         (buckets : HTTPExecutor.Buckets),
    (execution_mode (App.build_summary endpoints parallel buckets) = "sequential" /\
     hd_error (fst (HTTPExecutor.execute self endpoints parallel default_payload
                      as_completed))
     = Some PrintSequential) \/
    (execution_mode (App.build_summary endpoints parallel buckets) = "parallel" /\
     hd_error (fst (HTTPExecutor.execute self endpoints parallel default_payload
                      as_completed))
     = Some (PrintParallel (HTTPExecutor.max_workers self))).
Proof.
  intros host self endpoints parallel dp order [[r w] e].
  unfold App.build_summary, HTTPExecutor.execute. simpl execution_mode.
  destruct (truthy parallel); simpl.
  - destruct endpoints as [| a [| b rest]]; simpl.
    + left. split; reflexivity.
    + left. split; [reflexivity |]. unfold HTTPExecutor.execute_sequential.
      destruct (HTTPExecutor.sequential_loop self dp (enumerate [a]) ([], [], []));
        reflexivity.
    + right. split; [reflexivity |].
      rewrite execute_parallel_log. reflexivity.
  - left. split; [reflexivity |]. unfold HTTPExecutor.execute_sequential.
    destruct (HTTPExecutor.sequential_loop self dp (enumerate endpoints) ([], [], []));
      reflexivity.
Qed.

(** ** Outcomes of the decorated route *)

(** X6. With a secret configured and the testing bypass not taken, the
    decorated route answers a missing or empty key with the 401 rejection
    and a different key with the 403 rejection, in both cases without
    calling the handler (the answer and its empty trace are the same for
    every handler); a non-empty key equal to the secret gets the answer of
    a handler that returns. *)
Theorem gate_outcomes :
  forall (R : Type) (secret : string) (current_app : option PyDict)
         (X_API_Key : option string) (func : unit -> M R),
    testing_bypass current_app X_API_Key = false ->
    (falsy_key X_API_Key = true ->
     decorated_function (Some secret) current_app X_API_Key func
     = ([], Ok (Rejected "Missing X-API-Key header"
                  "Missing X-API-Key header. This endpoint requires authentication."
                  401))) /\
    (falsy_key X_API_Key = false -> X_API_Key <> Some secret ->
     decorated_function (Some secret) current_app X_API_Key func
     = ([], Ok (Rejected "Invalid X-API-Key"
                  "Invalid X-API-Key. The provided API key is not valid." 403))) /\
    (falsy_key X_API_Key = false -> X_API_Key = Some secret ->
     forall log r,
       func tt = (log, Ok r) ->
       decorated_function (Some secret) current_app X_API_Key func
       = (log, Ok (Handled r))).
Proof.
  intros R secret app key func Hbypass.
  unfold decorated_function. unfold testing_bypass in Hbypass. rewrite Hbypass.
  unfold validate, init. simpl is_enabled. simpl negb. cbv iota.
  split; [| split].
  - intros Hf. rewrite Hf. reflexivity.
  - intros Hf Hne. rewrite Hf.
    destruct (key_eqb key (Some secret)) eqn:E.
    + apply key_eqb_eq in E. contradiction.
    + reflexivity.
  - intros Hf Heq log r Hfunc. rewrite Hf.
    replace (key_eqb key (Some secret)) with true
      by (symmetry; apply key_eqb_eq; exact Heq).
    simpl. rewrite Hfunc. simpl. rewrite app_nil_r. reflexivity.
Qed.

(** ** POST with nothing to run *)

Section EmptyPost.
Context {host : Host}.

(** X7. A POST that names no endpoints while the configured ones cannot
    be loaded (whatever exception the loader raises) still answers: it
    runs sequentially over no endpoint, issues no request, and returns 200
    with every count at zero and the success flag set. *)
Theorem post_without_configuration_runs_nothing :
  forall (st : App.State) (data : PyDict) (as_completed : list (nat * PyVal))
         (exc : Exc),
    get data "endpoints" = PNone ->
    App.configured_endpoints st = Raise exc ->
    exists s,
      App.execute_endpoints_post st (PDict data) as_completed
      = ([PrintSequential], Ok (s, 200)) /\
      total_endpoints s = 0 /\ successful s = 0 /\ warnings s = 0 /\ failed s = 0 /\
      results s = [] /\ details_warnings s = [] /\ details_errors s = [] /\
      execution_mode s = "sequential" /\
      success s = true.
Proof.
  intros st data order exc Hnone Hconf.
  assert (Hends : App.request_endpoints st data = Ok []).
  { unfold App.request_endpoints. rewrite Hnone, Hconf. reflexivity. }
  unfold App.execute_endpoints_post.
  replace (py_or (PDict data) (PDict [])) with (PDict data)
    by (destruct data; reflexivity).
  simpl py_mapping. rewrite bind_lift_Ok, Hends, bind_lift_Ok.
  assert (Hexec : forall w p dp,
             HTTPExecutor.execute (HTTPExecutor.mk w) [] p dp order
             = ([PrintSequential], Ok ([], [], []))).
  { intros w p dp. unfold HTTPExecutor.execute. simpl.
    rewrite orb_true_r. reflexivity. }
  rewrite Hexec.
  set (base := App.build_summary [] (get_default data "parallel" (PBool true))
                 ([], [], [])).
  set (s := App._handle_email_notification
              (get_default data "send_email" (PBool false)) base).
  pose proof (handle_email_frame (get_default data "send_email" (PBool false)) base) as F.
  cbv zeta in F. fold s in F. destruct F as (Ht & Hs & Hw & Hf & Hr & Hdw & Hde & Hm).
  assert (Hbase : total_endpoints base = 0 /\ successful base = 0 /\ warnings base = 0 /\
                  failed base = 0 /\ results base = [] /\ details_warnings base = [] /\
                  details_errors base = [] /\ execution_mode base = "sequential").
  { unfold base, App.build_summary. simpl. rewrite andb_false_r.
    repeat split; reflexivity. }
  destruct Hbase as (Bt & Bs & Bw & Bf & Br & Bdw & Bde & Bm).
  assert (Hcode : get_http_status s = 200).
  { unfold get_http_status, has_errors, has_warnings.
    rewrite Hf, Hw, Bf, Bw. reflexivity. }
  exists s. split.
  - unfold bind, ret. simpl app. fold base. fold s. rewrite Hcode. reflexivity.
  - unfold success. rewrite Ht, Hs, Hw, Hf, Hr, Hdw, Hde, Hm.
    rewrite Bt, Bs, Bw, Bf, Br, Bdw, Bde, Bm. repeat split; reflexivity.
Qed.

End EmptyPost.

(** * Further instances on the stubbed host *)

Lemma buckets_agree_across_modes_witness :
  Permutation (rev (enumerate ok_warn_bad)) (enumerate ok_warn_bad) /\
  @HTTPExecutor.execute_sequential stub_host stub_executor ok_warn_bad PNone
  = (sequential_log, Ok ok_warn_bad_buckets) /\
  @HTTPExecutor.execute_parallel stub_host stub_executor ok_warn_bad PNone
    (rev (enumerate ok_warn_bad))
  = (parallel_log, Ok ok_warn_bad_buckets) /\
  Permutation (bucket SUCCESS ok_warn_bad_outcomes) (bucket SUCCESS ok_warn_bad_outcomes).
Proof.
  assert (Hp : Permutation (rev (enumerate ok_warn_bad)) (enumerate ok_warn_bad))
    by (symmetry; apply Permutation_rev).
  assert (Hs : @HTTPExecutor.execute_sequential stub_host stub_executor ok_warn_bad PNone
               = (sequential_log,
                  Ok (bucket SUCCESS ok_warn_bad_outcomes,
                      bucket WARNING ok_warn_bad_outcomes,
                      bucket ERROR ok_warn_bad_outcomes)))
    by (vm_compute; reflexivity).
  assert (Hpar : @HTTPExecutor.execute_parallel stub_host stub_executor ok_warn_bad PNone
                   (rev (enumerate ok_warn_bad))
                 = (parallel_log,
                    Ok (bucket SUCCESS ok_warn_bad_outcomes,
                        bucket WARNING ok_warn_bad_outcomes,
                        bucket ERROR ok_warn_bad_outcomes)))
    by (vm_compute; reflexivity).
  exact (conj Hp (conj Hs (conj Hpar
           (proj1 (@buckets_agree_across_modes stub_host stub_executor PNone
                     ok_warn_bad (rev (enumerate ok_warn_bad))
                     sequential_log parallel_log _ _ _ _ _ _ Hp Hs Hpar))))).
Defined.

Lemma parallel_returns_iff_sequential_returns_witness :
  Permutation (rev (enumerate ok_warn_bad)) (enumerate ok_warn_bad) /\
  exists lp bp,
    @HTTPExecutor.execute_parallel stub_host stub_executor ok_warn_bad PNone
      (rev (enumerate ok_warn_bad))
    = (lp, Ok bp).
Proof.
  assert (Hp : Permutation (rev (enumerate ok_warn_bad)) (enumerate ok_warn_bad))
    by (symmetry; apply Permutation_rev).
  assert (Hs : @HTTPExecutor.execute_sequential stub_host stub_executor ok_warn_bad PNone
               = (sequential_log, Ok ok_warn_bad_buckets))
    by (vm_compute; reflexivity).
  exact (conj Hp
           (proj2 (@parallel_returns_iff_sequential_returns stub_host stub_executor PNone
                     ok_warn_bad (rev (enumerate ok_warn_bad)) Hp)
              (conj eq_refl
                 (ex_intro _ sequential_log (ex_intro _ ok_warn_bad_buckets Hs))))).
Defined.

Lemma buckets_hold_well_formed_results_witness :
  @HTTPExecutor.execute stub_host stub_executor ok_warn_bad (PBool true) PNone
    (rev (enumerate ok_warn_bad))
  = (parallel_log, Ok ok_warn_bad_buckets) /\
  Forall (fun x => status x = ERROR /\ ~ 200 <= status_code x <= 299 /\
                   exists message, error x = Some message)
         (bucket ERROR ok_warn_bad_outcomes).
Proof.
  assert (He : @HTTPExecutor.execute stub_host stub_executor ok_warn_bad (PBool true)
                 PNone (rev (enumerate ok_warn_bad))
               = (parallel_log,
                  Ok (bucket SUCCESS ok_warn_bad_outcomes,
                      bucket WARNING ok_warn_bad_outcomes,
                      bucket ERROR ok_warn_bad_outcomes)))
    by (vm_compute; reflexivity).
  exact (conj He
           (proj2 (proj2 (@buckets_hold_well_formed_results stub_host stub_executor PNone
                            ok_warn_bad (PBool true) (rev (enumerate ok_warn_bad))
                            parallel_log _ _ _ He)))).
Defined.

Lemma sequential_run_requests_each_endpoint_once_witness :
  @HTTPExecutor.execute_sequential stub_host stub_executor
    (ok_warn_bad ++ [PInt 12345]) PNone
  = (PrintSequential ::
       List.concat (map (@runner_trace stub_host stub_executor PNone)
                        (enumerate (ok_warn_bad ++ [PInt 12345]))),
     Ok (bucket SUCCESS ok_warn_bad_outcomes,
         bucket WARNING ok_warn_bad_outcomes,
         bucket ERROR ok_warn_bad_outcomes
           ++ [ExecutionResult.mk (PStr "endpoint_3") "UNKNOWN" 0 PNone
                 (Some "Invalid endpoint configuration type: <class 'int'>") ERROR])) /\
  http_requests
    (PrintSequential ::
       List.concat (map (@runner_trace stub_host stub_executor PNone)
                        (enumerate (ok_warn_bad ++ [PInt 12345]))))
  = [0; 1; 2]%nat.
Proof.
  assert (He : @HTTPExecutor.execute_sequential stub_host stub_executor
                 (ok_warn_bad ++ [PInt 12345]) PNone
               = (PrintSequential ::
                    List.concat (map (@runner_trace stub_host stub_executor PNone)
                                     (enumerate (ok_warn_bad ++ [PInt 12345]))),
                  Ok (bucket SUCCESS ok_warn_bad_outcomes,
                      bucket WARNING ok_warn_bad_outcomes,
                      bucket ERROR ok_warn_bad_outcomes
                        ++ [ExecutionResult.mk (PStr "endpoint_3") "UNKNOWN" 0 PNone
                              (Some "Invalid endpoint configuration type: <class 'int'>")
                              ERROR])))
    by (vm_compute; reflexivity).
  exact (conj He
           (proj1 (@sequential_run_requests_each_endpoint_once stub_host stub_executor
                     PNone _ _ _ He))).
Defined.

Lemma gate_outcomes_witness :
  testing_bypass (Some [("TESTING", PBool false)]) (Some "guess") = false /\
  decorated_function (Some "prod-secret") (Some [("TESTING", PBool false)])
    (Some "guess") (fun _ => ret (PStr "handled"))
  = ([], Ok (Rejected "Invalid X-API-Key"
               "Invalid X-API-Key. The provided API key is not valid." 403)).
Proof.
  assert (Hb : testing_bypass (Some [("TESTING", PBool false)]) (Some "guess") = false)
    by reflexivity.
  assert (Hne : Some "guess" <> Some "prod-secret") by discriminate.
  exact (conj Hb
           (proj1 (proj2 (gate_outcomes PyVal "prod-secret"
                            (Some [("TESTING", PBool false)]) (Some "guess")
                            (fun _ => ret (PStr "handled")) Hb))
              eq_refl Hne)).
Defined.

Lemma post_without_configuration_runs_nothing_witness :
  get [("send_email", PBool false)] "endpoints" = PNone /\
  App.configured_endpoints unconfigured
  = Raise (mkExc (OtherException "ConfigurationError")
             "ENDPOINTS environment variable is not set") /\
  exists s,
    @App.execute_endpoints_post stub_host unconfigured
      (PDict [("send_email", PBool false)]) []
    = ([PrintSequential], Ok (s, 200)) /\
    total_endpoints s = 0 /\ successful s = 0 /\ warnings s = 0 /\ failed s = 0 /\
    results s = [] /\ details_warnings s = [] /\ details_errors s = [] /\
    execution_mode s = "sequential" /\
    success s = true.
Proof.
  assert (Hn : get [("send_email", PBool false)] "endpoints" = PNone) by reflexivity.
  assert (Hc : App.configured_endpoints unconfigured
               = Raise (mkExc (OtherException "ConfigurationError")
                          "ENDPOINTS environment variable is not set")) by reflexivity.
  exact (conj Hn (conj Hc
           (@post_without_configuration_runs_nothing stub_host unconfigured
              [("send_email", PBool false)] [] _ Hn Hc))).
Defined.

Lemma post_status_and_success_witness :
  @App.execute_endpoints_post stub_host unconfigured (PDict sequential_three) []
  = (sequential_log, Ok (sequential_three_summary, 500)) /\
  500 = match details_errors sequential_three_summary,
              details_warnings sequential_three_summary with
        | _ :: _, _ => 500
        | [], _ :: _ => 207
        | [], [] => 200
        end.
Proof.
  assert (He : @App.execute_endpoints_post stub_host unconfigured
                 (PDict sequential_three) []
               = (sequential_log, Ok (sequential_three_summary, 500)))
    by (vm_compute; reflexivity).
  exact (conj He
           (proj1 (@post_status_and_success stub_host unconfigured
                     (PDict sequential_three) [] sequential_log
                     sequential_three_summary 500 He))).
Defined.

(** * Attachment names *)

Section StringFacts.

#[local] Abbreviation chars := list_ascii_of_string.

Lemma chars_app (s1 s2 : string) : chars (s1 ++ s2) = chars s1 ++ chars s2.
Proof. induction s1 as [| c s1 IH]; simpl; [| rewrite IH]; reflexivity. Qed.

Lemma starts_with_incl (old s : string) :
  starts_with old s = true -> incl (chars old) (chars s).
Proof.
  revert s. induction old as [| a old IH]; intros s H.
  - intros x [].
  - destruct s as [| b s]; [discriminate |]. simpl in H.
    apply andb_true_iff in H as [Hab Hrest]. apply Ascii.eqb_eq in Hab. subst b.
    intros x [<- | Hx]; [left; reflexivity | right; apply (IH s Hrest); exact Hx].
Qed.

(** Every character of a replacement's result comes from the text or from
    the substitute. *)
Lemma replace_scan_chars (old new : string) (skip : nat) (s : string) (x : ascii) :
  In x (chars (replace_scan old new skip s)) -> In x (chars s) \/ In x (chars new).
Proof.
  revert skip. induction s as [| c rest IH]; intros skip; [simpl; tauto |].
  cbn [replace_scan]. destruct skip as [| k].
  - destruct (starts_with old (String c rest)).
    + rewrite chars_app, in_app_iff. intros [Hn | Hr]; [tauto |].
      apply IH in Hr. simpl. tauto.
    + simpl. intros [<- | Hr]; [tauto |]. apply IH in Hr. tauto.
  - intros Hr. apply IH in Hr. simpl. tauto.
Qed.

(** Replacing a single character leaves none of it behind. *)
Lemma replace_char_absent (a : ascii) (new s : string) :
  ~ In a (chars new) ->
  ~ In a (chars (replace_scan (String a EmptyString) new 0 s)).
Proof.
  intros Hnew. induction s as [| c rest IH]; [simpl; tauto |].
  cbn [replace_scan starts_with String.length Nat.sub].
  destruct (Ascii.eqb_spec a c) as [-> | Hne]; cbn [andb].
  - rewrite chars_app, in_app_iff. tauto.
  - simpl. intros [Hc | Hr]; [congruence | tauto].
Qed.

(** A text that lacks a character of the pattern is left as it is. *)
Lemma replace_scan_absent (old new s : string) (x : ascii) :
  In x (chars old) -> ~ In x (chars s) -> replace_scan old new 0 s = s.
Proof.
  intros Hold. induction s as [| c rest IH]; intros Hs; [reflexivity |].
  cbn [replace_scan].
  destruct (starts_with old (String c rest)) eqn:Hsw.
  - exfalso. apply Hs. apply (starts_with_incl _ _ Hsw). exact Hold.
  - f_equal. apply IH. intros Hin. apply Hs. right. exact Hin.
Qed.

Lemma str_take_chars (n : nat) (s : string) (x : ascii) :
  In x (chars (str_take n s)) -> In x (chars s).
Proof.
  revert s. induction n as [| n IH]; intros [| c s]; simpl; try tauto.
  intros [<- | H]; [tauto | right; apply IH; exact H].
Qed.

Lemma str_take_length (n : nat) (s : string) :
  (String.length (str_take n s) <= n)%nat.
Proof.
  revert s. induction n as [| n IH]; intros [| c s]; simpl; try lia.
  specialize (IH s). lia.
Qed.

Lemma str_take_all (n : nat) (s : string) :
  (String.length s <= n)%nat -> str_take n s = s.
Proof.
  revert s. induction n as [| n IH]; intros [| c s]; simpl; intros H;
    try reflexivity; try lia.
  f_equal. apply IH. lia.
Qed.

Lemma str_slice_to_chars (s : string) (stop : Z) (x : ascii) :
  In x (chars (str_slice_to s stop)) -> In x (chars s).
Proof. unfold str_slice_to. destruct (stop <? 0); apply str_take_chars. Qed.

End StringFacts.

Section Sanitize.

#[local] Abbreviation chars_of := list_ascii_of_string.

(** The text before the cut: schemes dropped, slashes and colons
    replaced. *)
Lemma sanitize_body_clean (endpoint : string) :
  let body :=
    str_replace
      (str_replace
         (str_replace (str_replace endpoint "https://" "") "http://" "") "/" "_")
      ":" "_" in
  ~ In "/"%char (chars_of body) /\ ~ In ":"%char (chars_of body).
Proof.
  cbv zeta. unfold str_replace.
  set (t := replace_scan "http://" "" 0 (replace_scan "https://" "" 0 endpoint)).
  split.
  - intros Hin. apply replace_scan_chars in Hin as [Hin | Hin].
    + revert Hin. apply replace_char_absent. simpl. intros [H | []]. discriminate.
    + simpl in Hin. destruct Hin as [H | []]. discriminate.
  - apply replace_char_absent. simpl. intros [H | []]. discriminate.
Qed.

Lemma sanitize_no_separator (endpoint : string) (max_length : Z) :
  ~ In "/"%char (chars_of (AttachmentBuilder.sanitize_filename endpoint max_length)) /\
  ~ In ":"%char (chars_of (AttachmentBuilder.sanitize_filename endpoint max_length)).
Proof.
  destruct (sanitize_body_clean endpoint) as [Hslash Hcolon].
  unfold AttachmentBuilder.sanitize_filename. split.
  - intros Hin. apply Hslash. eapply str_slice_to_chars. exact Hin.
  - intros Hin. apply Hcolon. eapply str_slice_to_chars. exact Hin.
Qed.

Lemma sanitize_length (endpoint : string) (max_length : Z) :
  0 <= max_length ->
  Z.of_nat (String.length (AttachmentBuilder.sanitize_filename endpoint max_length)) <= max_length.
Proof.
  intros Hpos. unfold AttachmentBuilder.sanitize_filename, str_slice_to.
  replace (max_length <? 0) with false by (symmetry; apply Z.ltb_ge; lia).
  match goal with
  | |- Z.of_nat (String.length (str_take ?n ?s)) <= _ =>
      pose proof (str_take_length n s)
  end. lia.
Qed.

(** X8. A sanitized attachment name holds no slash and no colon, and is at
    most [max_length] characters long when [max_length] is not negative. *)
Theorem sanitize_filename_is_clean :
  forall (endpoint : string) (max_length : Z),
    ~ In "/"%char (chars_of (AttachmentBuilder.sanitize_filename endpoint max_length)) /\
    ~ In ":"%char (chars_of (AttachmentBuilder.sanitize_filename endpoint max_length)) /\
    (0 <= max_length ->
     Z.of_nat (String.length (AttachmentBuilder.sanitize_filename endpoint max_length))
     <= max_length).
Proof.
  intros endpoint max_length.
  destruct (sanitize_no_separator endpoint max_length) as [Hslash Hcolon].
  split; [exact Hslash | split; [exact Hcolon | apply sanitize_length]].
Qed.

(** X9. Sanitizing is idempotent for a non-negative [max_length]: a name
    that has been sanitized is left unchanged by a second pass. *)
Theorem sanitize_filename_idempotent :
  forall (endpoint : string) (max_length : Z),
    0 <= max_length ->
    AttachmentBuilder.sanitize_filename
      (AttachmentBuilder.sanitize_filename endpoint max_length) max_length
    = AttachmentBuilder.sanitize_filename endpoint max_length.
Proof.
  intros endpoint max_length Hpos.
  destruct (sanitize_no_separator endpoint max_length) as [Hslash Hcolon].
  pose proof (sanitize_length endpoint max_length Hpos) as Hlen.
  set (name := AttachmentBuilder.sanitize_filename endpoint max_length) in *.
  unfold AttachmentBuilder.sanitize_filename at 1. unfold str_replace.
  rewrite (replace_scan_absent "https://" "" name "/"%char);
    [| simpl; tauto | exact Hslash].
  rewrite (replace_scan_absent "http://" "" name "/"%char);
    [| simpl; tauto | exact Hslash].
  rewrite (replace_scan_absent "/" "_" name "/"%char);
    [| simpl; tauto | exact Hslash].
  rewrite (replace_scan_absent ":" "_" name ":"%char);
    [| simpl; tauto | exact Hcolon].
  unfold str_slice_to.
  replace (max_length <? 0) with false by (symmetry; apply Z.ltb_ge; lia).
  apply str_take_all. lia.
Qed.

End Sanitize.

Lemma sanitize_filename_idempotent_witness :
  0 <= 10 /\
  AttachmentBuilder.sanitize_filename "http://localhost:3000/task1" 10 = "localhost_" /\
  AttachmentBuilder.sanitize_filename
    (AttachmentBuilder.sanitize_filename "http://localhost:3000/task1" 10) 10
  = AttachmentBuilder.sanitize_filename "http://localhost:3000/task1" 10.
Proof.
  assert (Hpos : 0 <= 10) by lia.
  exact (conj Hpos (conj eq_refl
           (sanitize_filename_idempotent "http://localhost:3000/task1" 10 Hpos))).
Defined.

(** With a negative [max_length] each pass cuts again. *)
Example sanitize_filename_negative_length_cuts_twice :
  AttachmentBuilder.sanitize_filename "http://localhost:3000/task1" (-3)
  = "localhost_3000_ta" /\
  AttachmentBuilder.sanitize_filename "localhost_3000_ta" (-3) = "localhost_3000".
Proof. split; reflexivity. Qed.

(** * Configuration loading *)

Module Import TR := TemplateResolver.

Lemma scan_name_no_brace (s name : string) :
  scan_name s = Some name -> ~ In "}"%char (list_ascii_of_string name).
Proof.
  revert name. induction s as [| c rest IH]; intros name; simpl; [discriminate |].
  destruct (Ascii.eqb_spec c "}") as [-> | Hne].
  - intros H. injection H as <-. simpl. tauto.
  - destruct (scan_name rest) as [n |]; [| discriminate].
    intros H. injection H as <-. simpl. intros [Hc | Hin]; [congruence |].
    exact (IH n eq_refl Hin).
Qed.

Lemma template_at_name (s name : string) :
  template_at s = Some name ->
  name <> "" /\ ~ In "}"%char (list_ascii_of_string name).
Proof.
  unfold template_at. destruct s as [| d [| b body]]; try discriminate.
  destruct (Ascii.eqb d "$" && Ascii.eqb b "{"); [| discriminate].
  destruct (scan_name body) as [[| c n] |] eqn:Hscan; try discriminate.
  intros H. injection H as <-. split; [discriminate |].
  eapply scan_name_no_brace. exact Hscan.
Qed.

(** X10. Every variable name [resolve] finds in a text is non-empty and
    holds no closing brace: [${}] names no variable. *)
Theorem template_names_are_proper :
  forall (text : string),
    Forall (fun name => name <> "" /\ ~ In "}"%char (list_ascii_of_string name))
           (findall 0 text).
Proof.
  intros text. generalize 0%nat as skip.
  induction text as [| c rest IH]; intros skip; [constructor |].
  cbn [findall]. destruct skip as [| k]; [| apply IH].
  destruct (template_at (String c rest)) as [name |] eqn:Hat; [| apply IH].
  constructor; [eapply template_at_name; exact Hat | apply IH].
Qed.

Lemma search_findall (text : string) :
  search text = false <-> findall 0 text = [].
Proof.
  induction text as [| c rest IH]; [simpl; tauto |].
  cbn [search findall].
  destruct (template_at (String c rest)); [split; discriminate | exact IH].
Qed.

Section Resolve.
Variable environ : string -> option string.

(** X11. A text in which the pattern finds no variable, and any value
    that is no string, is returned unchanged, whatever the environment
    holds. *)
Theorem resolve_without_templates :
  forall (text : PyVal),
    has_template_vars text = false -> resolve environ text = Ok text.
Proof.
  intros [| b | n | q | s | items | entries] H; try reflexivity.
  simpl in H. apply search_findall in H.
  unfold resolve, resolve_str. rewrite H. reflexivity.
Qed.

Lemma substitute_outcome (matches : list string) (result : string) :
  match find (fun name => match environ name with None => true | Some _ => false end)
             matches with
  | Some name => substitute environ matches result = Raise (undefined_variable name)
  | None => exists resolved, substitute environ matches result = Ok resolved
  end.
Proof.
  revert result. induction matches as [| name matches IH]; intros result; simpl.
  - eexists. reflexivity.
  - destruct (environ name) as [value |]; [apply IH | reflexivity].
Qed.

(** X12. [resolve] fails exactly when the text refers to a variable the
    environment does not define, and the error it raises is the
    [ConfigurationError] that names the first such variable in order of
    appearance. *)
Theorem resolve_fails_on_first_undefined_variable :
  forall (text : string),
    ((exists exc, resolve_str environ text = Raise exc) <->
     Exists (fun name => environ name = None) (findall 0 text)) /\
    (forall name,
        find (fun name => match environ name with None => true | Some _ => false end)
             (findall 0 text) = Some name ->
        resolve_str environ text = Raise (undefined_variable name)).
Proof.
  intros text. unfold resolve_str.
  pose proof (substitute_outcome (findall 0 text) text) as H.
  destruct (find _ (findall 0 text)) as [name |] eqn:Hfind.
  - split.
    + split; [| intros _; eexists; exact H].
      intros _. apply find_some in Hfind as [Hin Hundef].
      apply Exists_exists. exists name. split; [exact Hin |].
      destruct (environ name); [discriminate | reflexivity].
    + intros n Hn. injection Hn as <-. exact H.
  - split; [| discriminate].
    destruct H as [resolved H]. rewrite H. split.
    + intros [exc Hexc]. discriminate.
    + intros Hex. apply Exists_exists in Hex as (name & Hin & Hundef).
      pose proof (find_none _ _ Hfind name Hin) as Hn. simpl in Hn.
      rewrite Hundef in Hn. discriminate.
Qed.

Lemma resolve_str_raises_configuration_error (text : string) (exc : Exc) :
  resolve_str environ text = Raise exc ->
  exc_class exc = OtherException "ConfigurationError".
Proof.
  unfold resolve_str.
  pose proof (substitute_outcome (findall 0 text) text) as H.
  destruct (find _ (findall 0 text)) as [name |].
  - rewrite H. intros E. injection E as <-. reflexivity.
  - destruct H as [resolved H]. rewrite H. discriminate.
Qed.

Lemma json_loads_argument_raises_configuration_error (exc : Exc) :
  EndpointsLoader.json_loads_argument environ = Raise exc ->
  exc_class exc = OtherException "ConfigurationError".
Proof.
  unfold EndpointsLoader.json_loads_argument.
  destruct (environ "ENDPOINTS") as [[| c raw] |];
    try (intros H; injection H as <-; reflexivity).
  apply resolve_str_raises_configuration_error.
Qed.

Variable json_loads_result : JsonLoads.

Lemma load_from_env_raises (exc : Exc) :
  EndpointsLoader.load_from_env environ json_loads_result = Raise exc ->
  exc_class exc = OtherException "ConfigurationError" \/
  ((exists endpoints_str, EndpointsLoader.json_loads_argument environ = Ok endpoints_str) /\
   json_loads_result = JsonRaises exc).
Proof.
  unfold EndpointsLoader.load_from_env.
  destruct (EndpointsLoader.json_loads_argument environ) as [text | e] eqn:Harg.
  - destruct json_loads_result as [[| b | n | q | s | [| ep items] | entries] | message | e];
      intros H; try discriminate; injection H as <-;
      try (left; reflexivity).
    right. split; [exists text |]; reflexivity.
  - intros H. injection H as <-. left.
    eapply json_loads_argument_raises_configuration_error. exact Harg.
Qed.

Lemma load_from_env_returns_nonempty (endpoints : list PyVal) :
  EndpointsLoader.load_from_env environ json_loads_result = Ok endpoints ->
  endpoints <> [] /\ json_loads_result = JsonValue (PList endpoints) /\
  exists raw, environ "ENDPOINTS" = Some raw /\ raw <> "".
Proof.
  unfold EndpointsLoader.load_from_env, EndpointsLoader.json_loads_argument.
  destruct (environ "ENDPOINTS") as [[| c raw] |] eqn:Henv; try discriminate.
  destruct (resolve_str environ (String c raw)) as [resolved | e]; [| discriminate].
  destruct json_loads_result as [[| b | n | q | s | [| ep items] | entries] | message | e];
    try discriminate.
  intros H. injection H as <-.
  split; [discriminate |]. split; [reflexivity |].
  exists (String c raw). split; [reflexivity | discriminate].
Qed.


End Resolve.

Section LoaderAndRoute.
Context {host : Host}.
Variable environ : string -> option string.
Variable json_loads_result : JsonLoads.

Lemma get_on_loader_failure (exc : Exc) :
  EndpointsLoader.load_from_env environ json_loads_result = Raise exc ->
  App.execute_endpoints_get (state_of_environment environ json_loads_result)
  = match exc_class exc with
    | ValueError => ([], Ok (App.empty_get_body, 200))
    | _ => ([], Raise exc)
    end.
Proof.
  intros Hload.
  unfold App.execute_endpoints_get, App.configured_endpoints, state_of_environment.
  simpl. rewrite Hload. destruct (exc_class exc); reflexivity.
Qed.

(** X14. With [ENDPOINTS_TO_EXECUTE] unset, the GET branch does not
    absorb the [ConfigurationError] of the loader: its [except ValueError]
    does not cover that class, so the exception leaves the handler before
    anything is printed or requested. The one failure of the loader it does
    absorb is a [ValueError] that [json.loads] raised itself: the answer is
    then the one for no endpoints. *)
Theorem get_lets_configuration_errors_escape :
  forall (exc : Exc),
    EndpointsLoader.load_from_env environ json_loads_result = Raise exc ->
    (exc_class exc = OtherException "ConfigurationError" ->
     App.execute_endpoints_get (state_of_environment environ json_loads_result)
     = ([], Raise exc)) /\
    (exc_class exc = ValueError ->
     json_loads_result = JsonRaises exc /\
     App.execute_endpoints_get (state_of_environment environ json_loads_result)
     = ([], Ok (App.empty_get_body, 200))).
Proof.
  intros exc Hload. rewrite (get_on_loader_failure exc Hload). split.
  - intros ->. reflexivity.
  - intros Hclass. rewrite Hclass. split; [| reflexivity].
    destruct (load_from_env_raises environ json_loads_result exc Hload)
      as [Hconf | [_ Hjson]]; [congruence | exact Hjson].
Qed.

(** X15. With [ENDPOINTS_TO_EXECUTE] unset, an answer of the GET branch
    reports as many endpoints as the loader returned, at least one, unless
    [json.loads] itself raised a [ValueError]: only then does the answer
    for no endpoints arise, since the loader never returns an empty
    list. *)
Theorem get_reports_endpoints_unless_json_loads_raises :
  forall (log : list Event) (body : ResponseBody.t) (code : Z),
    App.execute_endpoints_get (state_of_environment environ json_loads_result)
    = (log, Ok (body, code)) ->
    (exists endpoints,
        EndpointsLoader.load_from_env environ json_loads_result = Ok endpoints /\
        ResponseBody.total_endpoints body = Z.of_nat (List.length endpoints) /\
        0 < ResponseBody.total_endpoints body) \/
    (exists exc,
        json_loads_result = JsonRaises exc /\ exc_class exc = ValueError /\
        log = [] /\ body = App.empty_get_body /\ code = 200).
Proof.
  intros log body code H.
  destruct (EndpointsLoader.load_from_env environ json_loads_result)
    as [loaded | exc] eqn:Hload.
  - left. exists loaded. split; [reflexivity |].
    destruct (load_from_env_returns_nonempty environ json_loads_result loaded Hload)
      as [Hne _].
    unfold App.execute_endpoints_get in H.
    apply bind_lift_Ok_inv in H as (endpoints & Hconf & H).
    unfold App.configured_endpoints, state_of_environment in Hconf. cbn in Hconf.
    rewrite Hload in Hconf. injection Hconf as <-.
    destruct loaded as [| ep loaded]; [contradiction |].
    destruct (HTTPExecutor.execute _ (ep :: loaded) (PBool false) PNone [])
      as [l [[[r w] e] | ex]]; inversion H; subst;
      cbn [ResponseBody.total_endpoints]; split; try reflexivity;
      rewrite ?Zpos_P_of_succ_nat; simpl List.length; lia.
  - right. exists exc. rewrite (get_on_loader_failure exc Hload) in H.
    destruct (load_from_env_raises environ json_loads_result exc Hload)
      as [Hconf | [_ Hjson]].
    + rewrite Hconf in H. discriminate.
    + destruct (exc_class exc) eqn:Hclass; try discriminate.
      injection H as <- <- <-. auto.
Qed.

End LoaderAndRoute.

(** ** Validated descriptors *)

(** X16. A descriptor that [validate_endpoint] accepts is a string or a
    mapping with a truthy URL, and whenever the runner returns a result for
    it, that result is reported under the descriptor's own URL: the
    positional name [endpoint_<idx>] is never used for it. *)
Theorem validated_endpoint_keeps_its_url :
  forall {host : Host} (self : HTTPExecutor.t) (idx : nat)
         (raw default_payload : PyVal) (s : ExecutionStatus) (x : ExecutionResult.t),
    EndpointsLoader.validate_endpoint raw = true ->
    runner_result self default_payload (idx, raw) = Ok (s, x) ->
    str_or_dict raw = true /\
    truthy (endpoint x) = true /\
    endpoint x = match raw with
                 | PStr u => PStr u
                 | PDict d => get d "url"
                 | _ => PNone
                 end.
Proof.
  intros host self idx raw dp s x Hvalid Hrun.
  assert (Hurl : str_or_dict raw = true /\
                 forall cfg, from_config raw = Ok cfg ->
                             truthy (url cfg) = true /\
                             url cfg = match raw with
                                       | PStr u => PStr u
                                       | PDict d => get d "url"
                                       | _ => PNone
                                       end).
  { destruct raw as [| b | n | q | u | items | d]; try discriminate.
    - split; [reflexivity |]. intros cfg Hcfg. simpl in Hcfg. injection Hcfg as <-.
      simpl. split; [| reflexivity].
      simpl in Hvalid. destruct u as [| c u]; [discriminate | reflexivity].
    - split; [reflexivity |]. intros cfg Hcfg. simpl in Hcfg.
      destruct (upper (get_default d "method" (PStr "POST"))) as [m | e];
        [| discriminate].
      injection Hcfg as <-. simpl. split; [| reflexivity].
      simpl in Hvalid. unfold get, get_default.
      destruct (dict_lookup d "url") as [v |]; [exact Hvalid | discriminate]. }
  destruct Hurl as [Htype Hurl]. split; [exact Htype |].
  unfold runner_result in Hrun. simpl fst in Hrun. simpl snd in Hrun.
  destruct (from_config raw) as [cfg | exc] eqn:Hcfg.
  - destruct (Hurl cfg eq_refl) as [Htruthy Heq].
    destruct (requests_request idx (HTTPExecutor.request_of cfg dp))
      as [resp | exc] eqn:Hreq.
    + rewrite (runner_response _ _ _ _ _ _ Hcfg Hreq) in Hrun.
      simpl in Hrun. injection Hrun as _ <-. simpl. rewrite <- Heq. auto.
    + destruct (HTTPExecutor.caught exc) eqn:Hc.
      * rewrite (runner_transport_error _ _ _ _ _ _ Hcfg Hreq Hc) in Hrun.
        simpl in Hrun. injection Hrun as _ <-. simpl.
        rewrite name_or_fallback_cases, Htruthy. rewrite <- Heq. auto.
      * rewrite (runner_transport_escape _ _ _ _ _ _ Hcfg Hreq Hc) in Hrun.
        discriminate.
  - exfalso.
    destruct raw as [| b | n | q | u | items | d]; try discriminate.
    simpl in Hcfg.
    destruct (upper (get_default d "method" (PStr "POST"))) as [m | e] eqn:Hup;
      [discriminate |].
    injection Hcfg as <-.
    assert (Hca : HTTPExecutor.caught e = false).
    { destruct (get_default d "method" (PStr "POST")); simpl in Hup;
        try (injection Hup as <-; reflexivity). discriminate. }
    assert (Hcfg' : from_config (PDict d) = Raise e) by (simpl; rewrite Hup; reflexivity).
    rewrite (runner_config_escape _ _ _ _ _ Hcfg' Hca) in Hrun. discriminate.
Qed.

(** * The notification service *)

Lemma with_email_service_sends (host : Host) (mime : MimeHost) (mail : MailHost)
    (config : EmailConfig.t) (execution_context : string)
    (summary : ExecutionSummary.t) :
  @send_notification (with_email_service host mime mail config execution_context) summary
  = @EmailNotificationService.send_notification mime mail config summary
      execution_context.
Proof. reflexivity. Qed.

Module Import AN := AttachmentNames.
Module Import EN := EmailNotificationService.

Lemma safe_name_Ok_iff (v : PyVal) :
  (exists name, safe_name v = Ok name) <-> exists e, v = PStr e.
Proof.
  split.
  - intros [name H]. destruct v; try discriminate. eexists. reflexivity.
  - intros [e ->]. eexists. reflexivity.
Qed.

(** Every [to_dict] image has the keys the HTML sections index, so that
    only the errors section can fail. *)
Lemma to_dict_has_template_keys (self : ExecutionResult.t) (timestamp key : string) :
  In key ["endpoint"; "method"; "status_code"; "timestamp"]%string ->
  exists v, dict_lookup (ExecutionResult_to_dict self timestamp) key = Some v.
Proof.
  unfold ExecutionResult_to_dict.
  intros [<- | [<- | [<- | [<- | []]]]];
    destruct (error self) as [message |];
    try destruct (String.eqb message ""); eexists; reflexivity.
Qed.

Lemma add_errors_section_spec (errors : list (ExecutionResult.t + string)) :
  Forall nameable_entry errors -> EmailTemplateBuilder.add_errors_section errors = Ok tt.
Proof.
  induction errors as [| [x | msg] errors IH]; intros Hall; simpl.
  - reflexivity.
  - apply IH. inversion Hall. assumption.
  - inversion Hall as [| ? ? Hx _]. destruct Hx.
Qed.

Section Assembly.
Context {mime : MimeHost}.

Lemma attach_Ok_inv (data : ExecutionResult.t) (filename : string -> string)
    (rest : Res (list string)) (names : list string) :
  attach data filename rest = Ok names ->
  nameable data /\
  exists tail, rest = Ok tail /\ List.length names = S (List.length tail).
Proof.
  unfold attach.
  destruct (safe_name (endpoint data)) as [name |] eqn:Hname; [| discriminate].
  destruct (create_json_attachment data (filename name)); [discriminate |].
  destruct rest as [tail |]; [| discriminate].
  intros H. injection H as <-. split.
  - apply safe_name_Ok_iff. eexists. exact Hname.
  - exists tail. split; reflexivity.
Qed.

Lemma attach_Ok (data : ExecutionResult.t) (filename : string -> string)
    (tail : list string) :
  attachments_encode -> nameable data ->
  exists names, attach data filename (Ok tail) = Ok names.
Proof.
  intros Henc [e He]. unfold attach. rewrite He. simpl.
  rewrite Henc. eexists. reflexivity.
Qed.

Lemma create_result_attachments_spec (idx : nat) (results : list ExecutionResult.t) :
  (attachments_encode -> Forall nameable results ->
   exists names, create_result_attachments idx results = Ok names) /\
  (forall names, create_result_attachments idx results = Ok names ->
                 Forall nameable results /\ List.length names = List.length results).
Proof.
  revert idx. induction results as [| x results IH]; intros idx; simpl.
  - split; [intros _ _; exists []; auto |].
    intros names H. injection H as <-. auto.
  - destruct (IH (S idx)) as [IH1 IH2]. split.
    + intros Henc Hall. inversion Hall as [| ? ? Hx Hrest]; subst.
      destruct (IH1 Henc Hrest) as (tail & ->). apply attach_Ok; assumption.
    + intros names H. apply attach_Ok_inv in H as (Hx & tail & Htail & ->).
      destruct (IH2 tail Htail) as [Hall ->]. split; [constructor; assumption | reflexivity].
Qed.

Lemma create_warning_attachments_spec (idx : nat) (warnings : list ExecutionResult.t) :
  (attachments_encode -> Forall nameable warnings ->
   exists names, create_warning_attachments idx warnings = Ok names) /\
  (forall names, create_warning_attachments idx warnings = Ok names ->
                 Forall nameable warnings /\ List.length names = List.length warnings).
Proof.
  revert idx. induction warnings as [| x warnings IH]; intros idx; simpl.
  - split; [intros _ _; exists []; auto |].
    intros names H. injection H as <-. auto.
  - destruct (IH (S idx)) as [IH1 IH2]. split.
    + intros Henc Hall. inversion Hall as [| ? ? Hx Hrest]; subst.
      destruct (IH1 Henc Hrest) as (tail & ->). apply attach_Ok; assumption.
    + intros names H. apply attach_Ok_inv in H as (Hx & tail & Htail & ->).
      destruct (IH2 tail Htail) as [Hall ->]. split; [constructor; assumption | reflexivity].
Qed.

Lemma create_error_attachments_spec (idx : nat)
    (errors : list (ExecutionResult.t + string)) :
  (attachments_encode -> Forall nameable_entry errors ->
   exists names, create_error_attachments idx errors = Ok names) /\
  (forall names, create_error_attachments idx errors = Ok names ->
                 Forall nameable_entry errors /\ List.length names = List.length errors).
Proof.
  revert idx. induction errors as [| [x | msg] errors IH]; intros idx; simpl.
  - split; [intros _ _; exists []; auto |].
    intros names H. injection H as <-. auto.
  - destruct (IH (S idx)) as [IH1 IH2]. split.
    + intros Henc Hall. inversion Hall as [| ? ? Hx Hrest]; subst.
      destruct (IH1 Henc Hrest) as (tail & ->). apply attach_Ok; assumption.
    + intros names H. apply attach_Ok_inv in H as (Hx & tail & Htail & ->).
      destruct (IH2 tail Htail) as [Hall ->]. split; [constructor; assumption | reflexivity].
  - split.
    + intros _ Hall. inversion Hall as [| ? ? Hx _]. destruct Hx.
    + intros names H. discriminate.
Qed.

Lemma build_email_message_inv (config : EmailConfig.t) (summary : ExecutionSummary.t)
    (execution_context : string) (message : Envelope) :
  _build_email_message config summary execution_context = Ok message ->
  MIMEText_html summary = None /\
  exists rn wn en,
    create_result_attachments 1 (results summary) = Ok rn /\
    create_warning_attachments 1 (details_warnings summary) = Ok wn /\
    create_error_attachments 1 (details_errors summary) = Ok en /\
    attachment_names message = rn ++ wn ++ en /\
    sender message = opt_or (EmailConfig.email_from config) (EmailConfig.smtp_user config) /\
    recipient message = EmailConfig.email_to config.
Proof.
  unfold _build_email_message. intros H.
  destruct (EmailTemplateBuilder.add_errors_section (details_errors summary));
    [| discriminate].
  destruct (MIMEText_html summary); [discriminate |].
  destruct (create_result_attachments 1 (results summary)) as [rn |]; [| discriminate].
  destruct (create_warning_attachments 1 (details_warnings summary)) as [wn |];
    [| discriminate].
  destruct (create_error_attachments 1 (details_errors summary)) as [en |];
    [| discriminate].
  injection H as <-. split; [reflexivity |].
  exists rn, wn, en. repeat split; reflexivity.
Qed.

Lemma build_email_message_nameable (config : EmailConfig.t) (summary : ExecutionSummary.t)
    (execution_context : string) (message : Envelope) :
  _build_email_message config summary execution_context = Ok message ->
  Forall nameable (results summary) /\
  Forall nameable (details_warnings summary) /\
  Forall nameable_entry (details_errors summary).
Proof.
  intros H.
  apply build_email_message_inv in H as (_ & rn & wn & en & Hr & Hw & He & _).
  split; [| split].
  - apply (proj2 (create_result_attachments_spec 1 _) rn Hr).
  - apply (proj2 (create_warning_attachments_spec 1 _) wn Hw).
  - apply (proj2 (create_error_attachments_spec 1 _) en He).
Qed.

Lemma build_email_message_length (config : EmailConfig.t) (summary : ExecutionSummary.t)
    (execution_context : string) (message : Envelope) :
  _build_email_message config summary execution_context = Ok message ->
  List.length (attachment_names message)
  = (List.length (results summary) + List.length (details_warnings summary)
     + List.length (details_errors summary))%nat.
Proof.
  intros H.
  apply build_email_message_inv in H as (_ & rn & wn & en & Hr & Hw & He & -> & _).
  rewrite !length_app.
  rewrite (proj2 (proj2 (create_result_attachments_spec 1 _) rn Hr)).
  rewrite (proj2 (proj2 (create_warning_attachments_spec 1 _) wn Hw)).
  rewrite (proj2 (proj2 (create_error_attachments_spec 1 _) en He)).
  lia.
Qed.

(** X17. A message that [_build_email_message] assembles carries one
    attachment per reported result, warning and error, and every one of
    them names its endpoint by a string (the error list holding no bare
    string): a result that does not makes the assembly raise. Strings are
    enough for the assembly to succeed when the encoding of the HTML content
    and of the attachments raises nothing; text without a UTF-8 encoding
    makes it raise all the same. *)
Theorem message_has_one_attachment_per_result :
  forall (config : EmailConfig.t) (summary : ExecutionSummary.t)
         (execution_context : string),
    (forall message,
        _build_email_message config summary execution_context = Ok message ->
        (Forall nameable (results summary) /\
         Forall nameable (details_warnings summary) /\
         Forall nameable_entry (details_errors summary)) /\
        MIMEText_html summary = None /\
        List.length (attachment_names message)
        = (List.length (results summary) + List.length (details_warnings summary)
           + List.length (details_errors summary))%nat) /\
    (MIMEText_html summary = None ->
     (forall data filename, create_json_attachment data filename = None) ->
     Forall nameable (results summary) /\
     Forall nameable (details_warnings summary) /\
     Forall nameable_entry (details_errors summary) ->
     exists message,
       _build_email_message config summary execution_context = Ok message) /\
    (forall exc,
        MIMEText_html summary = Some exc ->
        exists exc',
          _build_email_message config summary execution_context = Raise exc').
Proof.
  intros config summary ctx. split; [| split].
  - intros message H. split; [| split].
    + eapply build_email_message_nameable. exact H.
    + apply build_email_message_inv in H as [Hhtml _]. exact Hhtml.
    + eapply build_email_message_length. exact H.
  - intros Hhtml Henc (Hr & Hw & He). unfold _build_email_message.
    rewrite (add_errors_section_spec _ He), Hhtml.
    destruct (proj1 (create_result_attachments_spec 1 _) Henc Hr) as (rn & ->).
    destruct (proj1 (create_warning_attachments_spec 1 _) Henc Hw) as (wn & ->).
    destruct (proj1 (create_error_attachments_spec 1 _) Henc He) as (en & ->).
    eexists. reflexivity.
  - intros exc Hhtml. unfold _build_email_message.
    destruct (EmailTemplateBuilder.add_errors_section (details_errors summary)) as [u | e];
      [| eexists; reflexivity].
    rewrite Hhtml. eexists. reflexivity.
Qed.

End Assembly.

Section Notification.
Context {mime : MimeHost} {mail : MailHost}.

Lemma send_notification_flag (config : EmailConfig.t) (summary : ExecutionSummary.t)
    (execution_context : string) :
  exists b, get (send_notification config summary execution_context) "email_sent" = PBool b.
Proof.
  unfold send_notification.
  destruct (negb (EmailConfig.is_configured config)); [eexists; reflexivity |].
  destruct (_build_email_message config summary execution_context) as [message | exc];
    [| eexists; reflexivity].
  destruct (smtp_deliver _ _ _ _ message); eexists; reflexivity.
Qed.

(** What a notification that went out reports. *)
Lemma send_notification_sent (config : EmailConfig.t) (summary : ExecutionSummary.t)
    (execution_context : string) :
  get (send_notification config summary execution_context) "email_sent" = PBool true ->
  EmailConfig.is_configured config = true /\
  exists message,
    _build_email_message config summary execution_context = Ok message /\
    smtp_deliver (EmailConfig.smtp_host config) (EmailConfig.smtp_port config)
      (opt_or_empty (EmailConfig.smtp_user config))
      (opt_or_empty (EmailConfig.smtp_password config)) message = None /\
    send_notification config summary execution_context
    = [("email_sent", PBool true);
       ("recipient", PyVal_of_option (EmailConfig.email_to config));
       ("from", PyVal_of_option (opt_or (EmailConfig.email_from config)
                                        (EmailConfig.smtp_user config)));
       ("attachments",
        PInt (Z.of_nat (List.length (results summary)
                        + List.length (details_warnings summary)
                        + List.length (details_errors summary))))].
Proof.
  unfold send_notification.
  destruct (EmailConfig.is_configured config); simpl negb; cbv iota;
    [| discriminate].
  destruct (_build_email_message config summary execution_context) as [message | exc];
    [| discriminate].
  destruct (smtp_deliver _ _ _ _ message) as [exc |] eqn:Hsmtp; [discriminate |].
  intros _. split; [reflexivity |]. exists message. auto.
Qed.

(** X18. [send_notification] always answers with a mapping whose
    ["email_sent"] is a boolean. It is true exactly when the configuration
    is complete, the message could be assembled and the SMTP session went
    through; the mapping then reports the recipient, the sender of the
    message, and an attachment count equal to the number of attachments the
    message carries. Otherwise it is false and ["error"] holds the reason:
    the fixed text for an incomplete configuration, or [str(exc)] of the
    exception raised while assembling or sending. *)
Theorem send_notification_outcomes :
  forall (config : EmailConfig.t) (summary : ExecutionSummary.t)
         (execution_context : string),
    (get (send_notification config summary execution_context) "email_sent" = PBool true /\
     EmailConfig.is_configured config = true /\
     exists message,
       _build_email_message config summary execution_context = Ok message /\
       smtp_deliver (EmailConfig.smtp_host config) (EmailConfig.smtp_port config)
         (opt_or_empty (EmailConfig.smtp_user config))
         (opt_or_empty (EmailConfig.smtp_password config)) message = None /\
       get (send_notification config summary execution_context) "attachments"
       = PInt (Z.of_nat (List.length (attachment_names message))) /\
       get (send_notification config summary execution_context) "recipient"
       = PyVal_of_option (recipient message) /\
       get (send_notification config summary execution_context) "from"
       = PyVal_of_option (sender message)) \/
    (get (send_notification config summary execution_context) "email_sent" = PBool false /\
     exists reason,
       get (send_notification config summary execution_context) "error" = PStr reason /\
       (EmailConfig.is_configured config = false \/
        (exists exc,
            _build_email_message config summary execution_context = Raise exc /\
            reason = exc_str exc) \/
        (exists message exc,
            _build_email_message config summary execution_context = Ok message /\
            smtp_deliver (EmailConfig.smtp_host config) (EmailConfig.smtp_port config)
              (opt_or_empty (EmailConfig.smtp_user config))
              (opt_or_empty (EmailConfig.smtp_password config)) message = Some exc /\
            reason = exc_str exc))).
Proof.
  intros config summary ctx. unfold send_notification.
  destruct (EmailConfig.is_configured config) eqn:Hconf; simpl negb; cbv iota.
  - destruct (_build_email_message config summary ctx) as [message | exc] eqn:Hbuild.
    + destruct (smtp_deliver _ _ _ _ message) as [exc |] eqn:Hsmtp.
      * right. split; [reflexivity |]. eexists. split; [reflexivity |].
        right. right. exists message, exc. auto.
      * left. split; [reflexivity |]. split; [reflexivity |].
        exists message. split; [reflexivity |]. split; [exact Hsmtp |].
        rewrite (build_email_message_length _ _ _ _ Hbuild).
        apply build_email_message_inv in Hbuild
          as (_ & rn & wn & en & _ & _ & _ & _ & -> & ->).
        repeat split; reflexivity.
    + right. split; [reflexivity |]. eexists. split; [reflexivity |].
      right. left. exists exc. auto.
  - right. split; [reflexivity |]. eexists. split; [reflexivity |]. left. reflexivity.
Qed.

End Notification.

(** X19. When the configuration is incomplete, or some reported result
    does not name its endpoint by a string, the notification fails
    whatever the mail server would do: no SMTP session takes part in the
    answer. *)
Theorem notification_fails_before_smtp :
  forall {mime : MimeHost} (config : EmailConfig.t) (summary : ExecutionSummary.t)
         (execution_context : string),
    EmailConfig.is_configured config = false \/
    ~ (Forall nameable (results summary) /\
       Forall nameable (details_warnings summary) /\
       Forall nameable_entry (details_errors summary)) ->
    forall (mail mail' : MailHost),
      @send_notification mime mail config summary execution_context
      = @send_notification mime mail' config summary execution_context /\
      get (@send_notification mime mail config summary execution_context) "email_sent"
      = PBool false.
Proof.
  intros mime config summary ctx Hwhy mail mail'. unfold send_notification.
  destruct (EmailConfig.is_configured config) eqn:Hconf; simpl negb; cbv iota.
  - destruct Hwhy as [Hf | Hbad]; [discriminate |].
    destruct (_build_email_message config summary ctx) as [message | exc] eqn:Hbuild.
    + exfalso. apply Hbad. eapply build_email_message_nameable. exact Hbuild.
    + split; reflexivity.
  - split; reflexivity.
Qed.

(** X20. The status text of the e-mail and the HTTP status of the
    response are decided alike: the text reads FAILED exactly when the
    status is 500, COMPLETED WITH WARNINGS exactly when it is 207, and
    SUCCESS exactly when it is 200. *)
Theorem email_status_matches_http_status :
  forall (summary : ExecutionSummary.t),
    (fst (_determine_status_text_and_color summary) = EMAIL_STATUS_FAILED <->
     get_http_status summary = 500) /\
    (fst (_determine_status_text_and_color summary) = EMAIL_STATUS_WARNING <->
     get_http_status summary = 207) /\
    (fst (_determine_status_text_and_color summary) = EMAIL_STATUS_SUCCESS <->
     get_http_status summary = 200).
Proof.
  intros summary. unfold _determine_status_text_and_color, get_http_status.
  destruct (has_errors summary); [| destruct (has_warnings summary)]; simpl;
    repeat split; intros H; try reflexivity; try discriminate.
Qed.

Lemma sent_record_attachments (a b c d : PyVal) :
  get [("email_sent", a); ("email_to", b); ("email_from", c); ("attachments", d)]
      "attachments" = d.
Proof. reflexivity. Qed.

(** X21. When a POST run is notified by the service above and the
    notification goes out, the attachment count recorded in the response
    equals the number of endpoints of the run: every endpoint, whatever its
    bucket, has its attachment. *)
Theorem post_reports_one_attachment_per_endpoint :
  forall (host : Host) (mime : MimeHost) (mail : MailHost) (config : EmailConfig.t)
         (execution_context : string) (st : App.State) (data : PyDict)
         (endpoints : list PyVal) (as_completed : list (nat * PyVal))
         (log : list Event) (s : ExecutionSummary.t) (code : Z),
    App.request_endpoints st data = Ok endpoints ->
    Permutation as_completed (enumerate endpoints) ->
    @App.execute_endpoints_post
      (with_email_service host mime mail config execution_context)
      st (PDict data) as_completed
    = (log, Ok (s, code)) ->
    get (email_notification s) "email_sent" = PBool true ->
    get (email_notification s) "attachments" = PInt (total_endpoints s).
Proof.
  intros host mime mail config ctx st data endpoints order log s code
         Hends Hperm Hpost Hsent.
  apply post_answer_inv in Hpost
    as (data' & endpoints' & buckets & Hdata & Hends' & Hexec & Hs & _).
  replace (py_or (PDict data) (PDict [])) with (PDict data) in Hdata
    by (destruct data; reflexivity).
  simpl in Hdata. injection Hdata as <-.
  rewrite Hends in Hends'. injection Hends' as <-.
  destruct (execute_inv _ _ _ _ _ _ _ Hperm Hexec) as (outcomes & Hout & _ & ->).
  assert (Hlen : List.length outcomes = List.length endpoints).
  { apply Permutation_length in Hout.
    rewrite !length_map, enumerate_length in Hout. exact Hout. }
  pose proof (bucket_lengths outcomes) as Hsum.
  set (base := App.build_summary endpoints (get_default data "parallel" (PBool true))
                 (bucket SUCCESS outcomes, bucket WARNING outcomes,
                  bucket ERROR outcomes)) in *.
  assert (Htotal : total_endpoints s = Z.of_nat (List.length endpoints)).
  { pose proof (@handle_email_frame (with_email_service host mime mail config ctx)
                  (get_default data "send_email" (PBool false)) base) as F.
    cbv zeta in F. rewrite <- Hs in F. destruct F as (-> & _). reflexivity. }
  rewrite Htotal. rewrite Hs in Hsent |- *.
  unfold App._handle_email_notification in Hsent |- *.
  destruct (negb (truthy (get_default data "send_email" (PBool false))));
    [discriminate |].
  rewrite with_email_service_sends in Hsent |- *.
  destruct (send_notification_flag config base ctx) as [[|] Hflag];
    rewrite Hflag in Hsent |- *; simpl truthy in Hsent |- *; cbv iota in Hsent |- *;
    [| discriminate].
  destruct (send_notification_sent config base ctx Hflag) as (_ & message & _ & _ & ->).
  assert (Hcount : (List.length (results base) + List.length (details_warnings base)
                    + List.length (details_errors base))%nat = List.length endpoints).
  { unfold base, App.build_summary.
    cbn [results details_warnings details_errors]. rewrite length_map. lia. }
  cbn [ExecutionSummary.set_email_notification email_notification].
  rewrite sent_record_attachments.
  change (get_default _ "attachments" (PInt 0))
    with (PInt (Z.of_nat (List.length (results base) + List.length (details_warnings base)
                          + List.length (details_errors base)))).
  rewrite Hcount. reflexivity.
Qed.

(** * Instances for configuration and notification *)

Lemma resolve_without_templates_witness :
  has_template_vars (PStr "http://x/ok?brace=${}") = false /\
  resolve empty_environ (PStr "http://x/ok?brace=${}")
  = Ok (PStr "http://x/ok?brace=${}").
Proof.
  assert (H : has_template_vars (PStr "http://x/ok?brace=${}") = false) by reflexivity.
  exact (conj H (resolve_without_templates empty_environ _ H)).
Defined.

(** A variable that is set is replaced wherever it stands; one that is
    not set stops the resolution. *)
Example resolve_replaces_every_occurrence :
  resolve stub_environ (PStr "${TARGET}/a ${TARGET}/b")
  = Ok (PStr "http://x/warn/a http://x/warn/b") /\
  resolve stub_environ (PStr "${TARGET} ${TOKEN}")
  = Raise (undefined_variable "TOKEN").
Proof. split; reflexivity. Qed.

Lemma get_lets_configuration_errors_escape_witness :
  EndpointsLoader.load_from_env object_environ object_json_loads_result
  = Raise (ConfigurationError "ENDPOINTS must be a JSON array") /\
  @App.execute_endpoints_get stub_host
    (state_of_environment object_environ object_json_loads_result)
  = ([], Raise (ConfigurationError "ENDPOINTS must be a JSON array")).
Proof.
  assert (H : EndpointsLoader.load_from_env object_environ object_json_loads_result
              = Raise (ConfigurationError "ENDPOINTS must be a JSON array"))
    by reflexivity.
  exact (conj H
           (proj1 (@get_lets_configuration_errors_escape stub_host object_environ
                     object_json_loads_result _ H) eq_refl)).
Defined.

(** With nothing set the loader raises before [json.loads] is called, and
    GET lets that through as well. *)
Example get_raises_when_endpoints_is_unset :
  forall (json_loads_result : JsonLoads),
    @App.execute_endpoints_get stub_host
      (state_of_environment empty_environ json_loads_result)
    = ([], Raise (ConfigurationError
                    ("ENDPOINTS environment variable is not set. Please configure a "
                     ++ "JSON array of endpoints in the .env file"))).
Proof. intros json_loads_result. reflexivity. Qed.

(** The [ValueError] of an integer too long to convert is absorbed: GET
    answers as if no endpoint were configured. *)
Example get_absorbs_the_value_error_of_json_loads :
  EndpointsLoader.json_loads_argument long_integer_environ = Ok long_integer /\
  @App.execute_endpoints_get stub_host
    (state_of_environment long_integer_environ long_integer_json_loads_result)
  = ([], Ok (App.empty_get_body, 200)).
Proof. split; vm_compute; reflexivity. Qed.

Lemma get_reports_endpoints_unless_json_loads_raises_witness :
  EndpointsLoader.json_loads_argument stub_environ = Ok stub_endpoints_str /\
  @App.execute_endpoints_get stub_host
    (state_of_environment stub_environ stub_json_loads_result)
  = (get_warn_log, Ok (get_warn_body, 200)) /\
  ((exists endpoints,
       EndpointsLoader.load_from_env stub_environ stub_json_loads_result = Ok endpoints /\
       ResponseBody.total_endpoints get_warn_body = Z.of_nat (List.length endpoints) /\
       0 < ResponseBody.total_endpoints get_warn_body) \/
   (exists exc,
       stub_json_loads_result = JsonRaises exc /\ exc_class exc = ValueError /\
       get_warn_log = [] /\ get_warn_body = App.empty_get_body /\ 200 = 200)).
Proof.
  assert (Harg : EndpointsLoader.json_loads_argument stub_environ = Ok stub_endpoints_str)
    by (vm_compute; reflexivity).
  assert (H : @App.execute_endpoints_get stub_host
                (state_of_environment stub_environ stub_json_loads_result)
              = (get_warn_log, Ok (get_warn_body, 200)))
    by (vm_compute; reflexivity).
  exact (conj Harg (conj H
           (@get_reports_endpoints_unless_json_loads_raises stub_host stub_environ
              stub_json_loads_result get_warn_log get_warn_body 200 H))).
Defined.

Lemma validated_endpoint_keeps_its_url_witness :
  EndpointsLoader.validate_endpoint (PStr "http://x/bad") = true /\
  @runner_result stub_host stub_executor PNone (2%nat, PStr "http://x/bad")
  = Ok (ERROR,
        ExecutionResult.mk (PStr "http://x/bad") "UNKNOWN" 0 PNone
          (Some "Connection refused") ERROR) /\
  truthy (PStr "http://x/bad") = true.
Proof.
  assert (Hv : EndpointsLoader.validate_endpoint (PStr "http://x/bad") = true)
    by reflexivity.
  assert (Hr : @runner_result stub_host stub_executor PNone (2%nat, PStr "http://x/bad")
               = Ok (ERROR,
                     ExecutionResult.mk (PStr "http://x/bad") "UNKNOWN" 0 PNone
                       (Some "Connection refused") ERROR)) by reflexivity.
  exact (conj Hv (conj Hr
           (proj1 (proj2 (@validated_endpoint_keeps_its_url stub_host stub_executor
                            2%nat (PStr "http://x/bad") PNone ERROR _ Hv Hr))))).
Defined.

(** A blank string is refused by [validate_endpoint] and accepted by
    [from_config]. *)
Example blank_url_is_not_validated_but_parses :
  EndpointsLoader.validate_endpoint (PStr "   ") = false /\
  @parses stub_host (PStr "   ") = true.
Proof. split; reflexivity. Qed.

Lemma notification_fails_before_smtp_witness :
  (EmailConfig.is_configured incomplete_mail_config = false \/
   ~ (Forall nameable (results sequential_three_summary) /\
      Forall nameable (details_warnings sequential_three_summary) /\
      Forall nameable_entry (details_errors sequential_three_summary))) /\
  @send_notification ascii_mime accepting_mail incomplete_mail_config
    sequential_three_summary "manual"
  = @send_notification ascii_mime refusing_mail incomplete_mail_config
      sequential_three_summary "manual".
Proof.
  assert (H : EmailConfig.is_configured incomplete_mail_config = false \/
              ~ (Forall nameable (results sequential_three_summary) /\
                 Forall nameable (details_warnings sequential_three_summary) /\
                 Forall nameable_entry (details_errors sequential_three_summary)))
    by (left; reflexivity).
  exact (conj H
           (proj1 (@notification_fails_before_smtp ascii_mime incomplete_mail_config
                     sequential_three_summary "manual" H accepting_mail refusing_mail))).
Defined.

(** A result whose endpoint is a number stops the notification although
    the configuration is complete and the server would accept. *)
Example numeric_endpoint_stops_the_notification :
  @send_notification ascii_mime accepting_mail complete_mail_config
    (App.build_summary [PDict [("url", PInt 5)]] (PBool false)
       ([], [], [ExecutionResult.from_error (PInt 5) "Invalid URL"]))
    "manual"
  = [("email_sent", PBool false);
     ("error", PStr "'int' object has no attribute 'replace'")].
Proof. reflexivity. Qed.

Lemma post_reports_one_attachment_per_endpoint_witness :
  App.request_endpoints unconfigured notified_three = Ok ok_warn_bad /\
  Permutation (enumerate ok_warn_bad) (enumerate ok_warn_bad) /\
  @App.execute_endpoints_post notifying_host unconfigured (PDict notified_three)
    (enumerate ok_warn_bad)
  = (sequential_log, Ok (notified_three_summary, 500)) /\
  get (email_notification notified_three_summary) "email_sent" = PBool true /\
  get (email_notification notified_three_summary) "attachments" = PInt 3.
Proof.
  assert (He : App.request_endpoints unconfigured notified_three = Ok ok_warn_bad)
    by reflexivity.
  assert (Hp : Permutation (enumerate ok_warn_bad) (enumerate ok_warn_bad))
    by apply Permutation_refl.
  assert (Hpost : @App.execute_endpoints_post notifying_host unconfigured
                    (PDict notified_three) (enumerate ok_warn_bad)
                  = (sequential_log, Ok (notified_three_summary, 500)))
    by (vm_compute; reflexivity).
  assert (Hsent : get (email_notification notified_three_summary) "email_sent"
                  = PBool true) by (vm_compute; reflexivity).
  exact (conj He (conj Hp (conj Hpost (conj Hsent
           (post_reports_one_attachment_per_endpoint stub_host ascii_mime accepting_mail
              complete_mail_config "manual" unconfigured notified_three ok_warn_bad
              (enumerate ok_warn_bad) sequential_log notified_three_summary 500
              He Hp Hpost Hsent))))).
Defined.
